(** * CluX: AI response cache and cost accounting

    A shallow embedding of the caching / cost-accounting core of the
    application:

    - [AICacheService]   (lib/ai-cache.ts): [generateHash], [get], [set],
      [delete], [clearExpired], [clearByType], [clearAll], [getStats],
      [estimateCostSavings], [getCountByType], [getCacheSize];
    - [APIUsageTracker]  (lib/api-usage-tracker.ts): [COST_RATES],
      [calculateCost], [trackUsage], [getUsageStats],
      [estimateCachedOriginalCost], [getCostByVideo], [checkBudgetAlert];
    - the cached orchestrators (lib/ai-services.ts):
      [transcribeAudioCached], [generateHighlightsCached],
      [generateEmbeddingsCached], [generateSummaryCached],
      [extractKeyTopicsCached], and [detectSpeakers].

    Conventions of the model.
    - A JavaScript [number] is a rational ([Q]); NaN and the infinities are
      not represented, and IEEE rounding is idealised away.  Numeric results
      are compared with [==] ([Qeq]).
    - An [async] function that may throw is a computation in the monad [M]:
      it threads the [World] (the two database tables, the clock, the
      availability of the database and the log of calls made to the
      collaborators) and yields either a value or the thrown value.
    - The two Prisma tables are lists of rows.  The [@unique] constraint on
      [inputHash] is not built into the type: it is an invariant
      ([unique_hashes]) that the operations are proved to preserve.
    - The columns follow prisma/schema.prisma: [updatedAt] is [@updatedAt],
      so every update of a cache row stamps it with the time of the update;
      an [Int?] column keeps the integral part of the number it is given;
      a [Float?] column takes a number, [null] or [undefined] and refuses
      any other value.
    - Hash functions, the JSON (de)serialiser, the file system and the
      OpenAI endpoints are collaborators: they are the fields of the class
      [Collaborators]. *)

From Stdlib Require Import List String Ascii ZArith QArith Qround Bool Lia Lqa.
From Stdlib Require Import DecimalString Permutation Sorted.
Import ListNotations.

Open Scope string_scope.
Open Scope Z_scope.

Infix "==?" := String.eqb (at level 70, no associativity).

(** ** JavaScript values *)

(** Values that travel through the [Json] column of the cache and through
    [JSON.parse]. *)
#[warnings="-register-all"]
Inductive JSON : Type :=
| JNull
| JBool (b : bool)
| JNum (q : Q)
| JStr (s : string)
| JArr (items : list JSON)
| JObj (fields : list (string * JSON)).

(** JavaScript truthiness, as tested by [if (cached)] and [!x]. *)
Definition truthy (v : JSON) : bool :=
  match v with
  | JNull => false
  | JBool b => b
  | JNum q => negb (Qeq_bool q 0)
  | JStr s => negb (s ==? "")
  | JArr _ => true
  | JObj _ => true
  end.

(** [Array.isArray]. *)
Definition Array_isArray (v : JSON) : bool :=
  match v with JArr _ => true | _ => false end.

Fixpoint assoc {A : Type} (k : string) (l : list (string * A)) : option A :=
  match l with
  | [] => None
  | (k', v) :: l' => if k ==? k' then Some v else assoc k l'
  end.

(** A thrown value: an [Error] instance with its [message], or anything
    else (for which the handlers print ['Unknown error']). *)
Inductive Thrown : Type :=
| ErrorObj (message : string)
| NonError.

Inductive Result (A : Type) : Type :=
| Ok (a : A)
| Throw (e : Thrown).
Arguments Ok {A} a.
Arguments Throw {A} e.

(** Property read [v.name] for a name that no built-in prototype defines
    (['highlights'], ['topics'], ['duration']): reading from [null] throws a
    TypeError, an object yields its field or [undefined] ([None]), every
    other value yields [undefined]. *)
Definition js_get (v : JSON) (name : string) : Result (option JSON) :=
  match v with
  | JNull =>
      Throw (ErrorObj ("Cannot read properties of null (reading '" ++ name ++ "')"))
  | JObj fields => Ok (assoc name fields)
  | _ => Ok None
  end.

(** Truthiness of a possibly [undefined] value. *)
Definition truthy_opt (v : option JSON) : bool :=
  match v with Some j => truthy j | None => false end.

(** ** Cost model (APIUsageTracker) *)

Module Cost.

(** One entry of [COST_RATES]; a field that the entry does not have is
    [None], so that ['perMinute' in rates] is [perMinute rates <> None]. *)
Record Rates : Type := mkRates {
  perMinute : option Q;
  inputPer1K : option Q;
  outputPer1K : option Q
}.

(** The names every object inherits from [Object.prototype]: indexing
    [COST_RATES] with one of them yields a truthy value that has none of
    the three rate fields. *)
Definition inherited_names : list string :=
  [ "constructor"; "__defineGetter__"; "__defineSetter__"; "hasOwnProperty";
    "__lookupGetter__"; "__lookupSetter__"; "isPrototypeOf";
    "propertyIsEnumerable"; "toString"; "valueOf"; "__proto__";
    "toLocaleString" ].

Definition mem_string (s : string) (l : list string) : bool :=
  existsb (String.eqb s) l.

Definition COST_RATES (model : string) : option Rates :=
  if model ==? "whisper-1" then
    Some (mkRates (Some 0.006%Q) None None)
  else if model ==? "gpt-4o-mini" then
    Some (mkRates None (Some 0.00015%Q) (Some 0.0006%Q))
  else if model ==? "text-embedding-3-small" then
    Some (mkRates None (Some 0.00002%Q) None)
  else if model ==? "text-embedding-3-large" then
    Some (mkRates None (Some 0.00013%Q) None)
  else if mem_string model inherited_names then
    Some (mkRates None None None)
  else None.

(** The models that have an entry of their own in the rate table. *)
Definition defined_model (model : string) : bool :=
  mem_string model
    [ "whisper-1"; "gpt-4o-mini"; "text-embedding-3-small";
      "text-embedding-3-large" ].

(** [if (x)] on an optional number: [undefined] and [0] are falsy. *)
Definition num_truthy (x : option Q) : option Q :=
  match x with
  | Some q => if Qeq_bool q 0 then None else Some q
  | None => None
  end.

Definition calculateCost (type model : string)
    (inputTokens outputTokens inputMinutes : option Q) : Q :=
  match COST_RATES model with
  | None => 0
  | Some rates =>
      match (type ==? "transcription"), num_truthy inputMinutes, perMinute rates with
      | true, Some minutes, Some rate => minutes * rate
      | _, _, _ =>
          match ((type ==? "completion") || (type ==? "embedding"))%bool,
                inputPer1K rates with
          | true, Some rateIn =>
              let cost := 0 in
              let cost :=
                match num_truthy inputTokens with
                | Some n => cost + (n / 1000) * rateIn
                | None => cost
                end in
              let cost :=
                match num_truthy outputTokens, outputPer1K rates with
                | Some n, Some rateOut => cost + (n / 1000) * rateOut
                | _, _ => cost
                end in
              cost
          | _, _ => 0
          end
      end
  end%Q.

(** The cost model as the specification words it: a rate table keyed by
    model id whose entries have one of two pricing shapes, the shape being
    used only for the kinds it prices; the cost is quantity / unit * rate,
    summed over the input and output components that apply; an absent
    quantity counts as zero. *)
Inductive Pricing : Type :=
| PerMinute (rate : Q)
| PerThousandTokens (rateIn : Q) (rateOut : option Q).

Definition spec_rate_table (modelId : string) : option Pricing :=
  if modelId ==? "whisper-1" then Some (PerMinute 0.006%Q)
  else if modelId ==? "gpt-4o-mini" then
    Some (PerThousandTokens 0.00015%Q (Some 0.0006%Q))
  else if modelId ==? "text-embedding-3-small" then
    Some (PerThousandTokens 0.00002%Q None)
  else if modelId ==? "text-embedding-3-large" then
    Some (PerThousandTokens 0.00013%Q None)
  else None.

Definition quantity (x : option Q) : Q :=
  match x with Some q => q | None => 0%Q end.

Definition spec_estimateCost (kind modelId : string)
    (inputTokens outputTokens inputMinutes : option Q) : Q :=
  match spec_rate_table modelId with
  | None => 0
  | Some (PerMinute rate) =>
      if kind ==? "transcription" then quantity inputMinutes * rate else 0
  | Some (PerThousandTokens rateIn rateOut) =>
      if ((kind ==? "completion") || (kind ==? "embedding"))%bool then
        quantity inputTokens / 1000 * rateIn
        + match rateOut with
          | Some r => quantity outputTokens / 1000 * r
          | None => 0
          end
      else 0
  end%Q.

Definition nonneg (x : option Q) : Prop :=
  match x with Some q => (0 <= q)%Q | None => True end.

End Cost.

(** ** The database tables (prisma/schema.prisma) *)

(** A row of [ai_cache].  The [id] column (a generated cuid) is left out:
    the code only ever counts it. *)
Module AICache.
Record t : Type := mk {
  type : string;
  inputHash : string;          (* @unique *)
  response : JSON;
  model : string;
  inputSize : option Z;        (* Int? *)
  outputSize : option Z;       (* Int? *)
  createdAt : Z;               (* @default(now()), milliseconds *)
  updatedAt : Z;
  expiresAt : option Z;        (* DateTime?, [None] is NULL *)
  hitCount : Z                 (* @default(0) *)
}.
End AICache.

(** A row of [api_usage]. *)
Module APIUsage.
Record t : Type := mk {
  type : string;
  model : string;
  inputTokens : option Z;      (* Int? *)
  outputTokens : option Z;     (* Int? *)
  inputMinutes : option Q;     (* Float? *)
  estimatedCost : option Q;    (* Float? *)
  cached : bool;               (* @default(false) *)
  timestamp : Z;               (* @default(now()) *)
  videoId : option string;
  userId : option string
}.
End APIUsage.

(** ** Collaborators *)

Record Segment : Type := mkSegment {
  text : string;
  startTime : Q;
  endTime : Q
}.

(** What a chat completion is asked for.  The prompt text, the system
    message, the temperature, [max_tokens] and the response format of each
    request are constants of the source once the task is fixed. *)
Inductive ChatTask : Type :=
| HighlightsTask (segments : list Segment)
| SummaryTask (transcript : string)
| TopicsTask (transcript : string).

(** [choices] lists [choices[k].message.content] ([None] is [null]);
    [usage] is [(prompt_tokens, completion_tokens)] when present. *)
Record ChatResponse : Type := mkChatResponse {
  choices : list (option string);
  usage : option (Z * Z)
}.

(** [data] lists [data[k].embedding]; [prompt_tokens] is
    [usage?.prompt_tokens]. *)
Record EmbeddingsResponse : Type := mkEmbeddingsResponse {
  data : list JSON;
  prompt_tokens : option Z
}.

Class Collaborators : Type := {
  (** [crypto.createHash('md5').update(s).digest('hex')] *)
  md5 : string -> string;
  (** [crypto.createHash('sha256').update(s).digest('hex')] *)
  sha256 : string -> string;
  JSON_stringify : JSON -> string;
  (** [JSON.parse]; it throws a SyntaxError on malformed text. *)
  JSON_parse : string -> Result JSON;
  (** [fs.readFile(path)]; [fs.access(path)] succeeds when it does. *)
  fs_readFile : string -> Result string;
  (** [openai.audio.transcriptions.create]: path, file bytes, language.
      The SDK resolves to an object, given here by its fields. *)
  openai_audio_transcriptions_create :
    string -> string -> string -> Result (list (string * JSON));
  (** [openai.chat.completions.create] *)
  openai_chat_completions_create : ChatTask -> Result ChatResponse;
  (** [openai.embeddings.create] with [input] a batch of texts *)
  openai_embeddings_create : list string -> Result EmbeddingsResponse
}.

(** ** The world and the monad of asynchronous code *)

(** Calls made to the persistence layer and to the provider, in the order
    in which they are issued. *)
Inductive Call : Type :=
| AICache_findUnique (hash : string)
| AICache_update (hash : string)
| AICache_upsert (hash : string)
| AICache_delete (hash : string)
| AICache_deleteMany
| AICache_query
| APIUsage_create (cached : bool)
| APIUsage_query
| OpenAI_transcription (language : string)
| OpenAI_chat (task : ChatTask)
| OpenAI_embeddings (input : list string).

Record World : Type := mkWorld {
  aICache : list AICache.t;
  aPIUsage : list APIUsage.t;
  clock : Z;                   (* [Date.now()], milliseconds *)
  dbUp : bool;                 (* whether Prisma reaches the database *)
  calls : list Call
}.

Definition M (A : Type) : Type := World -> Result A * World.

Definition ret {A : Type} (a : A) : M A := fun w => (Ok a, w).

Definition throw {A : Type} (e : Thrown) : M A := fun w => (Throw e, w).

Definition lift {A : Type} (r : Result A) : M A := fun w => (r, w).

Definition bind {A B : Type} (c : M A) (k : A -> M B) : M B :=
  fun w =>
    match c w with
    | (Ok a, w') => k a w'
    | (Throw e, w') => (Throw e, w')
    end.

(** [try { c } catch (error) { h error }]: what [c] did to the world before
    throwing stays done. *)
Definition tryCatch {A : Type} (c : M A) (h : Thrown -> M A) : M A :=
  fun w =>
    match c w with
    | (Ok a, w') => (Ok a, w')
    | (Throw e, w') => h e w'
    end.

Notation "x <- c ;; k" := (bind c (fun x => k))
  (at level 61, c at next level, right associativity).
Notation "c ;; k" := (bind c (fun _ => k))
  (at level 61, right associativity).

Definition read {A : Type} (f : World -> A) : M A := fun w => (Ok (f w), w).

Definition with_aICache (rows : list AICache.t) (w : World) : World :=
  mkWorld rows (aPIUsage w) (clock w) (dbUp w) (calls w).

Definition with_aPIUsage (rows : list APIUsage.t) (w : World) : World :=
  mkWorld (aICache w) rows (clock w) (dbUp w) (calls w).

Definition with_clock (t : Z) (w : World) : World :=
  mkWorld (aICache w) (aPIUsage w) t (dbUp w) (calls w).

Definition log (c : Call) (w : World) : World :=
  mkWorld (aICache w) (aPIUsage w) (clock w) (dbUp w) (calls w ++ [c]).

(** [error instanceof Error ? error.message : 'Unknown error'] *)
Definition message_of (e : Thrown) : string :=
  match e with
  | ErrorObj m => m
  | NonError => "Unknown error"
  end.

(** ** Prisma client *)

Module prisma.

(** Every query is logged when issued and rejects when the database cannot
    be reached. *)
Definition request (c : Call) : M unit :=
  fun w =>
    if dbUp w then (Ok tt, log c w)
    else (Throw (ErrorObj "Can't reach database server"), log c w).

Definition has_hash (hash : string) (row : AICache.t) : bool :=
  AICache.inputHash row ==? hash.

Definition aICache_findUnique (hash : string) : M (option AICache.t) :=
  request (AICache_findUnique hash) ;;
  read (fun w => find (has_hash hash) (aICache w)).

(** [update({ where: { inputHash }, data })]: rejects when no row has the
    key. *)
Definition aICache_update (hash : string) (data : AICache.t -> AICache.t)
  : M unit :=
  request (AICache_update hash) ;;
  fun w =>
    if existsb (has_hash hash) (aICache w) then
      (Ok tt,
       with_aICache
         (map (fun r => if has_hash hash r then data r else r) (aICache w)) w)
    else (Throw (ErrorObj "Record to update not found."), w).

(** [upsert({ where: { inputHash }, create, update })] *)
Definition aICache_upsert (hash : string) (create : AICache.t)
    (update : AICache.t -> AICache.t) : M unit :=
  request (AICache_upsert hash) ;;
  fun w =>
    if existsb (has_hash hash) (aICache w) then
      (Ok tt,
       with_aICache
         (map (fun r => if has_hash hash r then update r else r) (aICache w))
         w)
    else (Ok tt, with_aICache (aICache w ++ [create]) w).

(** [delete({ where: { inputHash } })]: rejects when no row has the key. *)
Definition aICache_delete (hash : string) : M unit :=
  request (AICache_delete hash) ;;
  fun w =>
    if existsb (has_hash hash) (aICache w) then
      (Ok tt,
       with_aICache (filter (fun r => negb (has_hash hash r)) (aICache w)) w)
    else (Throw (ErrorObj "Record to delete does not exist."), w).

(** [deleteMany({ where })] resolves to the number of rows removed. *)
Definition aICache_deleteMany (whereClause : AICache.t -> bool) : M Z :=
  request AICache_deleteMany ;;
  fun w =>
    (Ok (Z.of_nat (List.length (filter whereClause (aICache w)))),
     with_aICache (filter (fun r => negb (whereClause r)) (aICache w)) w).

(** The rows a read-only query ([count], [aggregate], [groupBy]) ranges
    over. *)
Definition aICache_rows : M (list AICache.t) :=
  request AICache_query ;; read aICache.

Definition aPIUsage_rows (whereClause : APIUsage.t -> bool)
  : M (list APIUsage.t) :=
  request APIUsage_query ;; read (fun w => filter whereClause (aPIUsage w)).

(** A JavaScript number stored in an [Int] column keeps its integral
    part: the fraction is cut off. *)
Definition as_Int (x : option Q) : option Z :=
  option_map (fun q => Z.quot (Qnum q) (Z.pos (Qden q))) x.

(** A JavaScript value offered to a [Float?] column: a number is stored,
    [undefined] and [null] leave the column empty, and any other value is
    refused. *)
Definition as_Float (x : option JSON) : Result (option Q) :=
  match x with
  | None | Some JNull => Ok None
  | Some (JNum q) => Ok (Some q)
  | Some _ =>
      Throw (ErrorObj "Invalid value provided. Expected Float or Null.")
  end.

(** [aPIUsage.create({ data })]; the timestamp defaults to [now()]. *)
Definition aPIUsage_create (type model : string)
    (inputTokens outputTokens : option Q) (inputMinutes : option JSON)
    (estimatedCost : Q) (cached : bool) (videoId userId : option string)
  : M unit :=
  request (APIUsage_create cached) ;;
  minutes <- lift (as_Float inputMinutes) ;;
  fun w =>
    (Ok tt,
     with_aPIUsage
       (aPIUsage w ++
        [APIUsage.mk type model (as_Int inputTokens) (as_Int outputTokens)
           minutes (Some estimatedCost) cached (clock w) videoId userId]) w).

(** [groupBy({ by: [key] })]: one group per distinct key, holding the rows
    that have it. *)
Definition groupBy {R K : Type} (K_dec : forall a b : K, {a = b} + {a <> b})
    (key : R -> K) (rows : list R) : list (K * list R) :=
  map (fun k => (k, filter (fun r => if K_dec (key r) k then true else false) rows))
      (nodup K_dec (map key rows)).

(** [_count: { id: true }] *)
Definition _count {R : Type} (rows : list R) : Z := Z.of_nat (List.length rows).

(** [_sum] over a nullable numeric column: [null] when no row has a value. *)
Definition _sum_Q {R : Type} (col : R -> option Q) (rows : list R) : option Q :=
  match flat_map (fun r => match col r with Some c => [c] | None => [] end) rows with
  | [] => None
  | cs => Some (fold_right Qplus 0%Q cs)
  end.

Definition _sum_Z {R : Type} (col : R -> Z) (rows : list R) : option Z :=
  match rows with
  | [] => None
  | _ => Some (fold_right Z.add 0 (map col rows))
  end.

End prisma.

(** [x || 0] *)
Definition or0Q (x : option Q) : Q :=
  match x with Some q => q | None => 0%Q end.

Definition or0Z (x : option Z) : Z :=
  match x with Some z => z | None => 0 end.

(** [s || d] on an optional string: [undefined] and [''] are falsy. *)
Definition or_default (s : option string) (d : string) : string :=
  match s with
  | Some x => if x ==? "" then d else x
  | None => d
  end.

(** ** AICacheService (lib/ai-cache.ts) *)

Module AICacheService.

Record CacheStats : Type := mkCacheStats {
  byType : list (string * Z);
  total : Z;
  hitRate : Q;
  estimatedSavings : Q
}.

Record CostSavings : Type := mkCostSavings {
  savings_transcription : Q;
  savings_highlights : Q;
  savings_embeddings : Q;
  savings_total : Q
}.

(** [expiresAt && expiresAt < new Date()] *)
Definition expired (row : AICache.t) (now : Z) : bool :=
  match AICache.expiresAt row with
  | Some e => e <? now
  | None => false
  end.

(** In the [data] of a Prisma update an [undefined] field leaves the column
    as it is; a given value replaces it. *)
Definition unless_undefined {A : Type} (given : option A) (stored : option A)
  : option A :=
  match given with
  | Some v => Some v
  | None => stored
  end.

(** [expirationDays ? new Date(Date.now() + expirationDays * 24 * 60 * 60 *
    1000) : null] *)
Definition expiresAt_of (now : Z) (expirationDays : option Z) : option Z :=
  match expirationDays with
  | Some days =>
      if days =? 0 then None
      else Some (now + days * 24 * 60 * 60 * 1000)
  | None => None
  end.

(** [update({ data: { hitCount: { increment: 1 } } })] at the time [now]:
    the column [updatedAt] is declared [@updatedAt], so the update also
    stamps the row with the time at which it is made. *)
Definition increment_hitCount (now : Z) (r : AICache.t) : AICache.t :=
  AICache.mk (AICache.type r) (AICache.inputHash r) (AICache.response r)
    (AICache.model r) (AICache.inputSize r) (AICache.outputSize r)
    (AICache.createdAt r) now (AICache.expiresAt r)
    (AICache.hitCount r + 1).

(** Flat cost per cache hit; [None] is a type without an entry.  Type names
    that [Object.prototype] defines are outside the model. *)
Definition costPerHit (type : string) : option Q :=
  if type ==? "transcription" then Some 0.03%Q
  else if type ==? "highlights" then Some 0.002%Q
  else if type ==? "embeddings" then Some 0.001%Q
  else if type ==? "summary" then Some 0.001%Q
  else None.

(** One iteration of the loop of [estimateCostSavings]. *)
Definition add_saving (savings : CostSavings) (stat : string * list AICache.t)
  : CostSavings :=
  let type := fst stat in
  let hits := or0Z (prisma._sum_Z AICache.hitCount (snd stat)) in
  let cost := (or0Q (costPerHit type) * inject_Z hits)%Q in
  let savings :=
    if type ==? "transcription" then
      mkCostSavings cost (savings_highlights savings)
        (savings_embeddings savings) (savings_total savings)
    else if type ==? "highlights" then
      mkCostSavings (savings_transcription savings) cost
        (savings_embeddings savings) (savings_total savings)
    else if type ==? "embeddings" then
      mkCostSavings (savings_transcription savings)
        (savings_highlights savings) cost (savings_total savings)
    else if type ==? "total" then
      mkCostSavings (savings_transcription savings)
        (savings_highlights savings) (savings_embeddings savings) cost
    else savings in
  mkCostSavings (savings_transcription savings) (savings_highlights savings)
    (savings_embeddings savings) (savings_total savings + cost)%Q.

Section Service.
Context {env : Collaborators}.

Definition generateHash (content model : string) : string :=
  sha256 (model ++ ":" ++ content).

Definition delete (hash : string) : M unit :=
  tryCatch (prisma.aICache_delete hash) (fun _ => ret tt).

Definition get (type content model : string) : M JSON :=
  tryCatch
    (let hash := generateHash content model in
     cached <- prisma.aICache_findUnique hash ;;
     match cached with
     | None => ret JNull
     | Some row =>
         now <- read clock ;;
         if expired row now then
           (delete hash ;; ret JNull)
         else
           (prisma.aICache_update hash (increment_hitCount now) ;;
            ret (AICache.response row))
     end)
    (fun _ => ret JNull).

Definition set (type content model : string) (response : JSON)
    (expirationDays : option Z) (inputSize outputSize : option Z) : M unit :=
  tryCatch
    (let hash := generateHash content model in
     now <- read clock ;;
     let expiresAt := expiresAt_of now expirationDays in
     prisma.aICache_upsert hash
       (AICache.mk type hash response model inputSize outputSize
          now now expiresAt 0)
       (fun r =>
          AICache.mk (AICache.type r) (AICache.inputHash r) response
            (AICache.model r)
            (unless_undefined inputSize (AICache.inputSize r))
            (unless_undefined outputSize (AICache.outputSize r))
            (AICache.createdAt r) now expiresAt (AICache.hitCount r)))
    (fun _ => ret tt).

Definition clearExpired : M Z :=
  tryCatch
    (now <- read clock ;;
     prisma.aICache_deleteMany (fun r => expired r now))
    (fun _ => ret 0).

Definition estimateCostSavings : M CostSavings :=
  tryCatch
    (rows <- prisma.aICache_rows ;;
     let cacheStats := prisma.groupBy string_dec AICache.type rows in
     ret (fold_left add_saving cacheStats (mkCostSavings 0 0 0 0)))
    (fun _ => ret (mkCostSavings 0 0 0 0)).

Definition getStats : M CacheStats :=
  tryCatch
    (rows <- prisma.aICache_rows ;;
     let byType := prisma.groupBy string_dec AICache.type rows in
     rows <- prisma.aICache_rows ;;
     let total := prisma._count rows in
     usage <- prisma.aPIUsage_rows (fun _ => true) ;;
     let totalUsage_count := prisma._count usage in
     rows <- prisma.aICache_rows ;;
     let cacheUsage_sum := prisma._sum_Z AICache.hitCount rows in
     let totalRequests := totalUsage_count + or0Z cacheUsage_sum in
     let hitRate :=
       if totalRequests >? 0 then
         (inject_Z (or0Z cacheUsage_sum) / inject_Z totalRequests * 100)%Q
       else 0%Q in
     estimatedSavings <- estimateCostSavings ;;
     ret (mkCacheStats
            (map (fun item => (fst item, prisma._count (snd item))) byType)
            total hitRate (savings_total estimatedSavings)))
    (fun _ => ret (mkCacheStats [] 0 0 0)).

End Service.

End AICacheService.

(** ** APIUsageTracker (lib/api-usage-tracker.ts) *)

Module APIUsageTracker.

Record UsageStats : Type := mkUsageStats {
  totalCost : Q;
  totalRequests : Z;
  byType : list (string * Z * Q);
  byModel : list (string * Z * Q);
  cacheHitRate : Q;
  periodSavings : Q
}.

(** [inputMinutes] is declared a number, but the callers hand over the
    [duration] of a payload that nothing validates, so that any value can
    arrive.  [as_number] is the value when it is a number; for any other
    value but [null] the product [inputMinutes * rates.perMinute] is not a
    quantity of the model, and the [Float?] column refuses the record, so
    that the cost computed is never stored. *)
Definition as_number (v : option JSON) : option Q :=
  match v with
  | Some (JNum q) => Some q
  | _ => None
  end.

Definition trackUsage (type model : string)
    (inputTokens outputTokens : option Q) (inputMinutes : option JSON)
    (cached : option bool) (videoId userId : option string) : M unit :=
  tryCatch
    (let estimatedCost :=
       Cost.calculateCost type model inputTokens outputTokens
         (as_number inputMinutes) in
     prisma.aPIUsage_create type model inputTokens outputTokens inputMinutes
       estimatedCost
       (match cached with Some b => b | None => false end)
       videoId userId)
    (fun _ => ret tt).

(** The Prisma filter built from the optional arguments of
    [getUsageStats]. *)
Definition whereClause (startDate endDate : option Z)
    (userId : option string) (r : APIUsage.t) : bool :=
  match startDate with
  | Some s => s <=? APIUsage.timestamp r
  | None => true
  end
  &&
  match endDate with
  | Some e => APIUsage.timestamp r <=? e
  | None => true
  end
  &&
  match userId with
  | Some u =>
      if u ==? "" then true
      else match APIUsage.userId r with
           | Some u' => u' ==? u
           | None => false
           end
  | None => true
  end.

Definition estimateCachedOriginalCost (cachedRequests : Z) : Q :=
  (inject_Z cachedRequests * 0.01)%Q.

Definition group_row {K : Type} (item : K * list APIUsage.t) : K * Z * Q :=
  (fst item, prisma._count (snd item),
   or0Q (prisma._sum_Q APIUsage.estimatedCost (snd item))).

Definition getUsageStats (startDate endDate : option Z)
    (userId : option string) : M UsageStats :=
  tryCatch
    (let wc := whereClause startDate endDate userId in
     totalRows <- prisma.aPIUsage_rows wc ;;
     rowsT <- prisma.aPIUsage_rows wc ;;
     let byType := prisma.groupBy string_dec APIUsage.type rowsT in
     rowsM <- prisma.aPIUsage_rows wc ;;
     let byModel := prisma.groupBy string_dec APIUsage.model rowsM in
     rowsC <- prisma.aPIUsage_rows wc ;;
     let cacheStats := prisma.groupBy Bool.bool_dec APIUsage.cached rowsC in
     let totalRequests := prisma._count totalRows in
     let cachedRequests :=
       match find (fun s => fst s) cacheStats with
       | Some s => prisma._count (snd s)
       | None => 0
       end in
     let cacheHitRate :=
       if totalRequests >? 0 then
         (inject_Z cachedRequests / inject_Z totalRequests * 100)%Q
       else 0%Q in
     let cachedOriginalCost := estimateCachedOriginalCost cachedRequests in
     let periodSavings := cachedOriginalCost in
     ret (mkUsageStats
            (or0Q (prisma._sum_Q APIUsage.estimatedCost totalRows))
            totalRequests
            (map group_row byType)
            (map group_row byModel)
            cacheHitRate
            periodSavings))
    (fun _ => ret (mkUsageStats 0 0 [] [] 0 0)).

End APIUsageTracker.

(** ** The cached AI services (lib/ai-services.ts) *)

Module AI_CONFIG.
Definition transcription_model : string := "whisper-1".
Definition transcription_language : string := "en".
Definition embeddings_model : string := "text-embedding-3-small".
Definition completion_model : string := "gpt-4o-mini".
Definition highlights_model : string := "gpt-4o-mini".
End AI_CONFIG.

(** A call to the provider: it is logged, and its outcome is the one the
    collaborator gives. *)
Definition provider {A : Type} (c : Call) (outcome : Result A) : M A :=
  fun w => (outcome, log c w).

(** [response.choices[0].message.content]; reading [message] of a missing
    first choice throws a TypeError. *)
Definition first_content (r : ChatResponse) : Result (option string) :=
  match choices r with
  | [] => Throw (ErrorObj "Cannot read properties of undefined (reading 'message')")
  | c :: _ => Ok c
  end.

(** [usage?.prompt_tokens || 0] and [usage?.completion_tokens || 0] *)
Definition usage_prompt_tokens (r : ChatResponse) : Q :=
  match usage r with Some (p, _) => inject_Z p | None => 0%Q end.

Definition usage_completion_tokens (r : ChatResponse) : Q :=
  match usage r with Some (_, c) => inject_Z c | None => 0%Q end.

(** [s.length] as a number *)
Definition strlen (s : string) : Z := Z.of_nat (String.length s).

(** [Math.ceil(transcript.length / 3.5)] *)
Definition estimatedInputTokens (transcript : string) : Q :=
  inject_Z (Qceiling (inject_Z (strlen transcript) / 3.5)).

Definition segments_json (segments : list Segment) : JSON :=
  JArr (map (fun seg =>
               JObj [ ("text", JStr (text seg));
                      ("startTime", JNum (startTime seg));
                      ("endTime", JNum (endTime seg)) ])
            segments).

(** [array.slice(from, to)] for [from <= to] *)
Definition slice {A : Type} (l : list A) (from to : nat) : list A :=
  firstn (to - from) (skipn from l).

(** [...v] inside [push]: arrays and strings are iterable, other values
    are not. *)
Definition spread (v : JSON) : Result (list JSON) :=
  match v with
  | JArr items => Ok items
  | JStr s => Ok (map (fun c => JStr (String c EmptyString)) (list_ascii_of_string s))
  | _ => Throw (ErrorObj "Spread syntax requires ...iterable[Symbol.iterator] to be a function")
  end.

Definition double_quote : string := String (ascii_of_nat 34) EmptyString.

(** The text [{"topics": []}] *)
Definition empty_topics_text : string :=
  "{" ++ double_quote ++ "topics" ++ double_quote ++ ": []}".

Definition batchSize : nat := 100.

Module AIServices.
Section Services.
Context {env : Collaborators}.

(** [`${fileHash}:${language || 'en'}`] *)
Definition transcription_cacheKey (fileBuffer : string)
    (language : option string) : string :=
  md5 fileBuffer ++ ":" ++ or_default language "en".

Definition transcribeAudioCached (audioPath : string)
    (language videoId userId : option string) : M JSON :=
  tryCatch
    (lift (fs_readFile audioPath) ;;
     fileBuffer <- lift (fs_readFile audioPath) ;;
     let cacheKey := transcription_cacheKey fileBuffer language in
     let model := AI_CONFIG.transcription_model in
     cached <- AICacheService.get "transcription" cacheKey model ;;
     if truthy cached then
       (duration <- lift (js_get cached "duration") ;;
        APIUsageTracker.trackUsage "transcription" model None None
          duration (Some true) videoId userId ;;
        ret cached)
     else
       (audioFile <- lift (fs_readFile audioPath) ;;
        let lang := or_default language AI_CONFIG.transcription_language in
        transcription <-
          provider (OpenAI_transcription lang)
            (openai_audio_transcriptions_create audioPath audioFile lang) ;;
        let result := JObj transcription in
        duration <- lift (js_get result "duration") ;;
        APIUsageTracker.trackUsage "transcription" model None None
          duration (Some false) videoId userId ;;
        AICacheService.set "transcription" cacheKey model result (Some 60)
          (Some (strlen fileBuffer))
          (Some (strlen (JSON_stringify result))) ;;
        ret result))
    (fun error =>
       throw (ErrorObj ("Transcription failed: " ++ message_of error))).

Definition highlights_cacheKey (transcript : string)
    (segments : list Segment) : string :=
  md5 (transcript ++ ":" ++ JSON_stringify (segments_json segments)).

Definition generateHighlightsCached (transcript : string)
    (segments : list Segment) (videoId userId : option string) : M JSON :=
  tryCatch
    (let model := AI_CONFIG.highlights_model in
     let cacheKey := highlights_cacheKey transcript segments in
     cached <- AICacheService.get "highlights" cacheKey model ;;
     if truthy cached then
       (APIUsageTracker.trackUsage "completion" model
          (Some (estimatedInputTokens transcript)) (Some 500%Q) None
          (Some true) videoId userId ;;
        ret cached)
     else
       (response <-
          provider (OpenAI_chat (HighlightsTask segments))
            (openai_chat_completions_create (HighlightsTask segments)) ;;
        content <- lift (first_content response) ;;
        result <- lift (JSON_parse (or_default content "{}")) ;;
        highlights <- lift (js_get result "highlights") ;;
        if negb (truthy_opt highlights)
           || negb (match highlights with
                    | Some h => Array_isArray h
                    | None => false
                    end)
        then throw (ErrorObj "Invalid highlights response format")
        else
          (APIUsageTracker.trackUsage "completion" model
             (Some (usage_prompt_tokens response))
             (Some (usage_completion_tokens response)) None
             (Some false) videoId userId ;;
           AICacheService.set "highlights" cacheKey model result (Some 90)
             (Some (strlen transcript))
             (Some (strlen (JSON_stringify result))) ;;
           ret result)))
    (fun error =>
       throw (ErrorObj ("Highlight generation failed: " ++ message_of error))).

Definition embeddings_batchKey (batch : list string) : string :=
  md5 (JSON_stringify (JArr (map JStr batch)) ++ ":"
       ++ AI_CONFIG.embeddings_model).

(** The body of the [for] loop of [generateEmbeddingsCached] for one batch:
    it resolves to the embeddings collected so far. *)
Definition process_batch (batch : list string) (videoId userId : option string)
    (embeddings : list JSON) : M (list JSON) :=
  let model := AI_CONFIG.embeddings_model in
  let batchKey := embeddings_batchKey batch in
  cached <- AICacheService.get "embeddings" batchKey model ;;
  if truthy cached then
    (items <- lift (spread cached) ;;
     let embeddings := (embeddings ++ items)%list in
     APIUsageTracker.trackUsage "embedding" model
       (Some (inject_Z (strlen (String.concat " " batch)) / 4)%Q) None None
       (Some true) videoId userId ;;
     ret embeddings)
  else
    (response <-
       provider (OpenAI_embeddings batch) (openai_embeddings_create batch) ;;
     let batchEmbeddings := data response in
     let embeddings := (embeddings ++ batchEmbeddings)%list in
     APIUsageTracker.trackUsage "embedding" model
       (Some (inject_Z (or0Z (prompt_tokens response)))) None None
       (Some false) videoId userId ;;
     AICacheService.set "embeddings" batchKey model (JArr batchEmbeddings)
       (Some 180)
       (Some (strlen (String.concat " " batch)))
       (Some (strlen (JSON_stringify (JArr batchEmbeddings)))) ;;
     ret embeddings).

(** [for (let i = 0; i < texts.length; i += batchSize)].  The recursion is
    on [fuel]; [None] reports that the fuel ran out before the loop
    ended. *)
Fixpoint embeddings_loop (fuel : nat) (texts : list string)
    (videoId userId : option string) (i : nat) (embeddings : list JSON)
  : M (option (list JSON)) :=
  if (i <? List.length texts)%nat then
    match fuel with
    | O => ret None
    | S fuel' =>
        let batch := slice texts i (i + batchSize) in
        embeddings <- process_batch batch videoId userId embeddings ;;
        embeddings_loop fuel' texts videoId userId (i + batchSize) embeddings
    end
  else ret (Some embeddings).

Definition generateEmbeddingsCached (texts : list string)
    (videoId userId : option string) : M JSON :=
  tryCatch
    (r <- embeddings_loop (List.length texts) texts videoId userId 0 [] ;;
     match r with
     | Some embeddings => ret (JArr embeddings)
     | None => throw (ErrorObj "loop fuel exhausted")
     end)
    (fun error =>
       throw (ErrorObj ("Embedding generation failed: " ++ message_of error))).

Definition summary_cacheKey (transcript : string) : string := md5 transcript.

Definition generateSummaryCached (transcript : string)
    (videoId userId : option string) : M JSON :=
  tryCatch
    (let model := AI_CONFIG.completion_model in
     let cacheKey := summary_cacheKey transcript in
     cached <- AICacheService.get "summary" cacheKey model ;;
     if truthy cached then
       (APIUsageTracker.trackUsage "completion" model
          (Some (estimatedInputTokens transcript)) (Some 100%Q) None
          (Some true) videoId userId ;;
        ret cached)
     else
       (response <-
          provider (OpenAI_chat (SummaryTask transcript))
            (openai_chat_completions_create (SummaryTask transcript)) ;;
        content <- lift (first_content response) ;;
        let summary := or_default content "" in
        APIUsageTracker.trackUsage "completion" model
          (Some (usage_prompt_tokens response))
          (Some (usage_completion_tokens response)) None
          (Some false) videoId userId ;;
        AICacheService.set "summary" cacheKey model (JStr summary) (Some 60)
          (Some (strlen transcript)) (Some (strlen summary)) ;;
        ret (JStr summary)))
    (fun error =>
       throw (ErrorObj ("Summary generation failed: " ++ message_of error))).

Definition topics_cacheKey (transcript : string) : string :=
  md5 ("topics:" ++ transcript).

(** The [try] block of [extractKeyTopicsCached]. *)
Definition extractKeyTopics_try (transcript : string)
    (videoId userId : option string) : M JSON :=
  let model := AI_CONFIG.completion_model in
  let cacheKey := topics_cacheKey transcript in
  cached <- AICacheService.get "topics" cacheKey model ;;
  if truthy cached then
    (APIUsageTracker.trackUsage "completion" model
       (Some (estimatedInputTokens transcript)) (Some 50%Q) None
       (Some true) videoId userId ;;
     ret cached)
  else
    (response <-
       provider (OpenAI_chat (TopicsTask transcript))
         (openai_chat_completions_create (TopicsTask transcript)) ;;
     content <- lift (first_content response) ;;
     result <- lift (JSON_parse (or_default content empty_topics_text)) ;;
     field <- lift (js_get result "topics") ;;
     let topics :=
       match field with
       | Some t => if truthy t then t else JArr []
       | None => JArr []
       end in
     APIUsageTracker.trackUsage "completion" model
       (Some (usage_prompt_tokens response))
       (Some (usage_completion_tokens response)) None
       (Some false) videoId userId ;;
     AICacheService.set "topics" cacheKey model topics (Some 60)
       (Some (strlen transcript))
       (Some (strlen (JSON_stringify topics))) ;;
     ret topics).

Definition extractKeyTopicsCached (transcript : string)
    (videoId userId : option string) : M JSON :=
  tryCatch (extractKeyTopics_try transcript videoId userId)
    (fun _ => ret (JArr [])).

End Services.
End AIServices.

(** ** Vocabulary of the properties *)

(** What a computation yields in a world, and the world it leaves. *)
Definition outcome {A : Type} (c : M A) (w : World) : Result A := fst (c w).

Definition world_after {A : Type} (c : M A) (w : World) : World := snd (c w).

(** The calls issued between two worlds of one run. *)
Definition calls_since (w w' : World) : list Call :=
  skipn (List.length (calls w)) (calls w').

(** STORE: the cache entry is written. *)
Definition is_store (c : Call) : bool :=
  match c with AICache_upsert _ => true | _ => false end.

(** RECORD: the usage record is written. *)
Definition is_record (c : Call) : bool :=
  match c with APIUsage_create _ => true | _ => false end.

Definition is_provider_call (c : Call) : bool :=
  match c with
  | OpenAI_transcription _ | OpenAI_chat _ | OpenAI_embeddings _ => true
  | _ => false
  end.

(** Some call satisfying [p] is issued before some call satisfying [q]. *)
Fixpoint before (p q : Call -> bool) (l : list Call) : bool :=
  match l with
  | [] => false
  | c :: l' => (p c && existsb q l') || before p q l'
  end.

(** The storage-level uniqueness of [inputHash]. *)
Definition unique_hashes (rows : list AICache.t) : Prop :=
  NoDup (map AICache.inputHash rows).

Definition rows_with_hash (hash : string) (rows : list AICache.t)
  : list AICache.t :=
  filter (prisma.has_hash hash) rows.

(** The counts the ledger aggregation is about. *)
Definition cachedCount (rows : list APIUsage.t) : Z :=
  Z.of_nat (List.length (filter APIUsage.cached rows)).

Definition providerCallCount (rows : list APIUsage.t) : Z :=
  Z.of_nat (List.length (filter (fun r => negb (APIUsage.cached r)) rows)).

Definition totalCount (rows : list APIUsage.t) : Z :=
  Z.of_nat (List.length rows).

Definition totalCacheHits (rows : list AICache.t) : Z :=
  fold_right Z.add 0 (map AICache.hitCount rows).

(** The hit rate of the ledger as a fraction of one: the reading of
    [cacheHitRate] that the ledger aggregation does not implement. *)
Definition cacheHitRate_is_fraction (w : World) : Prop :=
  forall stats,
    outcome (APIUsageTracker.getUsageStats None None None) w = Ok stats ->
    (APIUsageTracker.cacheHitRate stats
       == inject_Z (cachedCount (aPIUsage w)) / inject_Z (totalCount (aPIUsage w)))%Q
    /\ (0 <= APIUsageTracker.cacheHitRate stats <= 1)%Q.

(** A ledger holding one record, of a cache hit. *)
Definition ledger_one_hit : World :=
  mkWorld []
    [APIUsage.mk "completion" "gpt-4o-mini" (Some 100) (Some 50) None
       (Some 0.000045%Q) true 1000 None None]
    2000 true [].

(** The global hit rate as a fraction of one whose denominator counts, next
    to the cache hits, only the real provider invocations (ledger records
    with [cached = false]): the reading that [getStats] does not
    implement. *)
Definition hitRate_over_provider_calls (w : World) : Prop :=
  forall stats,
    outcome AICacheService.getStats w = Ok stats ->
    (AICacheService.hitRate stats
       == inject_Z (totalCacheHits (aICache w))
          / inject_Z (totalCacheHits (aICache w)
                      + providerCallCount (aPIUsage w)))%Q.

(** One cache entry that was created by a provider call and then hit once:
    the ledger holds the record of the call and the record of the hit. *)
Definition world_one_miss_one_hit : World :=
  mkWorld
    [AICache.mk "summary" "h1" (JStr "a summary") "gpt-4o-mini" (Some 10)
       (Some 9) 1000 1000 None 1]
    [APIUsage.mk "completion" "gpt-4o-mini" (Some 100) (Some 50) None
       (Some 0.000045%Q) false 1000 None None;
     APIUsage.mk "completion" "gpt-4o-mini" (Some 100) (Some 100) None
       (Some 0.000075%Q) true 1500 None None]
    2000 true [].

(** ** Concrete collaborators for the examples *)

(** A serialiser that tells apart the values the examples use. *)
Fixpoint example_stringify (v : JSON) : string :=
  match v with
  | JNull => "null"
  | JBool true => "true"
  | JBool false => "false"
  | JNum _ => "#"
  | JStr s => double_quote ++ s ++ double_quote
  | JArr items => "[" ++ String.concat "," (map example_stringify items) ++ "]"
  | JObj fields =>
      "{" ++ String.concat ","
               (map (fun kv => fst kv ++ ":" ++ example_stringify (snd kv)) fields)
          ++ "}"
  end.

(** Collaborators whose hashes are visibly injective, whose parser yields a
    fixed value and whose provider outcomes are given. *)
Definition example_env (parsed : Result JSON)
    (transcribe : Result (list (string * JSON)))
    (chat : Result ChatResponse)
    (embed : list string -> Result EmbeddingsResponse) : Collaborators :=
  {| md5 := fun s => "md5(" ++ s ++ ")";
     sha256 := fun s => "sha256(" ++ s ++ ")";
     JSON_stringify := example_stringify;
     JSON_parse := fun _ => parsed;
     fs_readFile := fun _ => Ok "RIFF-bytes";
     openai_audio_transcriptions_create := fun _ _ _ => transcribe;
     openai_chat_completions_create := fun _ => chat;
     openai_embeddings_create := embed |}.

Definition provider_down {A : Type} : Result A :=
  Throw (ErrorObj "429 rate limit exceeded").

(** A provider that is unreachable on every endpoint. *)
Definition failing_env : Collaborators :=
  example_env (Ok (JObj [])) provider_down provider_down (fun _ => provider_down).

(** A provider that answers: a transcription of 90 seconds, a chat
    completion whose content parses to an object with a [highlights] list,
    and one embedding per text. *)
Definition answering_env : Collaborators :=
  example_env
    (Ok (JObj [("highlights", JArr []); ("summary", JStr "s")]))
    (Ok [("text", JStr "hello"); ("duration", JNum 90)])
    (Ok (mkChatResponse [Some "{...}"] (Some (120, 30))))
    (fun batch => Ok (mkEmbeddingsResponse (map JStr batch) (Some 7))).

(** A chat completion whose content parses to an object without a
    [highlights] list. *)
Definition invalid_env : Collaborators :=
  example_env
    (Ok (JObj [("highlights", JStr "none")]))
    provider_down
    (Ok (mkChatResponse [Some "{...}"] (Some (120, 30))))
    (fun _ => provider_down).

Definition empty_world : World := mkWorld [] [] 1000 true [].

(** A cache holding one entry that expired at 500, read at 1000, and one
    that never expires. *)
Definition world_stale_entry : World :=
  mkWorld
    [AICache.mk "summary" "sha256(gpt-4o-mini:stale)" (JStr "old")
       "gpt-4o-mini" (Some 3) (Some 3) 100 100 (Some 500) 4;
     AICache.mk "summary" "sha256(gpt-4o-mini:fresh)" (JStr "kept")
       "gpt-4o-mini" (Some 3) (Some 4) 100 100 None 4]
    [] 1000 true [].

(** The reading of the upsert in which the entry left by two calls of
    [set] holds the sizes handed to the second call, whatever they are. *)
Definition second_set_overwrites_sizes {env : Collaborators} (w : World)
    (type content model : string)
    (response1 : JSON) (days1 inputSize1 outputSize1 : option Z)
    (response2 : JSON) (days2 inputSize2 outputSize2 : option Z) : Prop :=
  let hash := AICacheService.generateHash content model in
  let w1 :=
    world_after (AICacheService.set type content model response1 days1
                   inputSize1 outputSize1) w in
  let w2 :=
    world_after (AICacheService.set type content model response2 days2
                   inputSize2 outputSize2) w1 in
  exists entry,
    rows_with_hash hash (aICache w2) = [entry]
    /\ AICache.response entry = response2
    /\ AICache.expiresAt entry = AICacheService.expiresAt_of (clock w1) days2
    /\ AICache.inputSize entry = inputSize2
    /\ AICache.outputSize entry = outputSize2.

(** The cache lookup of an orchestrator misses: [get] resolves to a falsy
    value. *)
Definition lookup_misses {env : Collaborators} (type content model : string)
    (w : World) : Prop :=
  exists v,
    outcome (AICacheService.get type content model) w = Ok v
    /\ truthy v = false.

(** Two rows that differ at most in what the count of a hit changes: the
    hit count and the time of the last update. *)
Definition same_entry (r r' : AICache.t) : Prop :=
  AICache.type r' = AICache.type r
  /\ AICache.inputHash r' = AICache.inputHash r
  /\ AICache.response r' = AICache.response r
  /\ AICache.model r' = AICache.model r
  /\ AICache.inputSize r' = AICache.inputSize r
  /\ AICache.outputSize r' = AICache.outputSize r
  /\ AICache.createdAt r' = AICache.createdAt r
  /\ AICache.expiresAt r' = AICache.expiresAt r.

(** No cache entry was written between two states of the table: every row
    of the later one is a row of the earlier one, up to the count of a
    hit. *)
Definition no_entry_written (rows rows' : list AICache.t) : Prop :=
  forall r', In r' rows' -> exists r, In r rows /\ same_entry r r'.

(** The ways in which the miss path of [generateHighlightsCached] fails,
    with the value thrown: the provider call rejects; the response has no
    first choice; its content is not JSON; it parses to [null]; or the
    parsed value has no [highlights] or one that is not a list. *)
Inductive highlights_failure {env : Collaborators} (segments : list Segment)
  : Thrown -> Prop :=
| provider_call_fails (cause : Thrown) :
    openai_chat_completions_create (HighlightsTask segments) = Throw cause ->
    highlights_failure segments cause
| first_choice_missing (response : ChatResponse) (cause : Thrown) :
    openai_chat_completions_create (HighlightsTask segments) = Ok response ->
    first_content response = Throw cause ->
    highlights_failure segments cause
| content_does_not_parse (response : ChatResponse) (content : option string)
    (cause : Thrown) :
    openai_chat_completions_create (HighlightsTask segments) = Ok response ->
    first_content response = Ok content ->
    JSON_parse (or_default content "{}") = Throw cause ->
    highlights_failure segments cause
| result_is_null (response : ChatResponse) (content : option string)
    (result : JSON) (cause : Thrown) :
    openai_chat_completions_create (HighlightsTask segments) = Ok response ->
    first_content response = Ok content ->
    JSON_parse (or_default content "{}") = Ok result ->
    js_get result "highlights" = Throw cause ->
    highlights_failure segments cause
| highlights_missing_or_not_a_list (response : ChatResponse)
    (content : option string) (result : JSON) (highlights : option JSON) :
    openai_chat_completions_create (HighlightsTask segments) = Ok response ->
    first_content response = Ok content ->
    JSON_parse (or_default content "{}") = Ok result ->
    js_get result "highlights" = Ok highlights ->
    (highlights = None
     \/ exists v, highlights = Some v /\ Array_isArray v = false) ->
    highlights_failure segments
      (ErrorObj "Invalid highlights response format").

(** The ways in which the miss path of [extractKeyTopicsCached] fails. *)
Inductive topics_failure {env : Collaborators} (transcript : string)
  : Thrown -> Prop :=
| topics_provider_call_fails (cause : Thrown) :
    openai_chat_completions_create (TopicsTask transcript) = Throw cause ->
    topics_failure transcript cause
| topics_first_choice_missing (response : ChatResponse) (cause : Thrown) :
    openai_chat_completions_create (TopicsTask transcript) = Ok response ->
    first_content response = Throw cause ->
    topics_failure transcript cause
| topics_content_does_not_parse (response : ChatResponse)
    (content : option string) (cause : Thrown) :
    openai_chat_completions_create (TopicsTask transcript) = Ok response ->
    first_content response = Ok content ->
    JSON_parse (or_default content empty_topics_text) = Throw cause ->
    topics_failure transcript cause
| topics_result_is_null (response : ChatResponse) (content : option string)
    (result : JSON) (cause : Thrown) :
    openai_chat_completions_create (TopicsTask transcript) = Ok response ->
    first_content response = Ok content ->
    JSON_parse (or_default content empty_topics_text) = Ok result ->
    js_get result "topics" = Throw cause ->
    topics_failure transcript cause.

(** STORE precedes RECORD in the calls of one run: the order that the
    orchestrators do not follow. *)
Definition stores_before_recording (run : M JSON) (w : World) : Prop :=
  before is_store is_record (calls_since w (world_after run w)) = true.

(** The order of the calls of a successful cache miss, as the orchestrators
    issue them: the lookup by the fingerprint (a [findUnique], possibly
    followed by the removal of a stale entry or a hit-count update), then
    one provider call, then the usage record with [cached = false], then
    the upsert of the cache entry under the same fingerprint. *)
Definition miss_order (hash : string) (l : list Call) : Prop :=
  hd_error l = Some (AICache_findUnique hash)
  /\ (exists lookup providerCall,
        l = (lookup ++ [providerCall; APIUsage_create false;
                        AICache_upsert hash])%list
        /\ is_provider_call providerCall = true
        /\ existsb is_provider_call lookup = false
        /\ existsb is_record lookup = false
        /\ existsb is_store lookup = false)
  /\ before is_provider_call is_record l = true
  /\ before is_record is_store l = true
  /\ before is_store is_record l = false.

(** The two ways to ask for an English transcription: no language, or
    ['en']. *)
Definition english (language : option string) : Prop :=
  language = None \/ language = Some "en".

(** The batches of a list of texts: consecutive slices of [batchSize]
    texts, the last one possibly shorter. *)
Definition batch_count (n : nat) : nat := ((n + batchSize - 1) / batchSize)%nat.

Definition batches_from (texts : list string) (k : nat) : list (list string) :=
  map (fun j => slice texts (j * batchSize) (j * batchSize + batchSize))
      (seq k (batch_count (List.length texts) - k)).

Definition batches (texts : list string) : list (list string) :=
  batches_from texts 0.

(** The fingerprint under which the cache store files a batch. *)
Definition batch_hash {env : Collaborators} (batch : list string) : string :=
  AICacheService.generateHash (AIServices.embeddings_batchKey batch)
    AI_CONFIG.embeddings_model.

(** Batches handled one after the other, each by [process_batch]. *)
Fixpoint for_each_batch {env : Collaborators} (bs : list (list string))
    (videoId userId : option string) (embeddings : list JSON)
  : M (list JSON) :=
  match bs with
  | [] => ret embeddings
  | b :: bs' =>
      embeddings <- AIServices.process_batch b videoId userId embeddings ;;
      for_each_batch bs' videoId userId embeddings
  end.

(** The calls of a lookup: they begin with the [findUnique] of the
    fingerprint and hold no provider call, usage record or cache store. *)
Definition lookup_calls (hash : string) (l : list Call) : Prop :=
  hd_error l = Some (AICache_findUnique hash)
  /\ existsb is_provider_call l = false
  /\ existsb is_record l = false
  /\ existsb is_store l = false.

(** The calls of a run over a list of batches: batch after batch, a lookup
    by the fingerprint of the batch, followed either by the record of a
    cache hit alone (the batch is served from the cache, no provider call),
    or by exactly one provider call on that batch, the record of the call
    and the store of its embeddings under the fingerprint. *)
Inductive batch_trace {env : Collaborators}
  : list (list string) -> list Call -> Prop :=
| trace_done : batch_trace [] []
| trace_served (b : list string) (bs : list (list string))
    (lookup rest : list Call) :
    lookup_calls (batch_hash b) lookup ->
    batch_trace bs rest ->
    batch_trace (b :: bs) (lookup ++ [APIUsage_create true] ++ rest)
| trace_called (b : list string) (bs : list (list string))
    (lookup rest : list Call) :
    lookup_calls (batch_hash b) lookup ->
    batch_trace bs rest ->
    batch_trace (b :: bs)
      (lookup ++ [OpenAI_embeddings b; APIUsage_create false;
                  AICache_upsert (batch_hash b)] ++ rest).




(** 250 distinct one-character texts. *)
Definition texts250 : list string :=
  map (fun n => String (ascii_of_nat n) EmptyString) (seq 0 250).

(** A world whose cache already holds the embeddings of the second batch
    of [texts250]. *)
Definition world_second_batch_cached : World :=
  mkWorld
    [AICache.mk "embeddings"
       (batch_hash (env:=answering_env) (slice texts250 100 200))
       (JArr (map JStr (slice texts250 100 200)))
       AI_CONFIG.embeddings_model (Some 199) (Some 500) 10 10 None 0]
    [] 1000 true [].

(** One cache entry hit once, and a ledger holding the record of the
    provider call that created it only. *)
Definition world_one_miss_then_hit_unrecorded : World :=
  mkWorld
    [AICache.mk "summary" "h1" (JStr "a summary") "gpt-4o-mini" (Some 10)
       (Some 9) 1000 1000 None 1]
    [APIUsage.mk "completion" "gpt-4o-mini" (Some 100) (Some 50) None
       (Some 0.000045%Q) false 1000 None None]
    2000 true [].

(** ** Further operations of the cache store (lib/ai-cache.ts) *)

Module AICacheAdmin.

Record CacheSize : Type := mkCacheSize {
  entries : Z;
  estimatedSizeMB : Q
}.

(** [_sum] over a nullable [Int] column: [null] when no row has a value. *)
Definition sum_nullable (col : AICache.t -> option Z) (rows : list AICache.t)
  : option Z :=
  match flat_map (fun r => match col r with Some n => [n] | None => [] end) rows with
  | [] => None
  | ns => Some (fold_right Z.add 0 ns)
  end.

Definition clearByType (type : string) : M Z :=
  tryCatch
    (prisma.aICache_deleteMany (fun r => AICache.type r ==? type))
    (fun _ => ret 0).

Definition clearAll : M Z :=
  tryCatch (prisma.aICache_deleteMany (fun _ => true)) (fun _ => ret 0).

Definition getCountByType (type : string) : M Z :=
  tryCatch
    (rows <- prisma.aICache_rows ;;
     ret (prisma._count (filter (fun r => AICache.type r ==? type) rows)))
    (fun _ => ret 0).

Definition getCacheSize : M CacheSize :=
  tryCatch
    (rows <- prisma.aICache_rows ;;
     let entries := prisma._count rows in
     rows <- prisma.aICache_rows ;;
     let totalBytes :=
       or0Z (sum_nullable AICache.inputSize rows)
       + or0Z (sum_nullable AICache.outputSize rows) in
     ret (mkCacheSize entries (inject_Z totalBytes / inject_Z (1024 * 1024))%Q))
    (fun _ => ret (mkCacheSize 0 0)).

End AICacheAdmin.

(** ** Further reports of the usage tracker (lib/api-usage-tracker.ts) *)

Module BudgetAlert.

Inductive AlertLevel : Type := low | medium | high | exceeded.

Record t : Type := mk {
  currentSpend : Q;
  budget : Q;
  percentUsed : Q;
  alertLevel : AlertLevel
}.

(** [checkBudgetAlert].  [startOfMonth] stands for the calendar computation
    [d.setDate(1); d.setHours(0, 0, 0, 0)] on the current date, in the
    local time zone.  A budget of 0 is outside the model: JavaScript
    divides to an infinity or NaN there. *)
Definition checkBudgetAlert (startOfMonth : Z -> Z) (monthlyBudget : Q)
    (userId : option string) : M t :=
  now <- read clock ;;
  monthlyStats <-
    APIUsageTracker.getUsageStats (Some (startOfMonth now)) (Some now) userId ;;
  let currentSpend := APIUsageTracker.totalCost monthlyStats in
  let percentUsed := (currentSpend / monthlyBudget * 100)%Q in
  let alertLevel :=
    if Qle_bool 100 percentUsed then exceeded
    else if Qle_bool 80 percentUsed then high
    else if Qle_bool 60 percentUsed then medium
    else low in
  ret (mk currentSpend monthlyBudget percentUsed alertLevel).

End BudgetAlert.

Module CostByVideo.

Record t : Type := mk {
  videoId : string;
  videoTitle : string;
  totalCost : Q;
  requests : Z
}.

Definition option_string_dec (a b : option string) : {a = b} + {a <> b}.
Proof. decide equality. apply string_dec. Defined.

(** [{ videoId: { not: null } }], and [userId] when it is truthy. *)
Definition whereClause (userId : option string) (r : APIUsage.t) : bool :=
  match APIUsage.videoId r with Some _ => true | None => false end
  &&
  match userId with
  | Some u =>
      if u ==? "" then true
      else match APIUsage.userId r with
           | Some u' => u' ==? u
           | None => false
           end
  | None => true
  end.

(** [prisma.video.findMany({ where: { id: { in: ids } } })] over the rows
    [(id, title)] of the [video] table, which is handed in: it is not part
    of the [World], and the query is not entered in the log of calls. *)
Definition video_findMany (video : list (string * string)) (ids : list string)
  : M (list (string * string)) :=
  fun w =>
    if dbUp w then
      (Ok (filter (fun v => Cost.mem_string (fst v) ids) video), w)
    else (Throw (ErrorObj "Can't reach database server"), w).

(** [new Map(entries).get(key)]: the last entry with the key wins. *)
Definition Map_get (entries : list (string * string)) (key : string)
  : option string :=
  assoc key (rev entries).

(** [Array.prototype.sort(compare)] is stable; [before a b] says that
    [compare(a, b) <= 0].  Each element is inserted behind the elements
    that may stay before it. *)
Fixpoint insert_sorted {A : Type} (before : A -> A -> bool) (x : A)
    (l : list A) : list A :=
  match l with
  | [] => [x]
  | y :: l' =>
      if before y x then y :: insert_sorted before x l' else x :: y :: l'
  end.

Definition sort {A : Type} (before : A -> A -> bool) (l : list A) : list A :=
  fold_left (fun sorted x => insert_sorted before x sorted) l [].

(** [(a, b) => b.totalCost - a.totalCost] *)
Definition by_cost_descending (a b : t) : bool :=
  Qle_bool (totalCost b - totalCost a) 0.

Definition getCostByVideo (video : list (string * string))
    (userId : option string) : M (list t) :=
  tryCatch
    (rows <- prisma.aPIUsage_rows (whereClause userId) ;;
     let videoUsage :=
       prisma.groupBy option_string_dec APIUsage.videoId rows in
     let videoIds :=
       flat_map (fun v => match fst v with Some id => [id] | None => [] end)
         videoUsage in
     videos <- video_findMany video videoIds ;;
     ret (sort by_cost_descending
            (flat_map
               (fun v =>
                  match fst v with
                  | Some id =>
                      if id ==? "" then []
                      else
                        [mk id
                           (match Map_get videos id with
                            | Some title =>
                                if title ==? "" then "Unknown Video" else title
                            | None => "Unknown Video"
                            end)
                           (or0Q (prisma._sum_Q APIUsage.estimatedCost (snd v)))
                           (prisma._count (snd v))]
                  | None => []
                  end)
               videoUsage)))
    (fun _ => ret []).

End CostByVideo.

(** ** Speaker detection (lib/ai-services.ts) *)

Module Speakers.

(** Texts are read as sequences of ASCII characters. *)
Definition is_upper (c : ascii) : bool :=
  let n := nat_of_ascii c in ((65 <=? n) && (n <=? 90))%nat.

Definition is_lower (c : ascii) : bool :=
  let n := nat_of_ascii c in ((97 <=? n) && (n <=? 122))%nat.

Fixpoint toLowerCase (s : string) : string :=
  match s with
  | EmptyString => EmptyString
  | String c s' =>
      String (if is_upper c then ascii_of_nat (nat_of_ascii c + 32) else c)
        (toLowerCase s')
  end.

(** [s.includes(sub)] *)
Fixpoint includes (s sub : string) : bool :=
  String.prefix sub s
  || match s with
     | EmptyString => false
     | String _ s' => includes s' sub
     end.

(** The rest of a match of [[a-z]+:]: [seen] tells whether a lowercase
    letter was read. *)
Fixpoint lowercase_run_then_colon (seen : bool) (s : string) : bool :=
  match s with
  | EmptyString => false
  | String c s' =>
      if is_lower c then lowercase_run_then_colon true s'
      else seen && Ascii.eqb c ":"%char
  end.

(** [text.match(/^[A-Z][a-z]+:/)] as a truth value *)
Definition starts_with_name (s : string) : bool :=
  match s with
  | EmptyString => false
  | String c s' => is_upper c && lowercase_run_then_colon false s'
  end.

Record SpeakerSegment : Type := mk {
  segment : Segment;                  (* [...segment] *)
  speakerId : option string           (* [None] is [null] *)
}.

Fixpoint mapi_from {A B : Type} (f : A -> nat -> B) (index : nat) (l : list A)
  : list B :=
  match l with
  | [] => []
  | a :: l' => f a index :: mapi_from f (S index) l'
  end.

Definition decimal (n : nat) : string :=
  NilEmpty.string_of_uint (Nat.to_uint n).

Definition isNewSpeaker (prevSegment : option Segment) (segment : Segment)
  : bool :=
  match prevSegment with
  | None => true
  | Some prev =>
      negb (Qle_bool (startTime segment - endTime prev) 2)
      || includes (toLowerCase (text segment)) "speaker"
      || starts_with_name (text segment)
  end.

Definition detectSpeakers (segments : list Segment) : list SpeakerSegment :=
  mapi_from
    (fun segment index =>
       let prevSegment :=
         match index with
         | O => None
         | S j => nth_error segments j
         end in
       mk segment
          (if isNewSpeaker prevSegment segment
           then Some ("speaker_" ++ decimal (index / 10 + 1))
           else None))
    0 segments.

End Speakers.

(** ** Vocabulary of the further properties *)

Definition Qsum (l : list Q) : Q := fold_right Qplus 0%Q l.

Definition Zsum (l : list Z) : Z := fold_right Z.add 0 l.

(** A world whose database cannot be reached, holding one cache entry and
    one ledger record. *)
Definition offline_world : World :=
  mkWorld
    [AICache.mk "summary" "sha256(gpt-4o-mini:k)" (JStr "kept") "gpt-4o-mini"
       (Some 3) (Some 4) 100 100 None 2]
    [APIUsage.mk "completion" "gpt-4o-mini" (Some 100) (Some 50) None
       (Some 0.000045%Q) false 100 None None]
    1000 false [].

(** A cache with an expired highlights entry, a live highlights entry and
    a live summary. *)
Definition world_three_entries : World :=
  mkWorld
    [AICache.mk "highlights" "h-old" (JObj []) "gpt-4o-mini" (Some 3)
       (Some 2) 100 100 (Some 500) 1;
     AICache.mk "highlights" "h-new" (JObj []) "gpt-4o-mini" None
       (Some 2) 100 100 (Some 5000) 0;
     AICache.mk "summary" "s-1" (JStr "text") "gpt-4o-mini" (Some 7)
       None 100 100 None 3]
    [] 1000 true [].

(** A token count that is a whole number, as an [Int] column takes it. *)
Definition integral (x : option Q) : Prop :=
  match x with
  | Some q => (q == inject_Z (Qfloor q))%Q
  | None => True
  end.

(** A ledger of four records: two videos, one cache hit, one record
    without a video. *)
Definition world_four_records : World :=
  mkWorld []
    [APIUsage.mk "transcription" "whisper-1" None None (Some 10%Q)
       (Some 0.06%Q) false 100 (Some "v1") (Some "u1");
     APIUsage.mk "completion" "gpt-4o-mini" (Some 1000) (Some 500) None
       (Some 0.00045%Q) false 200 (Some "v2") (Some "u1");
     APIUsage.mk "completion" "gpt-4o-mini" (Some 1000) (Some 500) None
       (Some 0.00045%Q) true 300 (Some "v1") (Some "u1");
     APIUsage.mk "embedding" "text-embedding-3-small" (Some 2000) None None
       None false 400 None (Some "u2")]
    1000 true [].

(** Collaborators whose file system has no file, and a provider that
    answers. *)
Definition no_file_env : Collaborators :=
  {| md5 := fun s => "md5(" ++ s ++ ")";
     sha256 := fun s => "sha256(" ++ s ++ ")";
     JSON_stringify := example_stringify;
     JSON_parse := fun _ => Ok (JObj []);
     fs_readFile := fun _ =>
       Throw (ErrorObj "ENOENT: no such file or directory");
     openai_audio_transcriptions_create := fun _ _ _ =>
       Ok [("text", JStr "hello")];
     openai_chat_completions_create := fun _ => provider_down;
     openai_embeddings_create := fun _ => provider_down |}.

(** A run is served from the cache: it yields the cached value, calls no
    provider, stores nothing, and writes one usage record, flagged
    [cached]. *)
Definition served_from_cache (run : M JSON) (w : World) (cached : JSON)
  : Prop :=
  outcome run w = Ok cached
  /\ existsb is_provider_call (calls_since w (world_after run w)) = false
  /\ existsb is_store (calls_since w (world_after run w)) = false
  /\ filter is_record (calls_since w (world_after run w))
     = [APIUsage_create true].

(** The ledger record of a chat completion. *)
Definition completion_record (model : string) (inputTokens outputTokens : Q)
    (cached : bool) (timestamp : Z) (videoId userId : option string)
  : APIUsage.t :=
  APIUsage.mk "completion" model (Some (Qfloor inputTokens))
    (Some (Qfloor outputTokens)) None
    (Some (Cost.calculateCost "completion" model (Some inputTokens)
             (Some outputTokens) None))
    cached timestamp videoId userId.

(** A provider whose chat completions carry no content. *)
Definition silent_env : Collaborators :=
  example_env (Ok (JObj [])) provider_down
    (Ok (mkChatResponse [None] (Some (120, 0))))
    (fun _ => provider_down).

(** A cache holding the summary of the transcript ["t"], under the
    fingerprint the example collaborators derive. *)
Definition world_cached_summary : World :=
  mkWorld
    [AICache.mk "summary" "sha256(gpt-4o-mini:md5(t))" (JStr "a summary")
       "gpt-4o-mini" (Some 1) (Some 9) 500 500 (Some 5000) 0]
    [] 1000 true [].

(** [days * 24 * 60 * 60 * 1000] *)
Definition days_ms (days : Z) : Z := days * 24 * 60 * 60 * 1000.

(** The ledger record of a transcription whose [duration] was handed over
    as [inputMinutes]. *)
Definition transcription_record (minutes : option Q) (cached : bool)
    (timestamp : Z) (videoId userId : option string) : APIUsage.t :=
  APIUsage.mk "transcription" AI_CONFIG.transcription_model None None minutes
    (Some (Cost.calculateCost "transcription" AI_CONFIG.transcription_model
             None None minutes))
    cached timestamp videoId userId.

(** The ledger after a cached transcription was served: the record of the
    hit is appended when the [duration] of the payload is a number, [null]
    or absent; for any other [duration] the record is refused and the
    ledger stays as it was. *)
Definition ledger_after_cached_transcription (ledger : list APIUsage.t)
    (duration : option JSON) (timestamp : Z) (videoId userId : option string)
  : list APIUsage.t :=
  match prisma.as_Float duration with
  | Ok minutes =>
      (ledger ++
       [transcription_record minutes true timestamp videoId userId])%list
  | Throw _ => ledger
  end.

(** A cache holding a transcription whose [duration] is a text. *)
Definition world_cached_transcription : World :=
  mkWorld
    [AICache.mk "transcription" "sha256(whisper-1:md5(RIFF-bytes):en)"
       (JObj [("text", JStr "hello"); ("duration", JStr "90")])
       "whisper-1" (Some 10) (Some 9) 500 500 (Some 5000) 0]
    [] 1000 true [].


(** * Properties *)

(** ** Cost model *)

Lemma num_truthy_cases (x : option Q) :
  (Cost.num_truthy x = None /\ (Cost.quantity x == 0)%Q) \/
  (exists q, Cost.num_truthy x = Some q /\ x = Some q).
Proof.
  destruct x as [q|]; simpl.
  - destruct (Qeq_bool q 0) eqn:E.
    + left. split; [reflexivity | now apply Qeq_bool_iff].
    + right. now exists q.
  - left. split; [reflexivity | reflexivity].
Qed.

(** C6.  [calculateCost] is a total function of its arguments (it is a
    Rocq function into [Q], so it yields a number on every input and
    depends on nothing else).  For non-negative quantities: a model without
    an entry in the rate table costs 0; the cost is never negative; and the
    cost is the one the cost model of the specification gives, quantity /
    unit * rate summed over the components that apply, with no rounding. *)
Theorem calculateCost_total_and_exact
    (type model : string) (inputTokens outputTokens inputMinutes : option Q) :
  Cost.nonneg inputTokens -> Cost.nonneg outputTokens ->
  Cost.nonneg inputMinutes ->
  (Cost.defined_model model = false ->
   Cost.calculateCost type model inputTokens outputTokens inputMinutes = 0%Q)
  /\ (0 <= Cost.calculateCost type model inputTokens outputTokens inputMinutes)%Q
  /\ (Cost.calculateCost type model inputTokens outputTokens inputMinutes
      == Cost.spec_estimateCost type model inputTokens outputTokens
           inputMinutes)%Q.
Proof.
  intros Hin Hout Hmin.
  unfold Cost.calculateCost, Cost.spec_estimateCost, Cost.COST_RATES,
    Cost.spec_rate_table, Cost.defined_model, Cost.mem_string.
  cbn [existsb].
  destruct (num_truthy_cases inputTokens) as [[Ei Qi]|[qi [Ei Qi]]];
  destruct (num_truthy_cases outputTokens) as [[Eo Qo]|[qo [Eo Qo]]];
  destruct (num_truthy_cases inputMinutes) as [[Em Qm]|[qm [Em Qm]]];
  rewrite Ei, Eo, Em; subst; cbn [Cost.quantity Cost.nonneg] in *.
  all: unfold Qdiv; change (/ 1000)%Q with (1 # 1000)%Q.
  all: destruct (model ==? "whisper-1");
    [| destruct (model ==? "gpt-4o-mini");
       [| destruct (model ==? "text-embedding-3-small");
          [| destruct (model ==? "text-embedding-3-large");
             [| destruct (existsb (String.eqb model) Cost.inherited_names)]]]].
  all: cbn [orb Cost.perMinute Cost.inputPer1K Cost.outputPer1K].
  all: destruct (type ==? "transcription");
    destruct (type ==? "completion"); destruct (type ==? "embedding");
    cbn [orb].
  all: split; [intros; try discriminate; reflexivity | split; lra].
Qed.

(** ** Usage ledger *)

Lemma request_up (c : Call) (w : World) :
  dbUp w = true -> prisma.request c w = (Ok tt, log c w).
Proof. intros Hup. unfold prisma.request. now rewrite Hup. Qed.

Lemma aPIUsage_rows_up (p : APIUsage.t -> bool) (w : World) :
  dbUp w = true ->
  prisma.aPIUsage_rows p w = (Ok (filter p (aPIUsage w)), log APIUsage_query w).
Proof.
  intros Hup. unfold prisma.aPIUsage_rows, bind, read.
  now rewrite (request_up _ _ Hup).
Qed.

Lemma aICache_rows_up (w : World) :
  dbUp w = true ->
  prisma.aICache_rows w = (Ok (aICache w), log AICache_query w).
Proof.
  intros Hup. unfold prisma.aICache_rows, bind, read.
  now rewrite (request_up _ _ Hup).
Qed.

Lemma filter_none {A : Type} (f : A -> bool) (l : list A) :
  (forall x, In x l -> f x = false) -> filter f l = [].
Proof.
  induction l as [|a l IH]; intros Hall; [reflexivity|].
  cbn [filter]. rewrite (Hall a (or_introl eq_refl)).
  apply IH. intros x Hx. apply Hall. now right.
Qed.

(** The group of cached records found by [find(s => s.cached)] counts the
    cached rows. *)
Lemma find_cached_group (rows : list APIUsage.t) :
  match find (fun s : bool * list APIUsage.t => fst s)
          (prisma.groupBy Bool.bool_dec APIUsage.cached rows) with
  | Some s => prisma._count (snd s)
  | None => 0
  end = cachedCount rows.
Proof.
  unfold prisma.groupBy, cachedCount, prisma._count.
  assert (Hf : forall r, (if Bool.bool_dec (APIUsage.cached r) true then true else false)
                         = APIUsage.cached r).
  { intros r. destruct (APIUsage.cached r); reflexivity. }
  assert (Hkeys : forall keys : list bool,
            match find (fun s : bool * list APIUsage.t => fst s)
                    (map (fun k => (k, filter (fun r => if Bool.bool_dec (APIUsage.cached r) k then true else false) rows)) keys) with
            | Some s => Z.of_nat (List.length (snd s))
            | None => 0
            end
            = if existsb (fun k => k) keys
              then Z.of_nat (List.length (filter APIUsage.cached rows)) else 0).
  { induction keys as [|k keys IH]; [reflexivity|].
    destruct k; cbn [map find fst snd existsb orb].
    - f_equal. f_equal. apply filter_ext. exact Hf.
    - exact IH. }
  rewrite Hkeys.
  destruct (existsb (fun k => k) (nodup Bool.bool_dec (map APIUsage.cached rows))) eqn:E;
    [reflexivity|].
  rewrite filter_none; [reflexivity|].
  intros r Hr. destruct (APIUsage.cached r) eqn:Ec; [|reflexivity].
  assert (Hin : In true (nodup Bool.bool_dec (map APIUsage.cached rows))).
  { apply nodup_In. rewrite <- Ec. now apply in_map. }
  assert (Hex : existsb (fun k : bool => k)
                  (nodup Bool.bool_dec (map APIUsage.cached rows)) = true).
  { apply existsb_exists. now exists true. }
  congruence.
Qed.

Lemma percentage_bounds (c t : Z) :
  0 <= c <= t -> 0 < t ->
  (0 <= inject_Z c / inject_Z t * 100 <= 100)%Q.
Proof.
  intros [Hc Hct] Ht.
  assert (Ht' : (0 < inject_Z t)%Q).
  { change 0%Q with (inject_Z 0). rewrite <- Zlt_Qlt. exact Ht. }
  assert (H0 : (0 <= inject_Z c / inject_Z t)%Q).
  { apply Qle_shift_div_l; [exact Ht'|].
    rewrite Qmult_0_l. change 0%Q with (inject_Z 0). rewrite <- Zle_Qle. exact Hc. }
  assert (H1 : (inject_Z c / inject_Z t <= 1)%Q).
  { apply Qle_shift_div_r; [exact Ht'|].
    rewrite Qmult_1_l. rewrite <- Zle_Qle. exact Hct. }
  split; lra.
Qed.

Lemma filter_length_le {A : Type} (f : A -> bool) (l : list A) :
  (List.length (filter f l) <= List.length l)%nat.
Proof.
  induction l as [|a l IH]; cbn [filter List.length]; [lia|].
  destruct (f a); cbn [List.length]; lia.
Qed.

(** C1 (amended).  With the database reachable, whenever some ledger record
    matches the filter, [getUsageStats] reports
    [cacheHitRate = cachedCount / totalCount * 100], a percentage between 0
    and 100. *)
Theorem getUsageStats_cacheHitRate_percentage
    (w : World) (startDate endDate : option Z) (userId : option string) :
  dbUp w = true ->
  let rows :=
    filter (APIUsageTracker.whereClause startDate endDate userId) (aPIUsage w) in
  rows <> [] ->
  exists stats,
    outcome (APIUsageTracker.getUsageStats startDate endDate userId) w = Ok stats
    /\ (APIUsageTracker.cacheHitRate stats
        == inject_Z (cachedCount rows) / inject_Z (totalCount rows) * 100)%Q
    /\ (0 <= APIUsageTracker.cacheHitRate stats <= 100)%Q.
Proof.
  intros Hup rows Hne.
  unfold outcome, APIUsageTracker.getUsageStats, tryCatch, bind.
  rewrite (aPIUsage_rows_up _ _ Hup).
  rewrite (aPIUsage_rows_up _ (log _ w)) by exact Hup.
  rewrite (aPIUsage_rows_up _ (log _ (log _ w))) by exact Hup.
  rewrite (aPIUsage_rows_up _ (log _ (log _ (log _ w)))) by exact Hup.
  cbn [log aPIUsage ret fst].
  fold rows. rewrite (find_cached_group rows).
  eexists. split; [reflexivity|].
  cbn [APIUsageTracker.cacheHitRate].
  assert (Hpos : 0 < prisma._count rows).
  { unfold prisma._count. destruct rows; [congruence | cbn [List.length]; lia]. }
  assert (Hgt : (prisma._count rows >? 0) = true) by (apply Z.gtb_lt; lia).
  rewrite Hgt. unfold totalCount. fold (prisma._count rows).
  split; [reflexivity|].
  apply percentage_bounds; [|exact Hpos].
  unfold cachedCount, prisma._count.
  pose proof (filter_length_le APIUsage.cached rows). lia.
Qed.

Lemma getUsageStats_cacheHitRate_percentage_witness :
  exists stats,
    outcome (APIUsageTracker.getUsageStats None None None) ledger_one_hit = Ok stats
    /\ (APIUsageTracker.cacheHitRate stats
        == inject_Z (cachedCount (aPIUsage ledger_one_hit))
           / inject_Z (totalCount (aPIUsage ledger_one_hit)) * 100)%Q
    /\ (0 <= APIUsageTracker.cacheHitRate stats <= 100)%Q.
Proof.
  apply (getUsageStats_cacheHitRate_percentage ledger_one_hit None None None).
  - reflexivity.
  - discriminate.
Defined.

(** C1 (as stated) fails: on the ledger holding one cache hit the reported
    rate is 100, which is neither [cachedCount / totalCount = 1] nor within
    [[0,1]]. *)
Lemma cacheHitRate_not_a_fraction : ~ cacheHitRate_is_fraction ledger_one_hit.
Proof.
  intros Hclaim.
  destruct (Hclaim _ eq_refl) as [_ [_ Hle]].
  vm_compute in Hle. apply Hle. reflexivity.
Qed.

(** ** Global cache statistics *)

Lemma filter_all {A : Type} (l : list A) : filter (fun _ => true) l = l.
Proof. induction l as [|a l IH]; cbn [filter]; [reflexivity | now rewrite IH]. Qed.

Lemma sum_hitCount_total (rows : list AICache.t) :
  or0Z (prisma._sum_Z AICache.hitCount rows) = totalCacheHits rows.
Proof. destruct rows; reflexivity. Qed.

Lemma estimateCostSavings_resolves (w : World) :
  exists s w', AICacheService.estimateCostSavings w = (Ok s, w').
Proof.
  unfold AICacheService.estimateCostSavings, tryCatch.
  destruct (bind prisma.aICache_rows _ w) as [[s|e] w'];
    [now exists s, w' | unfold ret; eauto].
Qed.

(** What [getStats] computes, with the database reachable: the rate is
    the percentage of [totalCacheHits] in [totalCacheHits] plus the number
    of all ledger records, whatever their [cached] flag. *)
Lemma getStats_counts_every_record (w : World) :
  dbUp w = true ->
  exists stats,
    outcome AICacheService.getStats w = Ok stats
    /\ (AICacheService.hitRate stats
        == if totalCacheHits (aICache w) + totalCount (aPIUsage w) >? 0
           then inject_Z (totalCacheHits (aICache w))
                / inject_Z (totalCacheHits (aICache w) + totalCount (aPIUsage w))
                * 100
           else 0)%Q.
Proof.
  intros Hup.
  unfold outcome, AICacheService.getStats, tryCatch.
  unfold bind at 1. rewrite (aICache_rows_up _ Hup).
  unfold bind at 1. rewrite (aICache_rows_up (log _ w)) by exact Hup.
  unfold bind at 1. rewrite (aPIUsage_rows_up _ (log _ (log _ w))) by exact Hup.
  unfold bind at 1.
  rewrite (aICache_rows_up (log _ (log _ (log _ w)))) by exact Hup.
  unfold bind at 1.
  destruct (estimateCostSavings_resolves
              (log AICache_query (log APIUsage_query
                 (log AICache_query (log AICache_query w)))))
    as [sv [w' Es]].
  rewrite Es. cbn [log aICache aPIUsage ret fst].
  eexists. split; [reflexivity|].
  cbn [AICacheService.hitRate].
  rewrite filter_all, sum_hitCount_total.
  unfold totalCount, prisma._count.
  rewrite (Z.add_comm (Z.of_nat (List.length (aPIUsage w)))).
  reflexivity.
Qed.

Lemma filter_id {A : Type} (f : A -> bool) (l : list A) :
  forallb f l = true -> filter f l = l.
Proof.
  induction l as [|a l IH]; [reflexivity|].
  cbn [forallb filter]. intros Hall. apply andb_true_iff in Hall.
  destruct Hall as [Ha Hl]. rewrite Ha. now rewrite IH.
Qed.

(** C9 (amended).  With the database reachable and a ledger that holds
    only records of real provider invocations ([cached = false]),
    [getStats] reports the percentage
    [hitRate = totalCacheHits / (totalCacheHits + totalProviderCalls) * 100],
    where [totalCacheHits] sums the hit counts of the cache entries; the
    rate is 0 when that denominator is not positive. *)
Theorem getStats_hitRate_formula (w : World) :
  dbUp w = true ->
  forallb (fun r => negb (APIUsage.cached r)) (aPIUsage w) = true ->
  exists stats,
    outcome AICacheService.getStats w = Ok stats
    /\ (AICacheService.hitRate stats
        == if totalCacheHits (aICache w) + providerCallCount (aPIUsage w) >? 0
           then inject_Z (totalCacheHits (aICache w))
                / inject_Z (totalCacheHits (aICache w)
                            + providerCallCount (aPIUsage w))
                * 100
           else 0)%Q.
Proof.
  intros Hup Honly.
  destruct (getStats_counts_every_record w Hup) as [stats [Hs Hr]].
  exists stats. split; [exact Hs|].
  unfold providerCallCount. rewrite (filter_id _ _ Honly). exact Hr.
Qed.

Lemma getStats_hitRate_formula_witness :
  exists stats,
    outcome AICacheService.getStats world_one_miss_then_hit_unrecorded = Ok stats
    /\ (AICacheService.hitRate stats == 50)%Q.
Proof.
  destruct (getStats_hitRate_formula world_one_miss_then_hit_unrecorded
              eq_refl eq_refl)
    as [stats [Hs Hr]].
  exists stats. split; [exact Hs|].
  rewrite Hr. vm_compute. reflexivity.
Defined.

(** C9 (as stated) fails: after one provider call and one hit of the entry
    it created, both recorded in the ledger, [getStats] reports 100/3, not
    1/(1+1). *)
Lemma hitRate_not_over_provider_calls :
  ~ hitRate_over_provider_calls world_one_miss_one_hit.
Proof.
  intros Hclaim. specialize (Hclaim _ eq_refl).
  vm_compute in Hclaim. discriminate Hclaim.
Qed.

(** ** Cache store *)

Lemma has_hash_true (hash : string) (r : AICache.t) :
  prisma.has_hash hash r = true <-> AICache.inputHash r = hash.
Proof. unfold prisma.has_hash. apply String.eqb_eq. Qed.

Lemma find_unique (rows : list AICache.t) (row : AICache.t) (hash : string) :
  unique_hashes rows -> In row rows -> AICache.inputHash row = hash ->
  find (prisma.has_hash hash) rows = Some row.
Proof.
  unfold unique_hashes.
  induction rows as [|r rows IH]; intros Hu Hin Hh; [contradiction|].
  cbn [map] in Hu. inversion Hu as [|? ? Hnotin Hu']; subst.
  cbn [find]. destruct Hin as [->|Hin].
  - now rewrite (proj2 (has_hash_true _ _) eq_refl).
  - destruct (prisma.has_hash (AICache.inputHash row) r) eqn:E.
    + apply has_hash_true in E. exfalso. apply Hnotin.
      rewrite E. now apply in_map.
    + now apply IH.
Qed.

Lemma rows_with_hash_unique (rows : list AICache.t) (row : AICache.t)
    (hash : string) :
  unique_hashes rows -> In row rows -> AICache.inputHash row = hash ->
  rows_with_hash hash rows = [row].
Proof.
  unfold unique_hashes, rows_with_hash.
  induction rows as [|r rows IH]; intros Hu Hin Hh; [contradiction|].
  cbn [map] in Hu. inversion Hu as [|? ? Hnotin Hu']; subst.
  cbn [filter]. destruct Hin as [->|Hin].
  - rewrite (proj2 (has_hash_true _ _) eq_refl). f_equal.
    apply filter_none. intros x Hx.
    destruct (prisma.has_hash (AICache.inputHash row) x) eqn:E; [|reflexivity].
    apply has_hash_true in E. exfalso. apply Hnotin.
    rewrite <- E. now apply in_map.
  - destruct (prisma.has_hash (AICache.inputHash row) r) eqn:E.
    + apply has_hash_true in E. exfalso. apply Hnotin.
      rewrite E. now apply in_map.
    + now apply IH.
Qed.

Lemma existsb_rows_with_hash (hash : string) (rows : list AICache.t) :
  existsb (prisma.has_hash hash) rows = false <-> rows_with_hash hash rows = [].
Proof.
  unfold rows_with_hash.
  induction rows as [|r rows IH]; cbn [existsb filter]; [tauto|].
  destruct (prisma.has_hash hash r); cbn [orb]; [|exact IH].
  split; discriminate.
Qed.

Lemma existsb_has_hash_in (hash : string) (rows : list AICache.t)
    (row : AICache.t) :
  In row rows -> AICache.inputHash row = hash ->
  existsb (prisma.has_hash hash) rows = true.
Proof.
  intros Hin Hh. apply existsb_exists. exists row. split; [exact Hin|].
  now apply has_hash_true.
Qed.

Lemma rows_with_hash_removed (hash : string) (rows : list AICache.t) :
  rows_with_hash hash (filter (fun r => negb (prisma.has_hash hash r)) rows) = [].
Proof.
  unfold rows_with_hash. apply filter_none. intros x Hx.
  apply filter_In in Hx. destruct Hx as [_ Hx].
  now destruct (prisma.has_hash hash x).
Qed.

(** Rewriting the rows that have a key by a function that keeps the key. *)
Lemma rows_with_hash_rewritten (hash : string) (f : AICache.t -> AICache.t)
    (rows : list AICache.t) :
  (forall r, AICache.inputHash (f r) = AICache.inputHash r) ->
  rows_with_hash hash
    (map (fun r => if prisma.has_hash hash r then f r else r) rows)
  = map f (rows_with_hash hash rows).
Proof.
  intros Hf. unfold rows_with_hash.
  induction rows as [|r rows IH]; [reflexivity|].
  cbn [map filter].
  destruct (prisma.has_hash hash r) eqn:E.
  - assert (E' : prisma.has_hash hash (f r) = true).
    { apply has_hash_true. rewrite Hf. now apply has_hash_true. }
    rewrite E'. cbn [map]. now rewrite IH.
  - rewrite E. exact IH.
Qed.

Lemma hashes_rewritten (hash : string) (f : AICache.t -> AICache.t)
    (rows : list AICache.t) :
  (forall r, AICache.inputHash (f r) = AICache.inputHash r) ->
  map AICache.inputHash
    (map (fun r => if prisma.has_hash hash r then f r else r) rows)
  = map AICache.inputHash rows.
Proof.
  intros Hf. rewrite map_map. apply map_ext. intros r.
  destruct (prisma.has_hash hash r); [apply Hf | reflexivity].
Qed.

Lemma calls_since_log (w : World) (l : list Call) (w' : World) :
  calls w' = (calls w ++ l)%list -> calls_since w w' = l.
Proof.
  intros E. unfold calls_since. rewrite E.
  rewrite skipn_app, skipn_all, Nat.sub_diag. reflexivity.
Qed.

Section CacheProperties.
Context {env : Collaborators}.

(** C3.  With the database reachable and [inputHash] unique, a [get] whose
    fingerprint is that of an entry with a non-null [expiresAt] in the past
    yields [null] and removes the entry, by one [findUnique] and one
    [delete] and no other call; a [get] on an entry that has not expired
    yields the stored payload, by one [findUnique] and one [update] and no
    other call, and leaves the entry with [hitCount] incremented by one
    and [updatedAt] set to the time of the hit (the column is
    [@updatedAt]), every other column being as it was. *)
Theorem get_expires_lazily_or_counts_hit
    (w : World) (type content model : string) (row : AICache.t) :
  dbUp w = true ->
  unique_hashes (aICache w) ->
  In row (aICache w) ->
  AICache.inputHash row = AICacheService.generateHash content model ->
  let hash := AICacheService.generateHash content model in
  let w' := world_after (AICacheService.get type content model) w in
  (forall e, AICache.expiresAt row = Some e -> e < clock w ->
     outcome (AICacheService.get type content model) w = Ok JNull
     /\ rows_with_hash hash (aICache w') = []
     /\ aICache w'
        = filter (fun r => negb (prisma.has_hash hash r)) (aICache w)
     /\ calls_since w w' = [AICache_findUnique hash; AICache_delete hash])
  /\ ((forall e, AICache.expiresAt row = Some e -> clock w <= e) ->
     outcome (AICacheService.get type content model) w
       = Ok (AICache.response row)
     /\ rows_with_hash hash (aICache w')
        = [AICache.mk (AICache.type row) (AICache.inputHash row)
             (AICache.response row) (AICache.model row)
             (AICache.inputSize row) (AICache.outputSize row)
             (AICache.createdAt row) (clock w) (AICache.expiresAt row)
             (AICache.hitCount row + 1)]
     /\ calls_since w w' = [AICache_findUnique hash; AICache_update hash]).
Proof.
  intros Hup Hu Hin Hh hash w'.
  assert (Hfind : find (prisma.has_hash hash) (aICache w) = Some row)
    by now apply find_unique.
  assert (Hex : existsb (prisma.has_hash hash) (aICache w) = true)
    by now apply (existsb_has_hash_in _ _ row).
  assert (Hrun : forall b, AICacheService.expired row (clock w) = b ->
            AICacheService.get type content model w =
            if b then
              (Ok JNull,
               with_aICache
                 (filter (fun r => negb (prisma.has_hash hash r)) (aICache w))
                 (log (AICache_delete hash) (log (AICache_findUnique hash) w)))
            else
              (Ok (AICache.response row),
               with_aICache
                 (map (fun r => if prisma.has_hash hash r
                                then AICacheService.increment_hitCount
                                       (clock w) r
                                else r)
                      (aICache w))
                 (log (AICache_update hash) (log (AICache_findUnique hash) w)))).
  { intros b Hb.
    unfold AICacheService.get, tryCatch, bind, prisma.aICache_findUnique,
      bind, read.
    fold hash. rewrite (request_up _ _ Hup).
    cbn [log aICache clock]. rewrite Hfind. cbn [log clock]. rewrite Hb.
    destruct b.
    - unfold AICacheService.delete, tryCatch, prisma.aICache_delete, bind.
      rewrite request_up by exact Hup.
      cbn [log aICache]. rewrite Hex. reflexivity.
    - unfold prisma.aICache_update, bind.
      rewrite request_up by exact Hup.
      cbn [log aICache]. rewrite Hex. reflexivity. }
  split.
  - intros e He Hlt.
    assert (Hb : AICacheService.expired row (clock w) = true).
    { unfold AICacheService.expired. rewrite He. now apply Z.ltb_lt. }
    unfold outcome. subst w'. unfold world_after.
    rewrite (Hrun true Hb). cbn [fst snd with_aICache aICache].
    repeat split.
    + apply rows_with_hash_removed.
    + apply calls_since_log. cbn [calls log with_aICache].
      rewrite <- app_assoc. reflexivity.
  - intros Hnot.
    assert (Hb : AICacheService.expired row (clock w) = false).
    { unfold AICacheService.expired.
      destruct (AICache.expiresAt row) as [e|]; [|reflexivity].
      apply Z.ltb_ge. now apply Hnot. }
    unfold outcome. subst w'. unfold world_after.
    rewrite (Hrun false Hb). cbn [fst snd with_aICache aICache].
    repeat split.
    + rewrite rows_with_hash_rewritten by reflexivity.
      rewrite (rows_with_hash_unique _ row) by assumption.
      reflexivity.
    + apply calls_since_log. cbn [calls log with_aICache].
      rewrite <- app_assoc. reflexivity.
Qed.

Lemma set_up (w : World) (type content model : string) (response : JSON)
    (days inputSize outputSize : option Z) :
  dbUp w = true ->
  let hash := AICacheService.generateHash content model in
  let expiresAt := AICacheService.expiresAt_of (clock w) days in
  AICacheService.set type content model response days inputSize outputSize w
  = (Ok tt,
     with_aICache
       (if existsb (prisma.has_hash hash) (aICache w) then
          map (fun r =>
                 if prisma.has_hash hash r then
                   AICache.mk (AICache.type r) (AICache.inputHash r) response
                     (AICache.model r)
                     (AICacheService.unless_undefined inputSize (AICache.inputSize r))
                     (AICacheService.unless_undefined outputSize (AICache.outputSize r))
                     (AICache.createdAt r) (clock w) expiresAt
                     (AICache.hitCount r)
                 else r)
              (aICache w)
        else
          aICache w ++
          [AICache.mk type hash response model inputSize outputSize
             (clock w) (clock w) expiresAt 0])
       (log (AICache_upsert hash) w)).
Proof.
  intros Hup hash expiresAt.
  unfold AICacheService.set, tryCatch, bind, read, prisma.aICache_upsert, bind.
  fold hash. rewrite (request_up _ _ Hup). cbn [log aICache clock].
  fold expiresAt.
  destruct (existsb (prisma.has_hash hash) (aICache w)); reflexivity.
Qed.

Lemma rows_with_hash_app (hash : string) (l1 l2 : list AICache.t) :
  rows_with_hash hash (l1 ++ l2)
  = (rows_with_hash hash l1 ++ rows_with_hash hash l2)%list.
Proof. unfold rows_with_hash. apply filter_app. Qed.

Lemma rows_with_hash_nonempty (hash : string) (rows : list AICache.t) :
  unique_hashes rows ->
  existsb (prisma.has_hash hash) rows = true ->
  exists row, rows_with_hash hash rows = [row] /\ In row rows
              /\ AICache.inputHash row = hash.
Proof.
  intros Hu Hex. apply existsb_exists in Hex. destruct Hex as [row [Hin Hh]].
  apply has_hash_true in Hh. exists row.
  split; [now apply rows_with_hash_unique | now split].
Qed.

(** One [set] with the database reachable: uniqueness is kept and exactly
    one row has the fingerprint afterwards. *)
Lemma set_one_entry (w : World) (type content model : string)
    (response : JSON) (days inputSize outputSize : option Z) :
  dbUp w = true ->
  unique_hashes (aICache w) ->
  let hash := AICacheService.generateHash content model in
  let w' :=
    world_after (AICacheService.set type content model response days
                   inputSize outputSize) w in
  dbUp w' = true /\ clock w' = clock w /\ unique_hashes (aICache w')
  /\ exists entry,
       rows_with_hash hash (aICache w') = [entry]
       /\ AICache.response entry = response
       /\ AICache.expiresAt entry = AICacheService.expiresAt_of (clock w) days
       /\ AICache.updatedAt entry = clock w
       /\ (forall n, inputSize = Some n -> AICache.inputSize entry = Some n)
       /\ (forall n, outputSize = Some n -> AICache.outputSize entry = Some n)
       /\ (rows_with_hash hash (aICache w) = [] ->
           entry = AICache.mk type hash response model inputSize outputSize
                     (clock w) (clock w)
                     (AICacheService.expiresAt_of (clock w) days) 0
           /\ aICache w' = (aICache w ++ [entry])%list)
       /\ (forall old, rows_with_hash hash (aICache w) = [old] ->
           AICache.hitCount entry = AICache.hitCount old
           /\ AICache.createdAt entry = AICache.createdAt old
           /\ AICache.inputSize entry
              = AICacheService.unless_undefined inputSize (AICache.inputSize old)
           /\ AICache.outputSize entry
              = AICacheService.unless_undefined outputSize (AICache.outputSize old)
           /\ List.length (aICache w') = List.length (aICache w)).
Proof.
  intros Hup Hu hash w'. subst w'. unfold world_after.
  rewrite (set_up _ _ _ _ _ _ _ _ Hup). fold hash. cbn [snd].
  destruct (existsb (prisma.has_hash hash) (aICache w)) eqn:Hex;
    cbn [with_aICache log dbUp clock aICache].
  - destruct (rows_with_hash_nonempty _ _ Hu Hex) as [old [Hold [Hin Hh]]].
    split; [exact Hup|]. split; [reflexivity|]. split.
    + unfold unique_hashes. rewrite hashes_rewritten by reflexivity. exact Hu.
    + eexists. rewrite rows_with_hash_rewritten by reflexivity.
      rewrite Hold. cbn [map]. split; [reflexivity|].
      cbn [AICache.response AICache.expiresAt AICache.updatedAt
           AICache.inputSize AICache.outputSize AICache.hitCount
           AICache.createdAt].
      repeat split.
      all: try (intros n ->; reflexivity).
      all: try match goal with
               | Hnil : [_] = [] |- _ => discriminate Hnil
               end.
      all: match goal with
           | Hx : [_] = [_] |- _ =>
               injection Hx as <-;
               first [reflexivity | now rewrite length_map]
           end.
  - apply existsb_rows_with_hash in Hex.
    split; [exact Hup|]. split; [reflexivity|]. split.
    + unfold unique_hashes. rewrite map_app. cbn [map AICache.inputHash].
      apply NoDup_app; [exact Hu | repeat constructor; intros [] |].
      intros h Hh [<-|[]].
      apply in_map_iff in Hh. destruct Hh as [r [Hr Hin]].
      assert (Hin' : In r (rows_with_hash hash (aICache w))).
      { apply filter_In. split; [exact Hin | now apply has_hash_true]. }
      rewrite Hex in Hin'. exact Hin'.
    + eexists. rewrite rows_with_hash_app, Hex. cbn [app].
      unfold rows_with_hash at 1. cbn [filter].
      unfold prisma.has_hash at 1. cbn [AICache.inputHash].
      rewrite String.eqb_refl.
      split; [reflexivity|].
      cbn [AICache.response AICache.expiresAt AICache.updatedAt
           AICache.inputSize AICache.outputSize AICache.hitCount
           AICache.createdAt].
      repeat split; try (intros; subst; reflexivity).
      all: match goal with Hx : [] = [_] |- _ => discriminate Hx end.
Qed.

(** C8 (amended).  With the database reachable and [inputHash] unique, two
    calls of [set] with the same (kind, fingerprint input, model) leave
    exactly one entry with that fingerprint and keep uniqueness.  It holds
    the payload and the expiry of the second call; each of its sizes is the
    one the second call gives or, where the second call gives none, the one
    stored before; the second call adds no row and keeps [hitCount].  When
    no entry had the fingerprint, the first call appends a fresh entry with
    [hitCount = 0]. *)
Theorem set_twice_upserts
    (w : World) (type content model : string)
    (response1 : JSON) (days1 inputSize1 outputSize1 : option Z)
    (response2 : JSON) (days2 inputSize2 outputSize2 : option Z)
    (later : Z) :
  dbUp w = true ->
  unique_hashes (aICache w) ->
  let hash := AICacheService.generateHash content model in
  let w1 :=
    world_after (AICacheService.set type content model response1 days1
                   inputSize1 outputSize1) w in
  let w2 :=
    world_after (AICacheService.set type content model response2 days2
                   inputSize2 outputSize2) (with_clock later w1) in
  exists entry1 entry2,
    rows_with_hash hash (aICache w1) = [entry1]
    /\ rows_with_hash hash (aICache w2) = [entry2]
    /\ AICache.response entry2 = response2
    /\ AICache.expiresAt entry2 = AICacheService.expiresAt_of later days2
    /\ AICache.inputSize entry2
       = AICacheService.unless_undefined inputSize2 (AICache.inputSize entry1)
    /\ AICache.outputSize entry2
       = AICacheService.unless_undefined outputSize2 (AICache.outputSize entry1)
    /\ AICache.hitCount entry2 = AICache.hitCount entry1
    /\ List.length (aICache w2) = List.length (aICache w1)
    /\ unique_hashes (aICache w2)
    /\ (rows_with_hash hash (aICache w) = [] ->
        entry1 = AICache.mk type hash response1 model inputSize1 outputSize1
                   (clock w) (clock w)
                   (AICacheService.expiresAt_of (clock w) days1) 0
        /\ aICache w1 = (aICache w ++ [entry1])%list).
Proof.
  intros Hup Hu hash w1 w2.
  destruct (set_one_entry w type content model response1 days1 inputSize1
              outputSize1 Hup Hu)
    as [Hup1 [_ [Hu1 [entry1 [Hrows1 [_ [_ [_ [_ [_ [Hfresh _]]]]]]]]]]].
  fold hash in Hrows1, Hfresh. fold w1 in Hup1, Hu1, Hrows1, Hfresh.
  destruct (set_one_entry (with_clock later w1) type content model response2
              days2 inputSize2 outputSize2 Hup1 Hu1)
    as [_ [_ [Hu2 [entry2 [Hrows2 [Hresp [Hexp [_ [_ [_ [_ Hold]]]]]]]]]]].
  fold hash in Hrows2, Hold. fold w2 in Hu2, Hrows2, Hold.
  cbn [with_clock aICache clock] in Hold, Hexp.
  destruct (Hold entry1 Hrows1) as [Hhit [_ [Hin [Hout Hlen]]]].
  exists entry1, entry2.
  repeat split; try assumption; now apply Hfresh.
Qed.

End CacheProperties.

(** [get] on a concrete cache: the stale entry goes away, the other entry
    is hit. *)
Lemma get_expires_lazily_or_counts_hit_witness :
  (outcome (AICacheService.get (env:=failing_env) "summary" "stale" "gpt-4o-mini")
     world_stale_entry = Ok JNull
   /\ rows_with_hash "sha256(gpt-4o-mini:stale)"
        (aICache (world_after
                    (AICacheService.get (env:=failing_env) "summary" "stale"
                       "gpt-4o-mini") world_stale_entry)) = [])
  /\ (outcome (AICacheService.get (env:=failing_env) "summary" "fresh" "gpt-4o-mini")
        world_stale_entry = Ok (JStr "kept")
      /\ rows_with_hash "sha256(gpt-4o-mini:fresh)"
           (aICache (world_after
                       (AICacheService.get (env:=failing_env) "summary" "fresh"
                          "gpt-4o-mini") world_stale_entry))
         = [AICache.mk "summary" "sha256(gpt-4o-mini:fresh)" (JStr "kept")
              "gpt-4o-mini" (Some 3) (Some 4) 100 1000 None 5]).
Proof.
  assert (Hu : unique_hashes (aICache world_stale_entry)).
  { unfold unique_hashes. cbn.
    repeat constructor; cbn; intuition discriminate. }
  split.
  - destruct (get_expires_lazily_or_counts_hit (env:=failing_env)
                world_stale_entry "summary" "stale" "gpt-4o-mini"
                (AICache.mk "summary" "sha256(gpt-4o-mini:stale)" (JStr "old")
                   "gpt-4o-mini" (Some 3) (Some 3) 100 100 (Some 500) 4))
      as [Hexpired _].
    + reflexivity.
    + exact Hu.
    + left. reflexivity.
    + reflexivity.
    + destruct (Hexpired 500) as [Hnull [Hgone _]].
      * reflexivity.
      * reflexivity.
      * split; [exact Hnull | exact Hgone].
  - destruct (get_expires_lazily_or_counts_hit (env:=failing_env)
                world_stale_entry "summary" "fresh" "gpt-4o-mini"
                (AICache.mk "summary" "sha256(gpt-4o-mini:fresh)" (JStr "kept")
                   "gpt-4o-mini" (Some 3) (Some 4) 100 100 None 4))
      as [_ Hfresh].
    + reflexivity.
    + exact Hu.
    + right. left. reflexivity.
    + reflexivity.
    + destruct Hfresh as [Hvalue [Hrows _]].
      * intros e He. discriminate He.
      * split; [exact Hvalue | exact Hrows].
Defined.

Lemma set_twice_upserts_witness :
  exists entry,
    rows_with_hash "sha256(gpt-4o-mini:k)"
      (aICache
         (world_after
            (AICacheService.set (env:=failing_env) "summary" "k" "gpt-4o-mini"
               (JStr "b") (Some 90) (Some 7) (Some 8))
            (with_clock 5000
               (world_after
                  (AICacheService.set (env:=failing_env) "summary" "k"
                     "gpt-4o-mini" (JStr "a") (Some 60) (Some 10) (Some 20))
                  empty_world)))) = [entry]
    /\ AICache.response entry = JStr "b"
    /\ AICache.inputSize entry = Some 7.
Proof.
  destruct (set_twice_upserts (env:=failing_env) empty_world "summary" "k"
              "gpt-4o-mini" (JStr "a") (Some 60) (Some 10) (Some 20)
              (JStr "b") (Some 90) (Some 7) (Some 8) 5000)
    as [entry1 [entry2 [_ [Hrows [Hresp [_ [Hin _]]]]]]].
  - reflexivity.
  - constructor.
  - exists entry2. split; [exact Hrows|]. split; [exact Hresp | exact Hin].
Defined.

(** C8 (as stated) fails: when the second call omits the sizes, the entry
    keeps the sizes of the first call. *)
Lemma second_set_keeps_omitted_sizes :
  ~ second_set_overwrites_sizes (env:=failing_env) empty_world
      "summary" "k" "gpt-4o-mini"
      (JStr "a") (Some 60) (Some 10) (Some 20)
      (JStr "b") (Some 60) None None.
Proof.
  intros [entry [Hrows [_ [_ [Hin _]]]]].
  vm_compute in Hrows. injection Hrows as <-.
  discriminate Hin.
Qed.


(** ** Effects of the three services on the world *)

Section Effects.
Context {env : Collaborators}.

(** What [get] may do: it never throws, leaves the ledger alone, issues
    only cache reads, hit-count updates and deletions, and writes no
    entry. *)
Lemma get_effect (type content model : string) (w : World) :
  exists v w' l,
    AICacheService.get type content model w = (Ok v, w')
    /\ aPIUsage w' = aPIUsage w
    /\ dbUp w' = dbUp w
    /\ clock w' = clock w
    /\ calls w' = (calls w ++ l)%list
    /\ hd_error l
       = Some (AICache_findUnique (AICacheService.generateHash content model))
    /\ existsb is_store l = false
    /\ existsb is_record l = false
    /\ existsb is_provider_call l = false
    /\ no_entry_written (aICache w) (aICache w').
Proof.
  set (hash := AICacheService.generateHash content model).
  assert (Hsame : no_entry_written (aICache w) (aICache w)).
  { intros r Hr. exists r. unfold same_entry. tauto. }
  unfold AICacheService.get, tryCatch, bind, prisma.aICache_findUnique, bind,
    read, prisma.request.
  fold hash.
  destruct (dbUp w) eqn:Hup.
  - cbn [log aICache clock].
    destruct (find (prisma.has_hash hash) (aICache w)) as [row|] eqn:Hfind.
    + cbn [log clock].
      destruct (AICacheService.expired row (clock w)).
      * unfold AICacheService.delete, tryCatch, prisma.aICache_delete, bind,
          prisma.request.
        cbn [log dbUp aICache]. rewrite Hup. cbn [log aICache].
        destruct (existsb (prisma.has_hash hash) (aICache w)).
        -- do 3 eexists. split; [reflexivity|].
           cbn [with_aICache log aPIUsage dbUp clock calls aICache].
           rewrite <- app_assoc. repeat split; try reflexivity; try assumption.
           intros r' Hr'. apply filter_In in Hr'. destruct Hr' as [Hr' _].
           exists r'. unfold same_entry. tauto.
        -- do 3 eexists. split; [reflexivity|].
           cbn [with_aICache log aPIUsage dbUp clock calls aICache].
           rewrite <- app_assoc. repeat split; try reflexivity; assumption.
      * unfold prisma.aICache_update, bind, prisma.request.
        cbn [log dbUp aICache]. rewrite Hup. cbn [log aICache].
        destruct (existsb (prisma.has_hash hash) (aICache w)).
        -- do 3 eexists. split; [reflexivity|].
           cbn [with_aICache log aPIUsage dbUp clock calls aICache].
           rewrite <- app_assoc. repeat split; try reflexivity; try assumption.
           intros r' Hr'. apply in_map_iff in Hr'.
           destruct Hr' as [r [Hr' Hin]]. exists r. split; [exact Hin|].
           destruct (prisma.has_hash hash r); subst r';
             unfold same_entry; cbn; tauto.
        -- do 3 eexists. split; [reflexivity|].
           cbn [with_aICache log aPIUsage dbUp clock calls aICache].
           rewrite <- app_assoc. repeat split; try reflexivity; assumption.
    + do 3 eexists. split; [reflexivity|].
      cbn [log aPIUsage dbUp clock calls aICache].
      repeat split; try reflexivity; assumption.
  - do 3 eexists. split; [reflexivity|].
    cbn [log aPIUsage dbUp clock calls aICache].
    repeat split; try reflexivity; assumption.
Qed.

(** What [trackUsage] may do: it never throws, leaves the cache alone and
    issues one [create]. *)
Lemma trackUsage_effect (type model : string)
    (inputTokens outputTokens : option Q) (inputMinutes : option JSON)
    (cached : bool) (videoId userId : option string) (w : World) :
  exists w',
    APIUsageTracker.trackUsage type model inputTokens outputTokens
      inputMinutes (Some cached) videoId userId w = (Ok tt, w')
    /\ aICache w' = aICache w
    /\ dbUp w' = dbUp w
    /\ clock w' = clock w
    /\ calls w' = (calls w ++ [APIUsage_create cached])%list.
Proof.
  unfold APIUsageTracker.trackUsage, tryCatch, prisma.aPIUsage_create, bind,
    prisma.request, lift.
  destruct (dbUp w) eqn:Hup.
  - destruct (prisma.as_Float inputMinutes);
      eexists; (split; [reflexivity|]);
      cbn [with_aPIUsage log aICache dbUp clock calls]; tauto.
  - eexists. split; [reflexivity|].
    cbn [log aICache dbUp clock calls]. tauto.
Qed.

(** What [set] may do: it never throws, leaves the ledger alone and issues
    one [upsert]. *)
Lemma set_effect (type content model : string) (response : JSON)
    (days inputSize outputSize : option Z) (w : World) :
  exists w',
    AICacheService.set type content model response days inputSize outputSize w
    = (Ok tt, w')
    /\ aPIUsage w' = aPIUsage w
    /\ dbUp w' = dbUp w
    /\ clock w' = clock w
    /\ calls w'
       = (calls w
          ++ [AICache_upsert (AICacheService.generateHash content model)])%list.
Proof.
  unfold AICacheService.set, tryCatch, bind, read, prisma.aICache_upsert, bind,
    prisma.request.
  destruct (dbUp w) eqn:Hup; cbn [log dbUp aICache clock].
  - destruct (existsb (prisma.has_hash (AICacheService.generateHash content model))
                (aICache w));
      eexists; (split; [reflexivity|]);
      cbn [with_aICache log aPIUsage dbUp clock calls]; tauto.
  - eexists. split; [reflexivity|].
    cbn [log aPIUsage dbUp clock calls]. tauto.
Qed.

(** The table [get] leaves is the one it found, or that table without the
    rows of the fingerprint, or with the hit counted on them. *)
Lemma get_rows_shape (type content model : string) (w : World) :
  let hash := AICacheService.generateHash content model in
  let rows' := aICache (world_after (AICacheService.get type content model) w) in
  rows' = aICache w
  \/ rows' = filter (fun r => negb (prisma.has_hash hash r)) (aICache w)
  \/ rows' = map (fun r => if prisma.has_hash hash r
                           then AICacheService.increment_hitCount (clock w) r
                           else r)
               (aICache w).
Proof.
  intros hash rows'. subst rows'.
  unfold world_after, AICacheService.get, tryCatch, bind,
    prisma.aICache_findUnique, bind, read, prisma.request.
  fold hash.
  destruct (dbUp w) eqn:Hup; cbn [log aICache clock ret snd]; [|now left].
  destruct (find (prisma.has_hash hash) (aICache w)) as [row|];
    cbn [log clock ret snd aICache]; [|now left].
  destruct (AICacheService.expired row (clock w)).
  - unfold AICacheService.delete, tryCatch, prisma.aICache_delete, bind,
      prisma.request.
    cbn [log dbUp aICache]. rewrite Hup. cbn [log aICache].
    destruct (existsb (prisma.has_hash hash) (aICache w));
      cbn [ret snd with_aICache log aICache]; [right; now left | now left].
  - unfold prisma.aICache_update, bind, prisma.request.
    cbn [log dbUp aICache]. rewrite Hup. cbn [log aICache].
    destruct (existsb (prisma.has_hash hash) (aICache w));
      cbn [ret snd with_aICache log aICache]; [right; now right | now left].
Qed.

End Effects.

(** ** Orchestrators: failures *)

Section Failures.
Context {env : Collaborators}.

Lemma lookup_misses_run (type content model : string) (w : World) :
  lookup_misses type content model w ->
  exists v, AICacheService.get type content model w
            = (Ok v, world_after (AICacheService.get type content model) w)
            /\ truthy v = false.
Proof.
  intros [v [Hv Ht]]. exists v. split; [|exact Ht].
  unfold outcome in Hv. unfold world_after.
  destruct (AICacheService.get type content model w) as [r w1].
  cbn [fst snd] in *. now subst r.
Qed.

(** A failure on the miss path of [generateHighlightsCached] is rethrown
    under the label of the capability, and the run ends right after the
    provider call. *)
Lemma generateHighlights_failure_run (transcript : string)
    (segments : list Segment) (videoId userId : option string) (w : World)
    (cause : Thrown) :
  lookup_misses "highlights"
    (AIServices.highlights_cacheKey transcript segments)
    AI_CONFIG.highlights_model w ->
  highlights_failure segments cause ->
  AIServices.generateHighlightsCached transcript segments videoId userId w
  = (Throw (ErrorObj ("Highlight generation failed: " ++ message_of cause)),
     log (OpenAI_chat (HighlightsTask segments))
       (world_after
          (AICacheService.get "highlights"
             (AIServices.highlights_cacheKey transcript segments)
             AI_CONFIG.highlights_model) w)).
Proof.
  intros Hmiss Hfail.
  destruct (lookup_misses_run _ _ _ _ Hmiss) as [v [Hget Hfalsy]].
  unfold AIServices.generateHighlightsCached, tryCatch.
  unfold bind at 1. rewrite Hget, Hfalsy.
  unfold bind, provider, lift, throw.
  destruct Hfail as [cause Hcall
                    | response cause Hcall Hfirst
                    | response content cause Hcall Hfirst Hparse
                    | response content result cause Hcall Hfirst Hparse Hread
                    | response content result highlights Hcall Hfirst Hparse
                        Hread Hbad].
  - rewrite Hcall. reflexivity.
  - rewrite Hcall, Hfirst. reflexivity.
  - rewrite Hcall, Hfirst, Hparse. reflexivity.
  - rewrite Hcall, Hfirst, Hparse, Hread. reflexivity.
  - rewrite Hcall, Hfirst, Hparse, Hread.
    assert (Hcond :
              (negb (truthy_opt highlights)
               || negb match highlights with
                       | Some h => Array_isArray h
                       | None => false
                       end)%bool = true).
    { destruct Hbad as [->|[h [-> Hh]]]; [reflexivity|].
      rewrite Hh. apply orb_true_r. }
    rewrite Hcond. reflexivity.
Qed.

(** C2.  When the cache lookup of highlight generation misses and the
    provider call fails, or its response fails validation ([highlights]
    missing or not a list), the caller receives the error
    ["Highlight generation failed: " ++ cause]; the ledger is unchanged, no
    cache entry is written, and neither an upsert of the cache nor a create
    of the ledger is issued. *)
Theorem generateHighlights_failure_writes_nothing
    (transcript : string) (segments : list Segment)
    (videoId userId : option string) (w : World) (cause : Thrown) :
  lookup_misses "highlights"
    (AIServices.highlights_cacheKey transcript segments)
    AI_CONFIG.highlights_model w ->
  highlights_failure segments cause ->
  let run :=
    AIServices.generateHighlightsCached transcript segments videoId userId in
  let w' := world_after run w in
  outcome run w
  = Throw (ErrorObj ("Highlight generation failed: " ++ message_of cause))
  /\ aPIUsage w' = aPIUsage w
  /\ no_entry_written (aICache w) (aICache w')
  /\ existsb is_store (calls_since w w') = false
  /\ existsb is_record (calls_since w w') = false.
Proof.
  intros Hmiss Hfail run w'. subst run w'.
  unfold outcome, world_after.
  rewrite (generateHighlights_failure_run _ _ _ _ _ _ Hmiss Hfail).
  cbn [fst snd].
  destruct (get_effect "highlights"
              (AIServices.highlights_cacheKey transcript segments)
              AI_CONFIG.highlights_model w)
    as [v [w1 [l [Hget [Hledger [_ [_ [Hcalls [_ [Hs [Hr [_ Hrows]]]]]]]]]]]].
  unfold world_after. rewrite Hget. cbn [snd log aPIUsage aICache].
  split; [reflexivity|]. split; [exact Hledger|]. split; [exact Hrows|].
  rewrite (calls_since_log w (l ++ [OpenAI_chat (HighlightsTask segments)])).
  - rewrite !existsb_app, Hs, Hr. split; reflexivity.
  - cbn [calls log]. rewrite Hcalls. now rewrite app_assoc.
Qed.

End Failures.

Lemma generateHighlights_failure_writes_nothing_witness :
  outcome (AIServices.generateHighlightsCached (env:=failing_env)
             "we decided to ship" [mkSegment "we decided to ship" 0 2.5]
             None None) empty_world
  = Throw (ErrorObj "Highlight generation failed: 429 rate limit exceeded")
  /\ outcome (AIServices.generateHighlightsCached (env:=invalid_env)
                "we decided to ship" [mkSegment "we decided to ship" 0 2.5]
                None None) empty_world
     = Throw (ErrorObj "Highlight generation failed: Invalid highlights response format").
Proof.
  split.
  - apply (generateHighlights_failure_writes_nothing (env:=failing_env)
             "we decided to ship" [mkSegment "we decided to ship" 0 2.5]
             None None empty_world (ErrorObj "429 rate limit exceeded")).
    + exists JNull. split; reflexivity.
    + apply provider_call_fails. reflexivity.
  - apply (generateHighlights_failure_writes_nothing (env:=invalid_env)
             "we decided to ship" [mkSegment "we decided to ship" 0 2.5]
             None None empty_world
             (ErrorObj "Invalid highlights response format")).
    + exists JNull. split; reflexivity.
    + apply (highlights_missing_or_not_a_list (env:=invalid_env) _
               (mkChatResponse [Some "{...}"] (Some (120, 30)))
               (Some "{...}") (JObj [("highlights", JStr "none")])
               (Some (JStr "none"))); try reflexivity.
      right. exists (JStr "none"). split; reflexivity.
Defined.

Section TopicFailures.
Context {env : Collaborators}.

Lemma extractKeyTopics_failure_run (transcript : string)
    (videoId userId : option string) (w : World) (cause : Thrown) :
  lookup_misses "topics" (AIServices.topics_cacheKey transcript)
    AI_CONFIG.completion_model w ->
  topics_failure transcript cause ->
  outcome (AIServices.extractKeyTopics_try transcript videoId userId) w
  = Throw cause.
Proof.
  intros Hmiss Hfail.
  destruct (lookup_misses_run _ _ _ _ Hmiss) as [v [Hget Hfalsy]].
  unfold outcome, AIServices.extractKeyTopics_try.
  unfold bind at 1. rewrite Hget, Hfalsy.
  unfold bind, provider, lift.
  destruct Hfail as [cause Hcall
                    | response cause Hcall Hfirst
                    | response content cause Hcall Hfirst Hparse
                    | response content result cause Hcall Hfirst Hparse Hread].
  - rewrite Hcall. reflexivity.
  - rewrite Hcall, Hfirst. reflexivity.
  - rewrite Hcall, Hfirst, Hparse. reflexivity.
  - rewrite Hcall, Hfirst, Hparse, Hread. reflexivity.
Qed.

(** C5.  [extractKeyTopicsCached] never propagates an error: whenever its
    [try] block throws, whatever the cause, it resolves to the empty list.
    In particular, after a cache miss, a provider error, a missing choice,
    unparsable content or a [null] result all end in [[]].  The sibling
    [generateHighlightsCached] rethrows a provider error instead. *)
Theorem extractKeyTopics_swallows_failures
    (transcript : string) (videoId userId : option string) (w : World) :
  (exists v,
     outcome (AIServices.extractKeyTopicsCached transcript videoId userId) w
     = Ok v)
  /\ (forall e,
        outcome (AIServices.extractKeyTopics_try transcript videoId userId) w
        = Throw e ->
        outcome (AIServices.extractKeyTopicsCached transcript videoId userId) w
        = Ok (JArr []))
  /\ (forall cause,
        lookup_misses "topics" (AIServices.topics_cacheKey transcript)
          AI_CONFIG.completion_model w ->
        topics_failure transcript cause ->
        outcome (AIServices.extractKeyTopics_try transcript videoId userId) w
        = Throw cause
        /\ outcome (AIServices.extractKeyTopicsCached transcript videoId userId) w
           = Ok (JArr []))
  /\ (forall segments cause,
        lookup_misses "highlights"
          (AIServices.highlights_cacheKey transcript segments)
          AI_CONFIG.highlights_model w ->
        openai_chat_completions_create (HighlightsTask segments) = Throw cause ->
        outcome (AIServices.generateHighlightsCached transcript segments
                   videoId userId) w
        = Throw (ErrorObj ("Highlight generation failed: " ++ message_of cause))).
Proof.
  assert (Hswallow : forall e,
            outcome (AIServices.extractKeyTopics_try transcript videoId userId) w
            = Throw e ->
            outcome (AIServices.extractKeyTopicsCached transcript videoId userId) w
            = Ok (JArr [])).
  { intros e He. unfold outcome, AIServices.extractKeyTopicsCached, tryCatch in *.
    destruct (AIServices.extractKeyTopics_try transcript videoId userId w)
      as [r w1].
    cbn [fst] in He. subst r. reflexivity. }
  split; [|split; [exact Hswallow | split]].
  - unfold outcome, AIServices.extractKeyTopicsCached, tryCatch.
    destruct (AIServices.extractKeyTopics_try transcript videoId userId w)
      as [[v|e] w1]; eexists; reflexivity.
  - intros cause Hmiss Hfail.
    pose proof (extractKeyTopics_failure_run _ videoId userId _ _ Hmiss Hfail)
      as Hthrow.
    split; [exact Hthrow | exact (Hswallow _ Hthrow)].
  - intros segments cause Hmiss Hcall.
    unfold outcome.
    rewrite (generateHighlights_failure_run _ _ _ _ _ cause Hmiss);
      [reflexivity | now apply provider_call_fails].
Qed.

End TopicFailures.

Lemma extractKeyTopics_swallows_failures_witness :
  outcome (AIServices.extractKeyTopics_try (env:=failing_env)
             "we decided to ship" None None) empty_world
  = Throw (ErrorObj "429 rate limit exceeded")
  /\ outcome (AIServices.extractKeyTopicsCached (env:=failing_env)
                "we decided to ship" None None) empty_world
     = Ok (JArr []).
Proof.
  destruct (extractKeyTopics_swallows_failures (env:=failing_env)
              "we decided to ship" None None empty_world)
    as [_ [_ [Hfail _]]].
  apply (Hfail (ErrorObj "429 rate limit exceeded")).
  - exists JNull. split; reflexivity.
  - apply topics_provider_call_fails. reflexivity.
Defined.

(** ** Orchestrators: order of the steps of a cache miss *)

Lemma before_app (p q : Call -> bool) (l1 l2 : list Call) :
  before p q (l1 ++ l2)
  = (before p q l1 || (existsb p l1 && existsb q l2) || before p q l2)%bool.
Proof.
  induction l1 as [|c l1 IH]; [reflexivity|].
  cbn [app before existsb]. rewrite IH, existsb_app.
  destruct (p c), (existsb q l1), (existsb q l2), (before p q l1),
    (existsb p l1), (before p q l2); reflexivity.
Qed.

Lemma miss_order_intro (hash : string) (lookup : list Call) (c : Call) :
  hd_error lookup = Some (AICache_findUnique hash) ->
  is_provider_call c = true ->
  existsb is_provider_call lookup = false ->
  existsb is_record lookup = false ->
  existsb is_store lookup = false ->
  miss_order hash
    (lookup ++ [c; APIUsage_create false; AICache_upsert hash]).
Proof.
  intros Hhd Hc Hp Hr Hs. unfold miss_order.
  assert (Hbr : before is_record is_store lookup = false).
  { clear Hhd Hp Hs. induction lookup as [|x l IH]; [reflexivity|].
    cbn [existsb before] in *. apply orb_false_iff in Hr. destruct Hr as [Hx Hl].
    rewrite Hx, (IH Hl). reflexivity. }
  assert (Hbs : before is_store is_record lookup = false).
  { clear Hhd Hp Hr Hbr. induction lookup as [|x l IH]; [reflexivity|].
    cbn [existsb before] in *. apply orb_false_iff in Hs. destruct Hs as [Hx Hl].
    rewrite Hx, (IH Hl). reflexivity. }
  assert (Hbp : before is_provider_call is_record lookup = false).
  { clear Hhd Hs Hbr Hbs Hr. induction lookup as [|x l IH]; [reflexivity|].
    cbn [existsb before] in *. apply orb_false_iff in Hp. destruct Hp as [Hx Hl].
    rewrite Hx, (IH Hl). reflexivity. }
  split.
  { destruct lookup; [discriminate Hhd | exact Hhd]. }
  split.
  { exists lookup, c. tauto. }
  rewrite !before_app, Hbr, Hbs, Hbp, Hp, Hr, Hs.
  cbn [before existsb is_record is_store is_provider_call andb orb].
  rewrite Hc. destruct c; cbn; try discriminate Hc; tauto.
Qed.

Section MissOrder.
Context {env : Collaborators}.

(** The run of [transcribeAudioCached] on a miss answered by the provider. *)
Lemma transcribeAudio_miss_run (audioPath : string)
    (language videoId userId : option string) (w : World)
    (bytes : string) (fields : list (string * JSON)) :
  fs_readFile audioPath = Ok bytes ->
  lookup_misses "transcription"
    (AIServices.transcription_cacheKey bytes language)
    AI_CONFIG.transcription_model w ->
  openai_audio_transcriptions_create audioPath bytes
    (or_default language "en") = Ok fields ->
  let run :=
    AIServices.transcribeAudioCached audioPath language videoId userId in
  outcome run w = Ok (JObj fields)
  /\ miss_order
       (AICacheService.generateHash
          (AIServices.transcription_cacheKey bytes language)
          AI_CONFIG.transcription_model)
       (calls_since w (world_after run w)).
Proof.
  intros Hfile Hmiss Hcall run. subst run.
  destruct (lookup_misses_run _ _ _ _ Hmiss) as [v [Hget Hfalsy]].
  destruct (get_effect "transcription"
              (AIServices.transcription_cacheKey bytes language)
              AI_CONFIG.transcription_model w)
    as [v0 [w1 [l [Hget' [_ [_ [_ [Hcalls [Hhd [Hs [Hr [Hp _]]]]]]]]]]]].
  unfold world_after in Hget. rewrite Hget' in Hget. cbn [snd] in Hget.
  injection Hget as ->.
  unfold outcome, world_after, AIServices.transcribeAudioCached, tryCatch,
    bind, lift, provider.
  change AI_CONFIG.transcription_language with "en".
  rewrite Hfile. cbv beta iota. rewrite Hget', Hfalsy. rewrite Hcall.
  cbn [js_get].
  destruct (trackUsage_effect "transcription" AI_CONFIG.transcription_model
              None None (assoc "duration" fields) false
              videoId userId
              (log (OpenAI_transcription (or_default language "en")) w1))
    as [w2 [Htrack [_ [_ [_ Hcalls2]]]]].
  rewrite Htrack.
  destruct (set_effect "transcription"
              (AIServices.transcription_cacheKey bytes language)
              AI_CONFIG.transcription_model (JObj fields) (Some 60)
              (Some (strlen bytes))
              (Some (strlen (JSON_stringify (JObj fields)))) w2)
    as [w3 [Hset [_ [_ [_ Hcalls3]]]]].
  rewrite Hset. cbn [ret fst snd].
  split; [reflexivity|].
  rewrite (calls_since_log w
             (l ++ [OpenAI_transcription (or_default language "en");
                    APIUsage_create false;
                    AICache_upsert
                      (AICacheService.generateHash
                         (AIServices.transcription_cacheKey bytes language)
                         AI_CONFIG.transcription_model)])).
  - now apply miss_order_intro.
  - rewrite Hcalls3, Hcalls2. cbn [calls log]. rewrite Hcalls.
    rewrite <- !app_assoc. reflexivity.
Qed.

(** The run of [generateHighlightsCached] on a miss answered by the
    provider with a response that passes validation. *)
Lemma generateHighlights_miss_run (transcript : string)
    (segments : list Segment) (videoId userId : option string) (w : World)
    (response : ChatResponse) (content : option string) (result : JSON)
    (items : list JSON) :
  lookup_misses "highlights"
    (AIServices.highlights_cacheKey transcript segments)
    AI_CONFIG.highlights_model w ->
  openai_chat_completions_create (HighlightsTask segments) = Ok response ->
  first_content response = Ok content ->
  JSON_parse (or_default content "{}") = Ok result ->
  js_get result "highlights" = Ok (Some (JArr items)) ->
  let run :=
    AIServices.generateHighlightsCached transcript segments videoId userId in
  outcome run w = Ok result
  /\ miss_order
       (AICacheService.generateHash
          (AIServices.highlights_cacheKey transcript segments)
          AI_CONFIG.highlights_model)
       (calls_since w (world_after run w)).
Proof.
  intros Hmiss Hcall Hfirst Hparse Hread run. subst run.
  destruct (lookup_misses_run _ _ _ _ Hmiss) as [v [Hget Hfalsy]].
  destruct (get_effect "highlights"
              (AIServices.highlights_cacheKey transcript segments)
              AI_CONFIG.highlights_model w)
    as [v0 [w1 [l [Hget' [_ [_ [_ [Hcalls [Hhd [Hs [Hr [Hp _]]]]]]]]]]]].
  unfold world_after in Hget. rewrite Hget' in Hget. cbn [snd] in Hget.
  injection Hget as ->.
  unfold outcome, world_after, AIServices.generateHighlightsCached, tryCatch,
    bind, lift, provider.
  rewrite Hget', Hfalsy. rewrite Hcall, Hfirst, Hparse, Hread.
  cbn [truthy_opt truthy Array_isArray negb orb].
  destruct (trackUsage_effect "completion" AI_CONFIG.highlights_model
              (Some (usage_prompt_tokens response))
              (Some (usage_completion_tokens response)) None false
              videoId userId
              (log (OpenAI_chat (HighlightsTask segments)) w1))
    as [w2 [Htrack [_ [_ [_ Hcalls2]]]]].
  rewrite Htrack.
  destruct (set_effect "highlights"
              (AIServices.highlights_cacheKey transcript segments)
              AI_CONFIG.highlights_model result (Some 90)
              (Some (strlen transcript))
              (Some (strlen (JSON_stringify result))) w2)
    as [w3 [Hset [_ [_ [_ Hcalls3]]]]].
  rewrite Hset. cbn [ret fst snd].
  split; [reflexivity|].
  rewrite (calls_since_log w
             (l ++ [OpenAI_chat (HighlightsTask segments);
                    APIUsage_create false;
                    AICache_upsert
                      (AICacheService.generateHash
                         (AIServices.highlights_cacheKey transcript segments)
                         AI_CONFIG.highlights_model)])).
  - now apply miss_order_intro.
  - rewrite Hcalls3, Hcalls2. cbn [calls log]. rewrite Hcalls.
    rewrite <- !app_assoc. reflexivity.
Qed.

(** The run of [generateSummaryCached] on a miss answered by the
    provider. *)
Lemma generateSummary_miss_run (transcript : string)
    (videoId userId : option string) (w : World)
    (response : ChatResponse) (content : option string) :
  lookup_misses "summary" (AIServices.summary_cacheKey transcript)
    AI_CONFIG.completion_model w ->
  openai_chat_completions_create (SummaryTask transcript) = Ok response ->
  first_content response = Ok content ->
  let run := AIServices.generateSummaryCached transcript videoId userId in
  outcome run w = Ok (JStr (or_default content ""))
  /\ miss_order
       (AICacheService.generateHash (AIServices.summary_cacheKey transcript)
          AI_CONFIG.completion_model)
       (calls_since w (world_after run w)).
Proof.
  intros Hmiss Hcall Hfirst run. subst run.
  destruct (lookup_misses_run _ _ _ _ Hmiss) as [v [Hget Hfalsy]].
  destruct (get_effect "summary" (AIServices.summary_cacheKey transcript)
              AI_CONFIG.completion_model w)
    as [v0 [w1 [l [Hget' [_ [_ [_ [Hcalls [Hhd [Hs [Hr [Hp _]]]]]]]]]]]].
  unfold world_after in Hget. rewrite Hget' in Hget. cbn [snd] in Hget.
  injection Hget as ->.
  unfold outcome, world_after, AIServices.generateSummaryCached, tryCatch,
    bind, lift, provider.
  rewrite Hget', Hfalsy. rewrite Hcall, Hfirst.
  destruct (trackUsage_effect "completion" AI_CONFIG.completion_model
              (Some (usage_prompt_tokens response))
              (Some (usage_completion_tokens response)) None false
              videoId userId
              (log (OpenAI_chat (SummaryTask transcript)) w1))
    as [w2 [Htrack [_ [_ [_ Hcalls2]]]]].
  rewrite Htrack.
  destruct (set_effect "summary" (AIServices.summary_cacheKey transcript)
              AI_CONFIG.completion_model (JStr (or_default content ""))
              (Some 60) (Some (strlen transcript))
              (Some (strlen (or_default content ""))) w2)
    as [w3 [Hset [_ [_ [_ Hcalls3]]]]].
  rewrite Hset. cbn [ret fst snd].
  split; [reflexivity|].
  rewrite (calls_since_log w
             (l ++ [OpenAI_chat (SummaryTask transcript);
                    APIUsage_create false;
                    AICache_upsert
                      (AICacheService.generateHash
                         (AIServices.summary_cacheKey transcript)
                         AI_CONFIG.completion_model)])).
  - now apply miss_order_intro.
  - rewrite Hcalls3, Hcalls2. cbn [calls log]. rewrite Hcalls.
    rewrite <- !app_assoc. reflexivity.
Qed.

(** The run of [extractKeyTopicsCached] on a miss answered by the provider
    with a response that parses. *)
Lemma extractKeyTopics_miss_run (transcript : string)
    (videoId userId : option string) (w : World)
    (response : ChatResponse) (content : option string) (result : JSON)
    (field : option JSON) :
  lookup_misses "topics" (AIServices.topics_cacheKey transcript)
    AI_CONFIG.completion_model w ->
  openai_chat_completions_create (TopicsTask transcript) = Ok response ->
  first_content response = Ok content ->
  JSON_parse (or_default content empty_topics_text) = Ok result ->
  js_get result "topics" = Ok field ->
  let run := AIServices.extractKeyTopicsCached transcript videoId userId in
  outcome run w
  = Ok match field with
       | Some t => if truthy t then t else JArr []
       | None => JArr []
       end
  /\ miss_order
       (AICacheService.generateHash (AIServices.topics_cacheKey transcript)
          AI_CONFIG.completion_model)
       (calls_since w (world_after run w)).
Proof.
  intros Hmiss Hcall Hfirst Hparse Hread run. subst run.
  set (topics := match field with
                 | Some t => if truthy t then t else JArr []
                 | None => JArr []
                 end).
  destruct (lookup_misses_run _ _ _ _ Hmiss) as [v [Hget Hfalsy]].
  destruct (get_effect "topics" (AIServices.topics_cacheKey transcript)
              AI_CONFIG.completion_model w)
    as [v0 [w1 [l [Hget' [_ [_ [_ [Hcalls [Hhd [Hs [Hr [Hp _]]]]]]]]]]]].
  unfold world_after in Hget. rewrite Hget' in Hget. cbn [snd] in Hget.
  injection Hget as ->.
  unfold outcome, world_after, AIServices.extractKeyTopicsCached,
    AIServices.extractKeyTopics_try, tryCatch, bind, lift, provider.
  rewrite Hget', Hfalsy. rewrite Hcall, Hfirst, Hparse, Hread.
  fold topics.
  destruct (trackUsage_effect "completion" AI_CONFIG.completion_model
              (Some (usage_prompt_tokens response))
              (Some (usage_completion_tokens response)) None false
              videoId userId
              (log (OpenAI_chat (TopicsTask transcript)) w1))
    as [w2 [Htrack [_ [_ [_ Hcalls2]]]]].
  rewrite Htrack.
  destruct (set_effect "topics" (AIServices.topics_cacheKey transcript)
              AI_CONFIG.completion_model topics
              (Some 60) (Some (strlen transcript))
              (Some (strlen (JSON_stringify topics))) w2)
    as [w3 [Hset [_ [_ [_ Hcalls3]]]]].
  rewrite Hset. cbn [ret fst snd].
  split; [reflexivity|].
  rewrite (calls_since_log w
             (l ++ [OpenAI_chat (TopicsTask transcript);
                    APIUsage_create false;
                    AICache_upsert
                      (AICacheService.generateHash
                         (AIServices.topics_cacheKey transcript)
                         AI_CONFIG.completion_model)])).
  - now apply miss_order_intro.
  - rewrite Hcalls3, Hcalls2. cbn [calls log]. rewrite Hcalls.
    rewrite <- !app_assoc. reflexivity.
Qed.

(** The run of the loop body of [generateEmbeddingsCached] on a batch that
    misses and that the provider answers. *)
Lemma process_batch_miss_run (batch : list string)
    (videoId userId : option string) (embeddings : list JSON) (w : World)
    (response : EmbeddingsResponse) :
  lookup_misses "embeddings" (AIServices.embeddings_batchKey batch)
    AI_CONFIG.embeddings_model w ->
  openai_embeddings_create batch = Ok response ->
  let run := AIServices.process_batch batch videoId userId embeddings in
  outcome run w = Ok (embeddings ++ data response)%list
  /\ miss_order
       (AICacheService.generateHash (AIServices.embeddings_batchKey batch)
          AI_CONFIG.embeddings_model)
       (calls_since w (world_after run w)).
Proof.
  intros Hmiss Hcall run. subst run.
  destruct (lookup_misses_run _ _ _ _ Hmiss) as [v [Hget Hfalsy]].
  destruct (get_effect "embeddings" (AIServices.embeddings_batchKey batch)
              AI_CONFIG.embeddings_model w)
    as [v0 [w1 [l [Hget' [_ [_ [_ [Hcalls [Hhd [Hs [Hr [Hp _]]]]]]]]]]]].
  unfold world_after in Hget. rewrite Hget' in Hget. cbn [snd] in Hget.
  injection Hget as ->.
  unfold outcome, world_after, AIServices.process_batch, bind, provider.
  rewrite Hget', Hfalsy. rewrite Hcall.
  destruct (trackUsage_effect "embedding" AI_CONFIG.embeddings_model
              (Some (inject_Z (or0Z (prompt_tokens response)))) None None
              false videoId userId (log (OpenAI_embeddings batch) w1))
    as [w2 [Htrack [_ [_ [_ Hcalls2]]]]].
  rewrite Htrack.
  destruct (set_effect "embeddings" (AIServices.embeddings_batchKey batch)
              AI_CONFIG.embeddings_model (JArr (data response)) (Some 180)
              (Some (strlen (String.concat " " batch)))
              (Some (strlen (JSON_stringify (JArr (data response))))) w2)
    as [w3 [Hset [_ [_ [_ Hcalls3]]]]].
  rewrite Hset. cbn [ret fst snd].
  split; [reflexivity|].
  rewrite (calls_since_log w
             (l ++ [OpenAI_embeddings batch; APIUsage_create false;
                    AICache_upsert
                      (AICacheService.generateHash
                         (AIServices.embeddings_batchKey batch)
                         AI_CONFIG.embeddings_model)])).
  - now apply miss_order_intro.
  - rewrite Hcalls3, Hcalls2. cbn [calls log]. rewrite Hcalls.
    rewrite <- !app_assoc. reflexivity.
Qed.

End MissOrder.

Lemma calculateCost_total_and_exact_witness :
  (Cost.calculateCost "completion" "gpt-4o-mini" (Some 2000%Q) (Some 500%Q) None
   == 0.0006)%Q
  /\ Cost.calculateCost "completion" "gpt-5-unknown" (Some 2000%Q) (Some 500%Q)
       None = 0%Q.
Proof.
  destruct (calculateCost_total_and_exact "completion" "gpt-4o-mini"
              (Some 2000%Q) (Some 500%Q) None) as [_ [_ Hexact]];
    [cbn; lra | cbn; lra | exact I |].
  destruct (calculateCost_total_and_exact "completion" "gpt-5-unknown"
              (Some 2000%Q) (Some 500%Q) None) as [Hzero _];
    [cbn; lra | cbn; lra | exact I |].
  split.
  - rewrite Hexact. vm_compute. reflexivity.
  - apply Hzero. reflexivity.
Defined.

(** ** Transcription: the default language *)

Lemma find_rewritten (hash : string) (f : AICache.t -> AICache.t)
    (rows : list AICache.t) :
  (forall r, AICache.inputHash (f r) = AICache.inputHash r) ->
  find (prisma.has_hash hash)
    (map (fun r => if prisma.has_hash hash r then f r else r) rows)
  = option_map f (find (prisma.has_hash hash) rows).
Proof.
  intros Hf. induction rows as [|r rows IH]; [reflexivity|].
  cbn [map find]. destruct (prisma.has_hash hash r) eqn:E.
  - assert (E' : prisma.has_hash hash (f r) = true).
    { apply has_hash_true. rewrite Hf. now apply has_hash_true. }
    now rewrite E'.
  - rewrite E. exact IH.
Qed.

Lemma find_appended (hash : string) (rows : list AICache.t) (row : AICache.t) :
  existsb (prisma.has_hash hash) rows = false ->
  AICache.inputHash row = hash ->
  find (prisma.has_hash hash) (rows ++ [row]) = Some row.
Proof.
  intros Hnone Hh. induction rows as [|r rows IH].
  - cbn [app find]. now rewrite (proj2 (has_hash_true _ _) Hh).
  - cbn [existsb] in Hnone. apply orb_false_iff in Hnone.
    destruct Hnone as [Hr Hrows].
    cbn [app find]. rewrite Hr. now apply IH.
Qed.

Lemma existsb_find (hash : string) (rows : list AICache.t) :
  existsb (prisma.has_hash hash) rows = true ->
  exists row, find (prisma.has_hash hash) rows = Some row.
Proof.
  induction rows as [|r rows IH]; [discriminate|].
  cbn [existsb find]. destruct (prisma.has_hash hash r); [eauto | exact IH].
Qed.

Section DefaultLanguage.
Context {env : Collaborators}.

(** After a [set] that reached the database, a lookup by the same
    fingerprint finds a row holding the payload and the expiry just
    written. *)
Lemma set_row_found (w : World) (type content model : string)
    (response : JSON) (days inputSize outputSize : option Z) :
  dbUp w = true ->
  let w' :=
    world_after (AICacheService.set type content model response days
                   inputSize outputSize) w in
  dbUp w' = true /\ clock w' = clock w
  /\ exists row,
       find (prisma.has_hash (AICacheService.generateHash content model))
         (aICache w') = Some row
       /\ AICache.response row = response
       /\ AICache.expiresAt row = AICacheService.expiresAt_of (clock w) days.
Proof.
  intros Hup w'. subst w'. unfold world_after.
  rewrite (set_up _ _ _ _ _ _ _ _ Hup). cbn [snd].
  set (hash := AICacheService.generateHash content model).
  destruct (existsb (prisma.has_hash hash) (aICache w)) eqn:Hex;
    cbn [with_aICache log dbUp clock aICache].
  - split; [exact Hup|]. split; [reflexivity|].
    destruct (existsb_find _ _ Hex) as [old Hold].
    eexists. rewrite find_rewritten by reflexivity. rewrite Hold.
    cbn [option_map]. split; [reflexivity|]. split; reflexivity.
  - split; [exact Hup|]. split; [reflexivity|].
    eexists. rewrite find_appended by (exact Hex || reflexivity).
    split; [reflexivity|]. split; reflexivity.
Qed.

(** A lookup that finds a row which has not expired counts the hit and
    yields the payload. *)
Lemma get_found (w : World) (type content model : string) (row : AICache.t) :
  dbUp w = true ->
  find (prisma.has_hash (AICacheService.generateHash content model))
    (aICache w) = Some row ->
  AICacheService.expired row (clock w) = false ->
  exists w',
    AICacheService.get type content model w = (Ok (AICache.response row), w')
    /\ calls w'
       = (calls w
          ++ [AICache_findUnique (AICacheService.generateHash content model);
              AICache_update (AICacheService.generateHash content model)])%list.
Proof.
  intros Hup Hfind Hfresh.
  set (hash := AICacheService.generateHash content model) in *.
  assert (Hex : existsb (prisma.has_hash hash) (aICache w) = true).
  { apply existsb_exists. exists row. apply (find_some _ _ Hfind). }
  unfold AICacheService.get, tryCatch, bind, prisma.aICache_findUnique,
    bind, read.
  fold hash. rewrite (request_up _ _ Hup).
  cbn [log aICache clock]. rewrite Hfind. cbn [log clock]. rewrite Hfresh.
  unfold prisma.aICache_update, bind.
  rewrite request_up by exact Hup.
  cbn [log aICache]. rewrite Hex.
  eexists. split; [reflexivity|].
  cbn [with_aICache log calls]. now rewrite <- app_assoc.
Qed.

Lemma transcribeAudio_english (audioPath : string)
    (language videoId userId : option string) (w : World) :
  english language ->
  AIServices.transcribeAudioCached audioPath language videoId userId w
  = AIServices.transcribeAudioCached audioPath None videoId userId w.
Proof. intros [->| ->]; reflexivity. Qed.

(** The world left by a miss of [transcribeAudioCached] that the provider
    answers, with the database reachable: the cache holds the result under
    the fingerprint, expiring 60 days later. *)
Lemma transcribeAudio_miss_state (audioPath : string)
    (videoId userId : option string) (w : World)
    (bytes : string) (fields : list (string * JSON)) :
  dbUp w = true ->
  fs_readFile audioPath = Ok bytes ->
  lookup_misses "transcription"
    (AIServices.transcription_cacheKey bytes None)
    AI_CONFIG.transcription_model w ->
  openai_audio_transcriptions_create audioPath bytes "en" = Ok fields ->
  let w' :=
    world_after
      (AIServices.transcribeAudioCached audioPath None videoId userId) w in
  dbUp w' = true
  /\ exists row,
       find (prisma.has_hash
               (AICacheService.generateHash
                  (AIServices.transcription_cacheKey bytes None)
                  AI_CONFIG.transcription_model))
         (aICache w') = Some row
       /\ AICache.response row = JObj fields
       /\ AICache.expiresAt row
          = Some (clock w + 60 * 24 * 60 * 60 * 1000).
Proof.
  intros Hup Hfile Hmiss Hcall w'. subst w'.
  destruct (lookup_misses_run _ _ _ _ Hmiss) as [v [Hget Hfalsy]].
  destruct (get_effect "transcription"
              (AIServices.transcription_cacheKey bytes None)
              AI_CONFIG.transcription_model w)
    as [v0 [w1 [l [Hget' [_ [Hup1 [Hclock1 _]]]]]]].
  unfold world_after in Hget. rewrite Hget' in Hget. cbn [snd] in Hget.
  injection Hget as ->.
  unfold world_after, AIServices.transcribeAudioCached, tryCatch,
    bind, lift, provider.
  change AI_CONFIG.transcription_language with "en".
  change (or_default None "en") with "en".
  rewrite Hfile. cbv beta iota. rewrite Hget', Hfalsy. rewrite Hcall.
  cbn [js_get].
  destruct (trackUsage_effect "transcription" AI_CONFIG.transcription_model
              None None (assoc "duration" fields) false
              videoId userId (log (OpenAI_transcription "en") w1))
    as [w2 [Htrack [_ [Hup2 [Hclock2 _]]]]].
  rewrite Htrack.
  cbn [log dbUp clock] in Hup2, Hclock2.
  assert (Hup2' : dbUp w2 = true) by congruence.
  destruct (set_row_found w2 "transcription"
              (AIServices.transcription_cacheKey bytes None)
              AI_CONFIG.transcription_model (JObj fields) (Some 60)
              (Some (strlen bytes))
              (Some (strlen (JSON_stringify (JObj fields)))) Hup2')
    as [Hup3 [_ [row [Hfind [Hresp Hexp]]]]].
  unfold world_after in Hup3, Hfind.
  destruct (AICacheService.set "transcription"
              (AIServices.transcription_cacheKey bytes None)
              AI_CONFIG.transcription_model (JObj fields) (Some 60)
              (Some (strlen bytes))
              (Some (strlen (JSON_stringify (JObj fields)))) w2)
    as [[|e] w3] eqn:Hset; cbn [snd ret] in *.
  - split; [exact Hup3|]. exists row. split; [exact Hfind|].
    split; [exact Hresp|]. rewrite Hexp. cbn [AICacheService.expiresAt_of].
    change (60 =? 0) with false. cbv iota. congruence.
  - destruct (set_effect "transcription"
                (AIServices.transcription_cacheKey bytes None)
                AI_CONFIG.transcription_model (JObj fields) (Some 60)
                (Some (strlen bytes))
                (Some (strlen (JSON_stringify (JObj fields)))) w2)
      as [w3' [Hset' _]].
    rewrite Hset in Hset'. discriminate Hset'.
Qed.

(** The run of [transcribeAudioCached] when the lookup finds a row, not
    yet expired, whose payload is an object: no provider call is made and
    the payload is returned. *)
Lemma transcribeAudio_hit_run (audioPath : string)
    (videoId userId : option string) (w : World)
    (bytes : string) (row : AICache.t) (fields : list (string * JSON)) :
  dbUp w = true ->
  fs_readFile audioPath = Ok bytes ->
  find (prisma.has_hash
          (AICacheService.generateHash
             (AIServices.transcription_cacheKey bytes None)
             AI_CONFIG.transcription_model))
    (aICache w) = Some row ->
  AICacheService.expired row (clock w) = false ->
  AICache.response row = JObj fields ->
  let run := AIServices.transcribeAudioCached audioPath None videoId userId in
  outcome run w = Ok (JObj fields)
  /\ existsb is_provider_call (calls_since w (world_after run w)) = false.
Proof.
  intros Hup Hfile Hfind Hfresh Hresp run. subst run.
  destruct (get_found w "transcription"
              (AIServices.transcription_cacheKey bytes None)
              AI_CONFIG.transcription_model row Hup Hfind Hfresh)
    as [w1 [Hget Hcalls1]].
  rewrite Hresp in Hget.
  unfold outcome, world_after, AIServices.transcribeAudioCached, tryCatch,
    bind, lift.
  rewrite Hfile. cbv beta iota. rewrite Hget. cbn [truthy js_get].
  destruct (trackUsage_effect "transcription" AI_CONFIG.transcription_model
              None None (assoc "duration" fields) true
              videoId userId w1)
    as [w2 [Htrack [_ [_ [_ Hcalls2]]]]].
  rewrite Htrack. cbn [ret fst snd].
  split; [reflexivity|].
  rewrite (calls_since_log w
             ([AICache_findUnique
                 (AICacheService.generateHash
                    (AIServices.transcription_cacheKey bytes None)
                    AI_CONFIG.transcription_model);
               AICache_update
                 (AICacheService.generateHash
                    (AIServices.transcription_cacheKey bytes None)
                    AI_CONFIG.transcription_model)]
              ++ [APIUsage_create true])).
  - reflexivity.
  - rewrite Hcalls2, Hcalls1. now rewrite <- app_assoc.
Qed.

(** C10.  Whether the language is omitted or is ['en'], transcription
    derives the key [md5(fileBytes) ++ ":en"], and the two invocations
    behave identically in every world.  Hence they share one cache entry:
    with the database reachable, after a miss answered by the provider in
    either form, an invocation in either form within the 60 days of the
    entry is served from the cache, returning the same transcription
    without any provider call. *)
Theorem transcription_default_language_shares_entry
    (audioPath bytes : string)
    (first second videoId userId videoId' userId' : option string)
    (fields : list (string * JSON)) (w : World) (later : Z) :
  english first -> english second ->
  AIServices.transcription_cacheKey bytes first = md5 bytes ++ ":en"
  /\ AIServices.transcription_cacheKey bytes first
     = AIServices.transcription_cacheKey bytes second
  /\ (forall w0,
        AIServices.transcribeAudioCached audioPath first videoId userId w0
        = AIServices.transcribeAudioCached audioPath second videoId userId w0)
  /\ (dbUp w = true ->
      fs_readFile audioPath = Ok bytes ->
      lookup_misses "transcription"
        (AIServices.transcription_cacheKey bytes first)
        AI_CONFIG.transcription_model w ->
      openai_audio_transcriptions_create audioPath bytes "en" = Ok fields ->
      later <= clock w + 60 * 24 * 60 * 60 * 1000 ->
      let w1 :=
        with_clock later
          (world_after
             (AIServices.transcribeAudioCached audioPath first videoId userId)
             w) in
      let again :=
        AIServices.transcribeAudioCached audioPath second videoId' userId' in
      outcome again w1 = Ok (JObj fields)
      /\ existsb is_provider_call (calls_since w1 (world_after again w1))
         = false).
Proof.
  intros Hfirst Hsecond.
  assert (Hkey : forall l, english l ->
            AIServices.transcription_cacheKey bytes l = md5 bytes ++ ":en").
  { intros l [->| ->]; reflexivity. }
  split; [now apply Hkey|].
  split; [now rewrite !Hkey|].
  split.
  { intros w0. rewrite (transcribeAudio_english _ first) by assumption.
    now rewrite (transcribeAudio_english _ second) by assumption. }
  intros Hup Hfile Hmiss Hcall Hlater w1 again. subst w1 again.
  unfold outcome, world_after.
  rewrite (transcribeAudio_english _ first) by assumption.
  rewrite (transcribeAudio_english _ second) by assumption.
  assert (Hmiss' : lookup_misses "transcription"
                     (AIServices.transcription_cacheKey bytes None)
                     AI_CONFIG.transcription_model w).
  { destruct Hfirst as [->| ->]; exact Hmiss. }
  destruct (transcribeAudio_miss_state audioPath videoId userId w bytes fields
              Hup Hfile Hmiss' Hcall)
    as [Hup1 [row [Hfind [Hresp Hexp]]]].
  apply (transcribeAudio_hit_run audioPath videoId' userId'
           (with_clock later _) bytes row fields).
  - exact Hup1.
  - exact Hfile.
  - exact Hfind.
  - unfold AICacheService.expired. rewrite Hexp. cbn [with_clock clock].
    apply Z.ltb_ge. exact Hlater.
  - exact Hresp.
Qed.

End DefaultLanguage.

Lemma transcription_default_language_shares_entry_witness :
  AIServices.transcription_cacheKey (env:=answering_env) "RIFF-bytes" None
  = AIServices.transcription_cacheKey (env:=answering_env) "RIFF-bytes"
      (Some "en")
  /\ outcome
       (AIServices.transcribeAudioCached (env:=answering_env)
          "/tmp/audio.wav" None None None)
       (with_clock 86400000
          (world_after
             (AIServices.transcribeAudioCached (env:=answering_env)
                "/tmp/audio.wav" (Some "en") None None) empty_world))
     = Ok (JObj [("text", JStr "hello"); ("duration", JNum 90)]).
Proof.
  destruct (transcription_default_language_shares_entry (env:=answering_env)
              "/tmp/audio.wav" "RIFF-bytes" (Some "en") None None None None
              None [("text", JStr "hello"); ("duration", JNum 90)]
              empty_world 86400000)
    as [_ [Hkey [_ Hshare]]].
  - right. reflexivity.
  - left. reflexivity.
  - split; [symmetry; exact Hkey|].
    apply Hshare.
    + reflexivity.
    + reflexivity.
    + exists JNull. split; reflexivity.
    + reflexivity.
    + vm_compute. discriminate.
Defined.


(** ** Embeddings: batches *)


Lemma batch_count_lt (n k : nat) :
  (k * batchSize < n <-> k < batch_count n)%nat.
Proof.
  unfold batch_count, batchSize.
  pose proof (Nat.div_mod_eq (n + 100 - 1) 100) as Hdiv.
  pose proof (Nat.mod_upper_bound (n + 100 - 1) 100) as Hmod.
  lia.
Qed.

Lemma batches_from_step (texts : list string) (k : nat) :
  (k * batchSize < List.length texts)%nat ->
  batches_from texts k
  = slice texts (k * batchSize) (k * batchSize + batchSize)
    :: batches_from texts (S k).
Proof.
  intros Hlt. apply batch_count_lt in Hlt. unfold batches_from.
  replace (batch_count (List.length texts) - k)%nat
    with (S (batch_count (List.length texts) - S k)) by lia.
  reflexivity.
Qed.

Lemma batches_from_end (texts : list string) (k : nat) :
  ~ (k * batchSize < List.length texts)%nat ->
  batches_from texts k = [].
Proof.
  intros Hge. rewrite batch_count_lt in Hge. unfold batches_from.
  replace (batch_count (List.length texts) - k)%nat with O by lia.
  reflexivity.
Qed.





Lemma batch_count_le (n : nat) : (batch_count n <= n)%nat.
Proof.
  unfold batch_count, batchSize.
  pose proof (Nat.div_mod_eq (n + 100 - 1) 100) as Hdiv.
  pose proof (Nat.mod_upper_bound (n + 100 - 1) 100) as Hmod.
  lia.
Qed.

Section Batches.
Context {env : Collaborators}.

(** With enough fuel the loop never reports exhaustion: it is the
    batch-by-batch run over the remaining batches. *)
Lemma embeddings_loop_batches (texts : list string)
    (videoId userId : option string) (fuel : nat) :
  forall (k : nat) (embeddings : list JSON) (w : World),
    (batch_count (List.length texts) - k <= fuel)%nat ->
    AIServices.embeddings_loop fuel texts videoId userId (k * batchSize)
      embeddings w
    = (e <- for_each_batch (batches_from texts k) videoId userId embeddings ;;
       ret (Some e)) w.
Proof.
  induction fuel as [|fuel IH]; intros k embeddings w Hfuel.
  - assert (Hge : ~ (k * batchSize < List.length texts)%nat).
    { rewrite batch_count_lt. lia. }
    rewrite batches_from_end by exact Hge.
    cbn [AIServices.embeddings_loop for_each_batch].
    apply Nat.ltb_nlt in Hge. rewrite Hge. reflexivity.
  - cbn [AIServices.embeddings_loop].
    destruct (k * batchSize <? List.length texts)%nat eqn:Hcond.
    + apply Nat.ltb_lt in Hcond.
      rewrite batches_from_step by exact Hcond.
      cbn [for_each_batch].
      replace (k * batchSize + batchSize)%nat with (S k * batchSize)%nat by lia.
      unfold bind.
      destruct (AIServices.process_batch _ videoId userId embeddings w)
        as [[e|err] w1]; [|reflexivity].
      rewrite IH by lia. reflexivity.
    + apply Nat.ltb_nlt in Hcond.
      rewrite batches_from_end by exact Hcond. reflexivity.
Qed.

(** [generateEmbeddingsCached] handles the batches of its input one after
    the other. *)
Lemma generateEmbeddings_sequential (texts : list string)
    (videoId userId : option string) (w : World) :
  AIServices.generateEmbeddingsCached texts videoId userId w
  = tryCatch
      (e <- for_each_batch (batches texts) videoId userId [] ;; ret (JArr e))
      (fun error =>
         throw (ErrorObj ("Embedding generation failed: " ++ message_of error)))
      w.
Proof.
  unfold AIServices.generateEmbeddingsCached, tryCatch.
  unfold bind at 1.
  change 0%nat with (0 * batchSize)%nat at 1.
  rewrite (embeddings_loop_batches texts videoId userId (List.length texts) 0)
    by (pose proof (batch_count_le (List.length texts)); lia).
  unfold bind. fold (batches texts).
  destruct (for_each_batch (batches texts) videoId userId [] w)
    as [[e|err] w1]; reflexivity.
Qed.

(** The calls of one batch: after the lookup, a batch served from the
    cache issues no provider call; a batch that is not issues exactly one,
    on that batch. *)
Lemma process_batch_calls (b : list string) (videoId userId : option string)
    (embeddings : list JSON) (w : World) :
  exists cached lookup tail,
    outcome (AICacheService.get "embeddings" (AIServices.embeddings_batchKey b)
               AI_CONFIG.embeddings_model) w = Ok cached
    /\ lookup_calls (batch_hash b) lookup
    /\ calls (world_after
                (AIServices.process_batch b videoId userId embeddings) w)
       = (calls w ++ lookup ++ tail)%list
    /\ (if truthy cached then
          (tail = [APIUsage_create true]
           /\ exists items,
                outcome (AIServices.process_batch b videoId userId embeddings) w
                = Ok (embeddings ++ items)%list)
          \/ (tail = []
              /\ exists e,
                   outcome (AIServices.process_batch b videoId userId
                              embeddings) w = Throw e)
        else
          (tail = [OpenAI_embeddings b; APIUsage_create false;
                   AICache_upsert (batch_hash b)]
           /\ exists response,
                openai_embeddings_create b = Ok response
                /\ outcome (AIServices.process_batch b videoId userId
                              embeddings) w
                   = Ok (embeddings ++ data response)%list)
          \/ (tail = [OpenAI_embeddings b]
              /\ exists e,
                   outcome (AIServices.process_batch b videoId userId
                              embeddings) w = Throw e)).
Proof.
  destruct (get_effect "embeddings" (AIServices.embeddings_batchKey b)
              AI_CONFIG.embeddings_model w)
    as [cached [w1 [lookup [Hget [_ [_ [_ [Hcalls [Hhd [Hs [Hr [Hp _]]]]]]]]]]]].
  exists cached, lookup.
  unfold outcome, world_after, AIServices.process_batch, bind.
  rewrite Hget. cbn [fst].
  destruct (truthy cached).
  - unfold lift. destruct (spread cached) as [items|e].
    + destruct (trackUsage_effect "embedding" AI_CONFIG.embeddings_model
                  (Some (inject_Z (strlen (String.concat " " b)) / 4)%Q)
                  None None true videoId userId w1)
        as [w2 [Htrack [_ [_ [_ Hcalls2]]]]].
      rewrite Htrack. cbn [ret fst snd].
      exists [APIUsage_create true].
      split; [reflexivity|]. split; [unfold lookup_calls; tauto|].
      split; [rewrite Hcalls2, Hcalls; now rewrite <- app_assoc|].
      left. split; [reflexivity|]. now exists items.
    + cbn [fst snd]. exists [].
      split; [reflexivity|]. split; [unfold lookup_calls; tauto|].
      split; [rewrite Hcalls; now rewrite app_nil_r|].
      right. split; [reflexivity|]. now exists e.
  - unfold provider. destruct (openai_embeddings_create b) as [response|e].
    + destruct (trackUsage_effect "embedding" AI_CONFIG.embeddings_model
                  (Some (inject_Z (or0Z (prompt_tokens response))))
                  None None false videoId userId
                  (log (OpenAI_embeddings b) w1))
        as [w2 [Htrack [_ [_ [_ Hcalls2]]]]].
      rewrite Htrack.
      destruct (set_effect "embeddings" (AIServices.embeddings_batchKey b)
                  AI_CONFIG.embeddings_model (JArr (data response)) (Some 180)
                  (Some (strlen (String.concat " " b)))
                  (Some (strlen (JSON_stringify (JArr (data response))))) w2)
        as [w3 [Hset [_ [_ [_ Hcalls3]]]]].
      rewrite Hset. cbn [ret fst snd].
      exists [OpenAI_embeddings b; APIUsage_create false;
              AICache_upsert (batch_hash b)].
      split; [reflexivity|]. split; [unfold lookup_calls; tauto|].
      split.
      { rewrite Hcalls3, Hcalls2. cbn [calls log]. rewrite Hcalls.
        unfold batch_hash. rewrite <- !app_assoc. reflexivity. }
      left. split; [reflexivity|]. exists response. now split.
    + cbn [fst snd]. exists [OpenAI_embeddings b].
      split; [reflexivity|]. split; [unfold lookup_calls; tauto|].
      split; [cbn [calls log]; rewrite Hcalls; now rewrite <- app_assoc|].
      right. split; [reflexivity|]. now exists e.
Qed.

(** The calls of a run over batches that resolves. *)
Lemma for_each_batch_trace (bs : list (list string))
    (videoId userId : option string) :
  forall (embeddings result : list JSON) (w w' : World),
    for_each_batch bs videoId userId embeddings w = (Ok result, w') ->
    exists l, calls w' = (calls w ++ l)%list /\ batch_trace bs l.
Proof.
  induction bs as [|b bs IH]; intros embeddings result w w' Hrun.
  - cbn [for_each_batch] in Hrun. injection Hrun as _ <-.
    exists []. split; [now rewrite app_nil_r | constructor].
  - cbn [for_each_batch] in Hrun. unfold bind in Hrun.
    destruct (process_batch_calls b videoId userId embeddings w)
      as [cached [lookup [tail [_ [Hlookup [Hcalls Hshape]]]]]].
    unfold outcome, world_after in Hcalls, Hshape.
    destruct (AIServices.process_batch b videoId userId embeddings w)
      as [[e|err] w1]; [|discriminate Hrun].
    cbn [fst snd] in Hcalls, Hshape.
    destruct (IH _ _ _ _ Hrun) as [rest [Hrest Htrace]].
    destruct (truthy cached);
      destruct Hshape as [[-> _]|[_ [err Herr]]]; try discriminate Herr.
    + exists (lookup ++ [APIUsage_create true] ++ rest)%list.
      split; [rewrite Hrest, Hcalls; now rewrite <- !app_assoc|].
      now constructor.
    + exists (lookup ++ [OpenAI_embeddings b; APIUsage_create false;
                         AICache_upsert (batch_hash b)] ++ rest)%list.
      split; [rewrite Hrest, Hcalls; now rewrite <- !app_assoc|].
      now constructor.
Qed.















End Batches.

(** Scenario: 250 texts, the second batch already cached.  The batches
    have 100, 100 and 50 texts; the provider is called for the first and
    the third batch only; the embeddings come back in the order of the
    texts; afterwards the cache holds the three batches, each under its
    own fingerprint, and the ledger the records of a call, a hit and a
    call. *)
Example embeddings_250_texts_second_batch_cached :
  let run :=
    AIServices.generateEmbeddingsCached (env:=answering_env) texts250 None
      None in
  map (@List.length string) (batches texts250) = [100; 100; 50]%nat
  /\ filter is_provider_call (calls (world_after run world_second_batch_cached))
     = [OpenAI_embeddings (slice texts250 0 100);
        OpenAI_embeddings (slice texts250 200 300)]
  /\ outcome run world_second_batch_cached = Ok (JArr (map JStr texts250))
  /\ map (fun row => (AICache.inputHash row, AICache.response row))
       (aICache (world_after run world_second_batch_cached))
     = [(batch_hash (env:=answering_env) (slice texts250 100 200),
         JArr (map JStr (slice texts250 100 200)));
        (batch_hash (env:=answering_env) (slice texts250 0 100),
         JArr (map JStr (slice texts250 0 100)));
        (batch_hash (env:=answering_env) (slice texts250 200 300),
         JArr (map JStr (slice texts250 200 300)))]
  /\ map APIUsage.cached (aPIUsage (world_after run world_second_batch_cached))
     = [false; true; false].
Proof. vm_compute. repeat split. Qed.


(** ** Orchestrators: the order of the steps, for every capability *)

Section MissOrderAll.
Context {env : Collaborators}.

(** C4 (amended).  In a cache-miss invocation that succeeds, of
    transcription, highlight generation, summary and topic extraction
    alike, the calls are issued in the order lookup by the fingerprint,
    provider call, usage record ([cached = false]), cache store under the
    same fingerprint: the usage record is written before the cache entry,
    never after it.  Embeddings follow the same order batch by batch: the
    loop body, on a batch that misses, issues lookup, provider call, usage
    record and cache store in this order, and the calls of a whole run are
    those of its batches one after the other ([batch_trace]), so that the
    store of one batch does come before the record of a later batch. *)
Theorem miss_records_usage_before_storing :
  (forall (audioPath : string) (language videoId userId : option string)
          (w : World) (bytes : string) (fields : list (string * JSON)),
      fs_readFile audioPath = Ok bytes ->
      lookup_misses "transcription"
        (AIServices.transcription_cacheKey bytes language)
        AI_CONFIG.transcription_model w ->
      openai_audio_transcriptions_create audioPath bytes
        (or_default language "en") = Ok fields ->
      let run :=
        AIServices.transcribeAudioCached audioPath language videoId userId in
      outcome run w = Ok (JObj fields)
      /\ miss_order
           (AICacheService.generateHash
              (AIServices.transcription_cacheKey bytes language)
              AI_CONFIG.transcription_model)
           (calls_since w (world_after run w)))
  /\ (forall (transcript : string) (segments : list Segment)
             (videoId userId : option string) (w : World)
             (response : ChatResponse) (content : option string)
             (result : JSON) (items : list JSON),
        lookup_misses "highlights"
          (AIServices.highlights_cacheKey transcript segments)
          AI_CONFIG.highlights_model w ->
        openai_chat_completions_create (HighlightsTask segments) = Ok response ->
        first_content response = Ok content ->
        JSON_parse (or_default content "{}") = Ok result ->
        js_get result "highlights" = Ok (Some (JArr items)) ->
        let run :=
          AIServices.generateHighlightsCached transcript segments videoId
            userId in
        outcome run w = Ok result
        /\ miss_order
             (AICacheService.generateHash
                (AIServices.highlights_cacheKey transcript segments)
                AI_CONFIG.highlights_model)
             (calls_since w (world_after run w)))
  /\ (forall (transcript : string) (videoId userId : option string)
             (w : World) (response : ChatResponse) (content : option string),
        lookup_misses "summary" (AIServices.summary_cacheKey transcript)
          AI_CONFIG.completion_model w ->
        openai_chat_completions_create (SummaryTask transcript) = Ok response ->
        first_content response = Ok content ->
        let run := AIServices.generateSummaryCached transcript videoId userId in
        outcome run w = Ok (JStr (or_default content ""))
        /\ miss_order
             (AICacheService.generateHash
                (AIServices.summary_cacheKey transcript)
                AI_CONFIG.completion_model)
             (calls_since w (world_after run w)))
  /\ (forall (transcript : string) (videoId userId : option string)
             (w : World) (response : ChatResponse) (content : option string)
             (result : JSON) (field : option JSON),
        lookup_misses "topics" (AIServices.topics_cacheKey transcript)
          AI_CONFIG.completion_model w ->
        openai_chat_completions_create (TopicsTask transcript) = Ok response ->
        first_content response = Ok content ->
        JSON_parse (or_default content empty_topics_text) = Ok result ->
        js_get result "topics" = Ok field ->
        let run := AIServices.extractKeyTopicsCached transcript videoId userId in
        outcome run w
        = Ok match field with
             | Some t => if truthy t then t else JArr []
             | None => JArr []
             end
        /\ miss_order
             (AICacheService.generateHash
                (AIServices.topics_cacheKey transcript)
                AI_CONFIG.completion_model)
             (calls_since w (world_after run w)))
  /\ (forall (batch : list string) (videoId userId : option string)
             (embeddings : list JSON) (w : World)
             (response : EmbeddingsResponse),
        lookup_misses "embeddings" (AIServices.embeddings_batchKey batch)
          AI_CONFIG.embeddings_model w ->
        openai_embeddings_create batch = Ok response ->
        let run := AIServices.process_batch batch videoId userId embeddings in
        outcome run w = Ok (embeddings ++ data response)%list
        /\ miss_order
             (AICacheService.generateHash
                (AIServices.embeddings_batchKey batch)
                AI_CONFIG.embeddings_model)
             (calls_since w (world_after run w)))
  /\ (forall (texts : list string) (videoId userId : option string)
             (w : World) (v : JSON),
        let run := AIServices.generateEmbeddingsCached texts videoId userId in
        outcome run w = Ok v ->
        batch_trace (batches texts) (calls_since w (world_after run w))).
Proof.
  split; [|split; [|split; [|split; [|split]]]].
  - intros. now apply transcribeAudio_miss_run.
  - intros. now apply (generateHighlights_miss_run _ _ _ _ _ response content
                         result items).
  - intros. now apply (generateSummary_miss_run _ _ _ _ response).
  - intros. now apply (extractKeyTopics_miss_run _ _ _ _ response content
                         result).
  - intros. now apply process_batch_miss_run.
  - intros texts videoId userId w v run Hv. subst run.
    unfold outcome, world_after in *.
    rewrite generateEmbeddings_sequential in *.
    unfold tryCatch, bind in *.
    destruct (for_each_batch (batches texts) videoId userId [] w)
      as [[e|err] w1] eqn:Hrun; [|discriminate Hv].
    cbn [ret snd].
    destruct (for_each_batch_trace _ _ _ _ _ _ _ Hrun) as [l [Hcalls Htrace]].
    now rewrite (calls_since_log _ _ _ Hcalls).
Qed.

End MissOrderAll.

Lemma miss_records_usage_before_storing_witness :
  before is_record is_store
    (calls_since empty_world
       (world_after
          (AIServices.transcribeAudioCached (env:=answering_env)
             "/tmp/audio.wav" None None None) empty_world)) = true
  /\ before is_store is_record
       (calls_since empty_world
          (world_after
             (AIServices.generateHighlightsCached (env:=answering_env)
                "we decided to ship" [mkSegment "we decided to ship" 0 2.5]
                None None) empty_world)) = false
  /\ before is_store is_record
       (calls_since empty_world
          (world_after
             (AIServices.process_batch (env:=answering_env) ["a"; "b"] None
                None []) empty_world)) = false.
Proof.
  destruct (miss_records_usage_before_storing (env:=answering_env))
    as [Htranscribe [Hhighlights [_ [_ [Hbatch _]]]]].
  split; [|split].
  - destruct (Htranscribe "/tmp/audio.wav" None None None empty_world
                "RIFF-bytes" [("text", JStr "hello"); ("duration", JNum 90)])
      as [_ [_ [_ [_ [Horder _]]]]].
    + reflexivity.
    + exists JNull. split; reflexivity.
    + reflexivity.
    + exact Horder.
  - destruct (Hhighlights "we decided to ship"
                [mkSegment "we decided to ship" 0 2.5] None None empty_world
                (mkChatResponse [Some "{...}"] (Some (120, 30)))
                (Some "{...}")
                (JObj [("highlights", JArr []); ("summary", JStr "s")]) [])
      as [_ [_ [_ [_ [_ Horder]]]]].
    + exists JNull. split; reflexivity.
    + reflexivity.
    + reflexivity.
    + reflexivity.
    + reflexivity.
    + exact Horder.
  - destruct (Hbatch ["a"; "b"] None None [] empty_world
                (mkEmbeddingsResponse [JStr "a"; JStr "b"] (Some 7)))
      as [_ [_ [_ [_ [_ Horder]]]]].
    + exists JNull. split; reflexivity.
    + reflexivity.
    + exact Horder.
Defined.

(** C4 (as stated) fails: in a successful miss of highlight generation no
    cache store precedes the usage record. *)
Lemma store_does_not_precede_record :
  ~ stores_before_recording
      (AIServices.generateHighlightsCached (env:=answering_env)
         "we decided to ship" [mkSegment "we decided to ship" 0 2.5]
         None None)
      empty_world.
Proof.
  unfold stores_before_recording. vm_compute. discriminate.
Qed.

(** Across the batches of one embeddings run the order is per batch only:
    with 250 texts of which the second hundred is cached, the store of the
    first batch comes before the records of the second and of the third. *)
Example embeddings_store_precedes_later_record :
  let run :=
    AIServices.generateEmbeddingsCached (env:=answering_env) texts250 None
      None in
  filter (fun c => is_record c || is_store c)
    (calls_since world_second_batch_cached
       (world_after run world_second_batch_cached))
  = [APIUsage_create false;
     AICache_upsert (batch_hash (env:=answering_env) (slice texts250 0 100));
     APIUsage_create true;
     APIUsage_create false;
     AICache_upsert (batch_hash (env:=answering_env) (slice texts250 200 300))].
Proof. vm_compute. reflexivity. Qed.

(** * Further properties *)

(** ** Cache store: misses, outages, round trips *)

(** The three services while the database cannot be reached. *)
Lemma get_down {env : Collaborators} (type content model : string) (w : World) :
  dbUp w = false ->
  AICacheService.get type content model w
  = (Ok JNull,
     log (AICache_findUnique (AICacheService.generateHash content model)) w).
Proof.
  intros Hdown.
  unfold AICacheService.get, tryCatch, bind, prisma.aICache_findUnique, bind,
    prisma.request.
  now rewrite Hdown.
Qed.

Lemma trackUsage_down (type model : string)
    (inputTokens outputTokens : option Q) (inputMinutes : option JSON)
    (cached : bool) (videoId userId : option string) (w : World) :
  dbUp w = false ->
  APIUsageTracker.trackUsage type model inputTokens outputTokens inputMinutes
    (Some cached) videoId userId w
  = (Ok tt, log (APIUsage_create cached) w).
Proof.
  intros Hdown.
  unfold APIUsageTracker.trackUsage, tryCatch, prisma.aPIUsage_create, bind,
    prisma.request.
  now rewrite Hdown.
Qed.

Lemma set_down {env : Collaborators} (type content model : string)
    (response : JSON) (days inputSize outputSize : option Z) (w : World) :
  dbUp w = false ->
  AICacheService.set type content model response days inputSize outputSize w
  = (Ok tt,
     log (AICache_upsert (AICacheService.generateHash content model)) w).
Proof.
  intros Hdown.
  unfold AICacheService.set, tryCatch, bind, read, prisma.aICache_upsert, bind,
    prisma.request.
  cbn [log dbUp]. now rewrite Hdown.
Qed.

Section CacheStoreMore.
Context {env : Collaborators}.

(** X1.  A [get] for a fingerprint that no entry has, with the database
    reachable, yields [null], leaves both tables as they are and issues the
    [findUnique] alone. *)
Theorem get_absent_is_a_miss (w : World) (type content model : string) :
  dbUp w = true ->
  rows_with_hash (AICacheService.generateHash content model) (aICache w) = [] ->
  let w' := world_after (AICacheService.get type content model) w in
  outcome (AICacheService.get type content model) w = Ok JNull
  /\ aICache w' = aICache w
  /\ aPIUsage w' = aPIUsage w
  /\ calls_since w w'
     = [AICache_findUnique (AICacheService.generateHash content model)].
Proof.
  intros Hup Habsent w'. subst w'.
  set (hash := AICacheService.generateHash content model) in *.
  assert (Hfind : find (prisma.has_hash hash) (aICache w) = None).
  { apply existsb_rows_with_hash in Habsent.
    destruct (find (prisma.has_hash hash) (aICache w)) as [row|] eqn:E;
      [|reflexivity].
    apply find_some in E.
    assert (Hex : existsb (prisma.has_hash hash) (aICache w) = true)
      by (apply existsb_exists; now exists row).
    congruence. }
  unfold outcome, world_after, AICacheService.get, tryCatch, bind,
    prisma.aICache_findUnique, bind, read.
  fold hash. rewrite (request_up _ _ Hup). cbn [log aICache].
  rewrite Hfind. cbn [ret fst snd log aICache aPIUsage].
  repeat split. now apply calls_since_log.
Qed.

(** X2.  While the database cannot be reached, [get] yields [null], and
    [set], [trackUsage] and [clearExpired] resolve ([clearExpired] to 0):
    none of them throws and none changes a table. *)
Theorem outage_is_swallowed (w : World) (type content model : string)
    (response : JSON) (days inputSize outputSize : option Z)
    (inputTokens outputTokens : option Q) (inputMinutes : option JSON)
    (cached : option bool) (videoId userId : option string) :
  dbUp w = false ->
  (outcome (AICacheService.get type content model) w = Ok JNull
   /\ aICache (world_after (AICacheService.get type content model) w)
      = aICache w)
  /\ (outcome (AICacheService.set type content model response days inputSize
                 outputSize) w = Ok tt
      /\ aICache (world_after
                    (AICacheService.set type content model response days
                       inputSize outputSize) w) = aICache w)
  /\ (outcome (APIUsageTracker.trackUsage type model inputTokens outputTokens
                 inputMinutes cached videoId userId) w = Ok tt
      /\ aPIUsage (world_after
                     (APIUsageTracker.trackUsage type model inputTokens
                        outputTokens inputMinutes cached videoId userId) w)
         = aPIUsage w)
  /\ (outcome AICacheService.clearExpired w = Ok 0
      /\ aICache (world_after AICacheService.clearExpired w) = aICache w).
Proof.
  intros Hdown.
  unfold outcome, world_after, AICacheService.get, AICacheService.set,
    APIUsageTracker.trackUsage, AICacheService.clearExpired, tryCatch, bind,
    read, prisma.aICache_findUnique, prisma.aICache_upsert,
    prisma.aPIUsage_create, prisma.aICache_deleteMany, bind, prisma.request.
  cbn [log dbUp]. rewrite Hdown. cbn. tauto.
Qed.

(** A lookup that finds an expired row removes what is filed under the
    fingerprint and yields [null]. *)
Lemma get_found_expired (w : World) (type content model : string)
    (row : AICache.t) :
  dbUp w = true ->
  find (prisma.has_hash (AICacheService.generateHash content model))
    (aICache w) = Some row ->
  AICacheService.expired row (clock w) = true ->
  outcome (AICacheService.get type content model) w = Ok JNull
  /\ aICache (world_after (AICacheService.get type content model) w)
     = filter (fun r => negb (prisma.has_hash
                                (AICacheService.generateHash content model) r))
         (aICache w).
Proof.
  intros Hup Hfind Hexpired.
  set (hash := AICacheService.generateHash content model) in *.
  assert (Hex : existsb (prisma.has_hash hash) (aICache w) = true).
  { apply existsb_exists. exists row. apply (find_some _ _ Hfind). }
  unfold outcome, world_after, AICacheService.get, tryCatch, bind,
    prisma.aICache_findUnique, bind, read.
  fold hash. rewrite (request_up _ _ Hup).
  cbn [log aICache clock]. rewrite Hfind. cbn [log clock]. rewrite Hexpired.
  unfold AICacheService.delete, tryCatch, prisma.aICache_delete, bind.
  rewrite request_up by exact Hup.
  cbn [log aICache]. rewrite Hex. split; reflexivity.
Qed.

(** X3.  Round trip: with the database reachable, what [set] stores under
    (content, model) is what a later [get] for (content, model) yields, as
    long as the entry has not expired; the kind handed to [get] plays no
    part, since the fingerprint is made of the content and the model
    only. *)
Theorem set_then_get_round_trip (w : World)
    (type type' content model : string) (response : JSON)
    (days inputSize outputSize : option Z) (later : Z) :
  dbUp w = true ->
  (forall e, AICacheService.expiresAt_of (clock w) days = Some e -> later <= e) ->
  outcome (AICacheService.get type' content model)
    (with_clock later
       (world_after
          (AICacheService.set type content model response days inputSize
             outputSize) w))
  = Ok response.
Proof.
  intros Hup Hlive.
  destruct (set_row_found w type content model response days inputSize
              outputSize Hup) as [Hup1 [_ [row [Hfind [Hresp Hexp]]]]].
  destruct (get_found (with_clock later
                         (world_after
                            (AICacheService.set type content model response
                               days inputSize outputSize) w))
              type' content model row) as [w2 [Hget _]].
  - exact Hup1.
  - exact Hfind.
  - unfold AICacheService.expired. rewrite Hexp. cbn [with_clock clock].
    destruct (AICacheService.expiresAt_of (clock w) days) as [e|];
      [|reflexivity].
    apply Z.ltb_ge. now apply Hlive.
  - unfold outcome. rewrite Hget. cbn [fst]. now rewrite Hresp.
Qed.

(** X4.  Time to live: an entry stored with [expirationDays = d], [d]
    other than 0, is gone once more than [d] days have passed: the first
    [get] after that yields [null] and leaves no row under the
    fingerprint. *)
Theorem set_then_get_after_ttl (w : World) (type type' content model : string)
    (response : JSON) (d : Z) (inputSize outputSize : option Z) (later : Z) :
  dbUp w = true ->
  d <> 0 ->
  clock w + d * 24 * 60 * 60 * 1000 < later ->
  let w1 :=
    with_clock later
      (world_after
         (AICacheService.set type content model response (Some d) inputSize
            outputSize) w) in
  outcome (AICacheService.get type' content model) w1 = Ok JNull
  /\ rows_with_hash (AICacheService.generateHash content model)
       (aICache (world_after (AICacheService.get type' content model) w1))
     = [].
Proof.
  intros Hup Hd Hlate w1. subst w1.
  destruct (set_row_found w type content model response (Some d) inputSize
              outputSize Hup) as [Hup1 [_ [row [Hfind [_ Hexp]]]]].
  destruct (get_found_expired
              (with_clock later
                 (world_after
                    (AICacheService.set type content model response (Some d)
                       inputSize outputSize) w))
              type' content model row) as [Hnull Hrows].
  - exact Hup1.
  - exact Hfind.
  - unfold AICacheService.expired. rewrite Hexp.
    cbn [AICacheService.expiresAt_of with_clock clock].
    apply Z.eqb_neq in Hd. rewrite Hd. now apply Z.ltb_lt.
  - split; [exact Hnull|]. rewrite Hrows. apply rows_with_hash_removed.
Qed.

End CacheStoreMore.

Lemma get_absent_is_a_miss_witness :
  outcome (AICacheService.get (env:=failing_env) "summary" "k" "gpt-4o-mini")
    empty_world = Ok JNull.
Proof.
  apply (get_absent_is_a_miss (env:=failing_env) empty_world "summary" "k"
           "gpt-4o-mini"); reflexivity.
Defined.

Lemma outage_is_swallowed_witness :
  outcome (AICacheService.get (env:=failing_env) "summary" "k" "gpt-4o-mini")
    offline_world = Ok JNull
  /\ aICache (world_after
                (AICacheService.get (env:=failing_env) "summary" "k"
                   "gpt-4o-mini") offline_world)
     = aICache offline_world.
Proof.
  apply (outage_is_swallowed (env:=failing_env) offline_world "summary" "k"
           "gpt-4o-mini" JNull None None None None None None None None None).
  reflexivity.
Defined.

Lemma set_then_get_round_trip_witness :
  outcome (AICacheService.get (env:=failing_env) "topics" "k" "gpt-4o-mini")
    (with_clock 86400000
       (world_after
          (AICacheService.set (env:=failing_env) "summary" "k" "gpt-4o-mini"
             (JStr "a") (Some 60) (Some 10) None) empty_world))
  = Ok (JStr "a").
Proof.
  apply (set_then_get_round_trip (env:=failing_env) empty_world "summary"
           "topics" "k" "gpt-4o-mini" (JStr "a") (Some 60) (Some 10) None
           86400000).
  - reflexivity.
  - intros e He. vm_compute in He. injection He as <-. vm_compute.
    discriminate.
Defined.

Lemma set_then_get_after_ttl_witness :
  outcome (AICacheService.get (env:=failing_env) "summary" "k" "gpt-4o-mini")
    (with_clock (1000 + 61 * 86400000)
       (world_after
          (AICacheService.set (env:=failing_env) "summary" "k" "gpt-4o-mini"
             (JStr "a") (Some 60) (Some 10) None) empty_world))
  = Ok JNull.
Proof.
  apply (set_then_get_after_ttl (env:=failing_env) empty_world "summary"
           "summary" "k" "gpt-4o-mini" (JStr "a") 60 (Some 10) None
           (1000 + 61 * 86400000)).
  - reflexivity.
  - discriminate.
  - reflexivity.
Defined.

(** ** Cache store: uniqueness and maintenance *)

Lemma unique_hashes_filter (keep : AICache.t -> bool) (rows : list AICache.t) :
  unique_hashes rows -> unique_hashes (filter keep rows).
Proof.
  unfold unique_hashes.
  induction rows as [|r rows IH]; intros Hunique; [exact Hunique|].
  cbn [map] in Hunique. inversion Hunique as [|? ? Hfresh Hrest]; subst.
  cbn [filter]. destruct (keep r); [|now apply IH].
  cbn [map]. constructor; [|now apply IH].
  intros Hin. apply Hfresh. apply in_map_iff in Hin.
  destruct Hin as [x [Hx Hin]]. apply filter_In in Hin.
  rewrite <- Hx. apply in_map. tauto.
Qed.

Lemma deleteMany_up (p : AICache.t -> bool) (w : World) :
  dbUp w = true ->
  prisma.aICache_deleteMany p w
  = (Ok (Z.of_nat (List.length (filter p (aICache w)))),
     with_aICache (filter (fun r => negb (p r)) (aICache w))
       (log AICache_deleteMany w)).
Proof.
  intros Hup. unfold prisma.aICache_deleteMany, bind.
  now rewrite (request_up _ _ Hup).
Qed.

Lemma deleteMany_down (p : AICache.t -> bool) (w : World) :
  dbUp w = false ->
  aICache (snd (prisma.aICache_deleteMany p w)) = aICache w.
Proof.
  intros Hdown. unfold prisma.aICache_deleteMany, bind, prisma.request.
  now rewrite Hdown.
Qed.

Section CacheInvariant.
Context {env : Collaborators}.

(** X5.  The uniqueness of [inputHash] is an invariant of the cache store:
    [get], [set], [clearExpired], [clearByType] and [clearAll] keep it,
    whether the database is reachable or not. *)
Theorem cache_operations_keep_hashes_unique (w : World)
    (type content model : string) (response : JSON)
    (days inputSize outputSize : option Z) :
  unique_hashes (aICache w) ->
  unique_hashes
    (aICache (world_after (AICacheService.get type content model) w))
  /\ unique_hashes
       (aICache (world_after
                   (AICacheService.set type content model response days
                      inputSize outputSize) w))
  /\ unique_hashes (aICache (world_after AICacheService.clearExpired w))
  /\ unique_hashes
       (aICache (world_after (AICacheAdmin.clearByType type) w))
  /\ unique_hashes (aICache (world_after AICacheAdmin.clearAll w)).
Proof.
  intros Hu.
  assert (Hdelete : forall p,
            unique_hashes
              (aICache (snd (tryCatch (prisma.aICache_deleteMany p)
                               (fun _ => ret 0) w)))).
  { intros p. unfold tryCatch. destruct (dbUp w) eqn:Hup.
    - rewrite (deleteMany_up _ _ Hup). cbn [snd with_aICache aICache].
      now apply unique_hashes_filter.
    - pose proof (deleteMany_down p w Hup) as Hsame.
      destruct (prisma.aICache_deleteMany p w) as [[n|e] w1];
        cbn [snd ret] in *; now rewrite Hsame. }
  split; [|split; [|split; [|split]]].
  - destruct (get_rows_shape type content model w) as [->|[->| ->]].
    + exact Hu.
    + now apply unique_hashes_filter.
    + unfold unique_hashes. now rewrite hashes_rewritten.
  - destruct (dbUp w) eqn:Hup.
    + now apply (set_one_entry w type content model response days inputSize
                   outputSize Hup Hu).
    + unfold world_after. rewrite (set_down _ _ _ _ _ _ _ _ Hup).
      exact Hu.
  - unfold world_after, AICacheService.clearExpired, tryCatch, bind, read.
    apply (Hdelete (fun r => AICacheService.expired r (clock w))).
  - apply Hdelete.
  - apply Hdelete.
Qed.

(** X6.  With the database reachable, [clearExpired] removes exactly the
    entries whose [expiresAt] is in the past and resolves to their number;
    the entries that stay keep their order and none of them is expired;
    the ledger is not touched; run again at once, it removes nothing and
    resolves to 0. *)
Theorem clearExpired_sweeps_expired (w : World) :
  dbUp w = true ->
  let w' := world_after AICacheService.clearExpired w in
  outcome AICacheService.clearExpired w
  = Ok (Z.of_nat
          (List.length
             (filter (fun r => AICacheService.expired r (clock w)) (aICache w))))
  /\ aICache w'
     = filter (fun r => negb (AICacheService.expired r (clock w))) (aICache w)
  /\ (forall r, In r (aICache w') -> AICacheService.expired r (clock w) = false)
  /\ aPIUsage w' = aPIUsage w
  /\ outcome AICacheService.clearExpired w' = Ok 0
  /\ aICache (world_after AICacheService.clearExpired w') = aICache w'.
Proof.
  intros Hup w'.
  assert (Hrun : forall w0, dbUp w0 = true ->
            AICacheService.clearExpired w0
            = (Ok (Z.of_nat
                     (List.length
                        (filter (fun r => AICacheService.expired r (clock w0))
                           (aICache w0)))),
               with_aICache
                 (filter (fun r => negb (AICacheService.expired r (clock w0)))
                    (aICache w0))
                 (log AICache_deleteMany w0))).
  { intros w0 Hup0.
    unfold AICacheService.clearExpired, tryCatch, bind, read.
    now rewrite (deleteMany_up _ _ Hup0). }
  assert (Hlive : forall r, In r (aICache w') ->
                    AICacheService.expired r (clock w) = false).
  { subst w'. unfold world_after. rewrite (Hrun w Hup).
    cbn [snd with_aICache aICache]. intros r Hr.
    apply filter_In in Hr. destruct Hr as [_ Hr].
    now destruct (AICacheService.expired r (clock w)). }
  assert (Hup' : dbUp w' = true).
  { subst w'. unfold world_after. now rewrite (Hrun w Hup). }
  assert (Hclock : clock w' = clock w).
  { subst w'. unfold world_after. now rewrite (Hrun w Hup). }
  split; [unfold outcome; now rewrite (Hrun w Hup)|].
  split; [subst w'; unfold world_after; now rewrite (Hrun w Hup)|].
  split; [exact Hlive|].
  split; [subst w'; unfold world_after; now rewrite (Hrun w Hup)|].
  unfold outcome, world_after. rewrite (Hrun w' Hup'). rewrite Hclock.
  cbn [fst snd with_aICache aICache].
  split.
  - rewrite filter_none; [reflexivity | exact Hlive].
  - apply filter_id. apply forallb_forall. intros r Hr.
    now rewrite (Hlive r Hr).
Qed.

End CacheInvariant.

Lemma filter_other_type (type type' : string) (rows : list AICache.t) :
  type' <> type ->
  filter (fun r => AICache.type r ==? type')
    (filter (fun r => negb (AICache.type r ==? type)) rows)
  = filter (fun r => AICache.type r ==? type') rows.
Proof.
  intros Hne. induction rows as [|r rows IH]; [reflexivity|].
  cbn [filter].
  destruct (AICache.type r ==? type) eqn:E; cbn [negb filter].
  - apply String.eqb_eq in E.
    assert (E' : (AICache.type r ==? type') = false).
    { apply String.eqb_neq. congruence. }
    rewrite E'. exact IH.
  - destruct (AICache.type r ==? type'); [now rewrite IH | exact IH].
Qed.

(** X7.  With the database reachable, [clearByType] removes the entries of
    the given kind, resolves to the number [getCountByType] gave for it,
    leaves that count at 0 and the entries of every other kind in place;
    [clearAll] resolves to the number of entries and leaves the cache
    empty, with a size report of 0 entries and 0 MB. *)
Theorem clearByType_and_clearAll (w : World) (type : string) :
  dbUp w = true ->
  let w1 := world_after (AICacheAdmin.clearByType type) w in
  let w2 := world_after AICacheAdmin.clearAll w in
  outcome (AICacheAdmin.clearByType type) w
  = outcome (AICacheAdmin.getCountByType type) w
  /\ outcome (AICacheAdmin.getCountByType type) w1 = Ok 0
  /\ aICache w1
     = filter (fun r => negb (AICache.type r ==? type)) (aICache w)
  /\ (forall type', type' <> type ->
        outcome (AICacheAdmin.getCountByType type') w1
        = outcome (AICacheAdmin.getCountByType type') w)
  /\ outcome AICacheAdmin.clearAll w = Ok (Z.of_nat (List.length (aICache w)))
  /\ aICache w2 = []
  /\ outcome AICacheAdmin.getCacheSize w2
     = Ok (AICacheAdmin.mkCacheSize 0 (0 / inject_Z (1024 * 1024))%Q).
Proof.
  intros Hup w1 w2.
  assert (Hcount : forall t w0, dbUp w0 = true ->
            outcome (AICacheAdmin.getCountByType t) w0
            = Ok (Z.of_nat
                    (List.length
                       (filter (fun r => AICache.type r ==? t) (aICache w0))))).
  { intros t w0 Hup0.
    unfold outcome, AICacheAdmin.getCountByType, tryCatch, bind.
    now rewrite (aICache_rows_up _ Hup0). }
  assert (Hw1 : w1 = with_aICache
                       (filter (fun r => negb (AICache.type r ==? type))
                          (aICache w))
                       (log AICache_deleteMany w)).
  { subst w1. unfold world_after, AICacheAdmin.clearByType, tryCatch.
    now rewrite (deleteMany_up _ _ Hup). }
  assert (Hw2 : w2 = with_aICache
                       (filter (fun r => negb true) (aICache w))
                       (log AICache_deleteMany w)).
  { subst w2. unfold world_after, AICacheAdmin.clearAll, tryCatch.
    now rewrite (deleteMany_up _ _ Hup). }
  assert (Hempty : aICache w2 = []).
  { rewrite Hw2. cbn [with_aICache aICache]. now apply filter_none. }
  split.
  { rewrite (Hcount type w Hup).
    unfold outcome, AICacheAdmin.clearByType, tryCatch.
    now rewrite (deleteMany_up _ _ Hup). }
  split.
  { rewrite Hcount by (rewrite Hw1; exact Hup).
    rewrite Hw1. cbn [with_aICache aICache].
    rewrite filter_none; [reflexivity|].
    intros r Hr. apply filter_In in Hr. destruct Hr as [_ Hr].
    now destruct (AICache.type r ==? type). }
  split; [now rewrite Hw1|].
  split.
  { intros type' Hne.
    rewrite Hcount by (rewrite Hw1; exact Hup).
    rewrite (Hcount type' w Hup).
    rewrite Hw1. cbn [with_aICache aICache].
    now rewrite filter_other_type. }
  split.
  { unfold outcome, AICacheAdmin.clearAll, tryCatch.
    rewrite (deleteMany_up _ _ Hup). cbn [fst].
    now rewrite filter_all. }
  split; [exact Hempty|].
  unfold outcome, AICacheAdmin.getCacheSize, tryCatch.
  unfold bind at 1. rewrite (aICache_rows_up w2) by (rewrite Hw2; exact Hup).
  unfold bind at 1.
  rewrite (aICache_rows_up (log AICache_query w2)) by (rewrite Hw2; exact Hup).
  cbn [log aICache ret fst]. rewrite Hempty. reflexivity.
Qed.

Lemma clearExpired_sweeps_expired_witness :
  outcome (AICacheService.clearExpired) world_three_entries = Ok 1
  /\ map AICache.inputHash
       (aICache (world_after AICacheService.clearExpired world_three_entries))
     = ["h-new"; "s-1"].
Proof.
  destruct (clearExpired_sweeps_expired world_three_entries eq_refl)
    as [Hn [Hrows _]].
  split; [exact Hn | now rewrite Hrows].
Defined.

Lemma clearByType_and_clearAll_witness :
  outcome (AICacheAdmin.clearByType "highlights") world_three_entries = Ok 2
  /\ outcome (AICacheAdmin.getCountByType "summary")
       (world_after (AICacheAdmin.clearByType "highlights") world_three_entries)
     = Ok 1.
Proof.
  destruct (clearByType_and_clearAll world_three_entries "highlights" eq_refl)
    as [Hn [_ [_ [Hother _]]]].
  split.
  - rewrite Hn. reflexivity.
  - rewrite (Hother "summary"); [reflexivity | discriminate].
Defined.

Lemma cache_operations_keep_hashes_unique_witness :
  unique_hashes
    (aICache (world_after
                (AICacheService.set (env:=failing_env) "summary" "k"
                   "gpt-4o-mini" (JStr "a") (Some 60) None None)
                world_three_entries)).
Proof.
  apply (cache_operations_keep_hashes_unique (env:=failing_env)
           world_three_entries "summary" "k" "gpt-4o-mini" (JStr "a")
           (Some 60) None None).
  unfold unique_hashes. cbn.
  repeat constructor; cbn; intuition discriminate.
Defined.

(** ** Usage ledger: records and breakdowns *)

Lemma as_Int_integral (x : option Q) :
  integral x -> prisma.as_Int x = option_map Qfloor x.
Proof.
  destruct x as [[n d]|]; [|reflexivity].
  cbn [integral prisma.as_Int option_map Qnum Qden]. intros Hq.
  f_equal. unfold Qeq in Hq. cbn [Qnum Qden inject_Z Qfloor] in Hq |- *.
  rewrite Z.mul_1_r in Hq. rewrite Hq.
  rewrite Z.quot_mul by discriminate. now rewrite Z.div_mul by discriminate.
Qed.

Lemma as_Float_number (x : option Q) :
  prisma.as_Float (option_map JNum x) = Ok x.
Proof. destruct x; reflexivity. Qed.

Lemma as_number_number (x : option Q) :
  APIUsageTracker.as_number (option_map JNum x) = x.
Proof. destruct x; reflexivity. Qed.

(** X8.  With the database reachable and whole token counts, [trackUsage]
    appends exactly one record to the ledger and touches nothing else.  The
    record carries the quantities as given, the time of the call, the
    [cached] flag ([false] when omitted) and the cost [calculateCost] gives
    for the quantities: a cache hit is recorded at the price of the call it
    avoided, not at 0. *)
Theorem trackUsage_appends_one_record (w : World) (type model : string)
    (inputTokens outputTokens inputMinutes : option Q) (cached : option bool)
    (videoId userId : option string) :
  dbUp w = true ->
  integral inputTokens -> integral outputTokens ->
  let run :=
    APIUsageTracker.trackUsage type model inputTokens outputTokens
      (option_map JNum inputMinutes) cached videoId userId in
  outcome run w = Ok tt
  /\ aPIUsage (world_after run w)
     = (aPIUsage w ++
        [APIUsage.mk type model (option_map Qfloor inputTokens)
           (option_map Qfloor outputTokens) inputMinutes
           (Some (Cost.calculateCost type model inputTokens outputTokens
                    inputMinutes))
           (match cached with Some b => b | None => false end)
           (clock w) videoId userId])%list
  /\ aICache (world_after run w) = aICache w.
Proof.
  intros Hup Hin Hout run. subst run.
  unfold outcome, world_after, APIUsageTracker.trackUsage, tryCatch,
    prisma.aPIUsage_create, bind, lift.
  rewrite (request_up _ _ Hup).
  rewrite as_Float_number, as_number_number.
  rewrite (as_Int_integral _ Hin), (as_Int_integral _ Hout).
  cbn [fst snd with_aPIUsage log aPIUsage aICache clock]. tauto.
Qed.

Lemma trackUsage_appends_one_record_witness :
  aPIUsage
    (world_after
       (APIUsageTracker.trackUsage "completion" "gpt-4o-mini" (Some 2000%Q)
          (Some 500%Q) None (Some true) (Some "v1") None) empty_world)
  = [APIUsage.mk "completion" "gpt-4o-mini" (Some 2000) (Some 500) None
       (Some (Cost.calculateCost "completion" "gpt-4o-mini" (Some 2000%Q)
                (Some 500%Q) None))
       true 1000 (Some "v1") None].
Proof.
  apply (trackUsage_appends_one_record empty_world "completion" "gpt-4o-mini"
           (Some 2000%Q) (Some 500%Q) None (Some true) (Some "v1") None).
  - reflexivity.
  - reflexivity.
  - reflexivity.
Defined.

(** Sums over the groups of a [groupBy] are sums over the rows. *)
Section GroupSums.
Variables R K : Type.
Variable K_dec : forall a b : K, {a = b} + {a <> b}.
Variable key : R -> K.

Let in_group (k : K) (r : R) : bool :=
  if K_dec (key r) k then true else false.

Lemma Zsum_split (F : R -> Z) (k : K) (rows : list R) :
  Zsum (map F (filter (in_group k) rows))
  + Zsum (map F (filter (fun r => negb (in_group k r)) rows))
  = Zsum (map F rows).
Proof.
  induction rows as [|r rows IH]; [reflexivity|].
  cbn [filter]. destruct (in_group k r); cbn [negb map Zsum fold_right];
    unfold Zsum in *; lia.
Qed.

Lemma Qsum_split (F : R -> Q) (k : K) (rows : list R) :
  (Qsum (map F (filter (in_group k) rows))
   + Qsum (map F (filter (fun r => negb (in_group k r)) rows))
   == Qsum (map F rows))%Q.
Proof.
  induction rows as [|r rows IH]; [reflexivity|].
  cbn [filter]. destruct (in_group k r); cbn [negb map Qsum fold_right];
    unfold Qsum in *; rewrite <- IH; ring.
Qed.

Lemma filter_group_rest (k k' : K) (rows : list R) :
  k' <> k ->
  filter (in_group k') (filter (fun r => negb (in_group k r)) rows)
  = filter (in_group k') rows.
Proof.
  intros Hne. induction rows as [|r rows IH]; [reflexivity|].
  cbn [filter]. unfold in_group at 2 4.
  destruct (K_dec (key r) k) as [Ek|Ek]; cbn [negb filter].
  - unfold in_group at 2. destruct (K_dec (key r) k') as [Ek'|_];
      [congruence | exact IH].
  - now rewrite IH.
Qed.

Lemma partition_Zsum (F : R -> Z) (ks : list K) :
  NoDup ks ->
  forall rows,
    (forall r, In r rows -> In (key r) ks) ->
    Zsum (map (fun k => Zsum (map F (filter (in_group k) rows))) ks)
    = Zsum (map F rows).
Proof.
  induction 1 as [|k ks Hnotin Hnd IH]; intros rows Hkeys.
  - destruct rows as [|r rows]; [reflexivity|].
    destruct (Hkeys r (or_introl eq_refl)).
  - cbn [map Zsum fold_right]. fold (Zsum (map (fun k0 => Zsum (map F (filter (in_group k0) rows))) ks)).
    rewrite <- (Zsum_split F k rows). f_equal.
    rewrite <- (IH (filter (fun r => negb (in_group k r)) rows)).
    + f_equal. apply map_ext_in. intros k' Hk'.
      rewrite filter_group_rest; [reflexivity|]. congruence.
    + intros r Hr. apply filter_In in Hr. destruct Hr as [Hr Hk].
      unfold in_group in Hk.
      destruct (K_dec (key r) k) as [E|E]; [discriminate Hk|].
      destruct (Hkeys r Hr) as [Heq|Hin]; [congruence | exact Hin].
Qed.

Lemma partition_Qsum (F : R -> Q) (ks : list K) :
  NoDup ks ->
  forall rows,
    (forall r, In r rows -> In (key r) ks) ->
    (Qsum (map (fun k => Qsum (map F (filter (in_group k) rows))) ks)
     == Qsum (map F rows))%Q.
Proof.
  induction 1 as [|k ks Hnotin Hnd IH]; intros rows Hkeys.
  - destruct rows as [|r rows]; [reflexivity|].
    destruct (Hkeys r (or_introl eq_refl)).
  - cbn [map Qsum fold_right].
    fold (Qsum (map (fun k0 => Qsum (map F (filter (in_group k0) rows))) ks)).
    rewrite <- (Qsum_split F k rows).
    apply Qplus_comp; [reflexivity|].
    rewrite <- (IH (filter (fun r => negb (in_group k r)) rows)).
    + assert (Heq : map (fun k0 => Qsum (map F (filter (in_group k0) rows))) ks
                    = map (fun k0 =>
                             Qsum (map F (filter (in_group k0)
                                            (filter (fun r => negb (in_group k r))
                                               rows)))) ks).
      { apply map_ext_in. intros k' Hk'.
        rewrite filter_group_rest; [reflexivity|]. congruence. }
      rewrite Heq. reflexivity.
    + intros r Hr. apply filter_In in Hr. destruct Hr as [Hr Hk].
      unfold in_group in Hk.
      destruct (K_dec (key r) k) as [E|E]; [discriminate Hk|].
      destruct (Hkeys r Hr) as [Heq|Hin]; [congruence | exact Hin].
Qed.

Lemma groupBy_Zsum (F : R -> Z) (rows : list R) :
  Zsum (map (fun g => Zsum (map F (snd g))) (prisma.groupBy K_dec key rows))
  = Zsum (map F rows).
Proof.
  unfold prisma.groupBy. rewrite map_map. cbn [snd].
  apply (partition_Zsum F); [apply NoDup_nodup|].
  intros r Hr. apply nodup_In. now apply in_map.
Qed.

Lemma groupBy_Qsum (F : R -> Q) (rows : list R) :
  (Qsum (map (fun g => Qsum (map F (snd g))) (prisma.groupBy K_dec key rows))
   == Qsum (map F rows))%Q.
Proof.
  unfold prisma.groupBy. rewrite map_map. cbn [snd].
  apply (partition_Qsum F); [apply NoDup_nodup|].
  intros r Hr. apply nodup_In. now apply in_map.
Qed.

End GroupSums.

Lemma count_as_Zsum {A : Type} (l : list A) :
  prisma._count l = Zsum (map (fun _ => 1) l).
Proof.
  unfold prisma._count, Zsum.
  induction l as [|a l IH]; [reflexivity|].
  cbn [List.length map fold_right]. rewrite <- IH. lia.
Qed.

Lemma Qsum_map_equiv {A : Type} (f g : A -> Q) (l : list A) :
  (forall a, f a == g a)%Q -> (Qsum (map f l) == Qsum (map g l))%Q.
Proof.
  intros Hfg. unfold Qsum.
  induction l as [|a l IH]; [reflexivity|].
  cbn [map fold_right]. now rewrite IH, Hfg.
Qed.

Lemma or0Q_sum {A : Type} (col : A -> option Q) (l : list A) :
  (or0Q (prisma._sum_Q col l) == Qsum (map (fun r => or0Q (col r)) l))%Q.
Proof.
  unfold prisma._sum_Q.
  assert (Hfold : (fold_right Qplus 0
                     (flat_map (fun r => match col r with
                                         | Some c => [c]
                                         | None => []
                                         end) l)
                   == Qsum (map (fun r => or0Q (col r)) l))%Q).
  { unfold Qsum. induction l as [|a l IH]; [reflexivity|].
    cbn [flat_map map fold_right]. destruct (col a) as [c|];
      cbn [app fold_right or0Q]; rewrite IH; ring. }
  destruct (flat_map _ l) as [|c cs]; cbn [or0Q]; exact Hfold.
Qed.

(** X10.  With the database reachable, the breakdowns of [getUsageStats]
    add up: the requests of the per-type rows and those of the per-model
    rows both sum to [totalRequests], the number of ledger records that
    match the filter; their costs both sum to [totalCost], the sum of the
    estimated costs of these records (a record without a cost counting for
    0); and [periodSavings] is one cent per cached record. *)
Theorem getUsageStats_breakdowns_add_up
    (w : World) (startDate endDate : option Z) (userId : option string) :
  dbUp w = true ->
  let rows :=
    filter (APIUsageTracker.whereClause startDate endDate userId) (aPIUsage w) in
  exists stats,
    outcome (APIUsageTracker.getUsageStats startDate endDate userId) w = Ok stats
    /\ APIUsageTracker.totalRequests stats = totalCount rows
    /\ Zsum (map (fun x => snd (fst x)) (APIUsageTracker.byType stats))
       = APIUsageTracker.totalRequests stats
    /\ Zsum (map (fun x => snd (fst x)) (APIUsageTracker.byModel stats))
       = APIUsageTracker.totalRequests stats
    /\ (APIUsageTracker.totalCost stats
        == Qsum (map (fun r => or0Q (APIUsage.estimatedCost r)) rows))%Q
    /\ (Qsum (map snd (APIUsageTracker.byType stats))
        == APIUsageTracker.totalCost stats)%Q
    /\ (Qsum (map snd (APIUsageTracker.byModel stats))
        == APIUsageTracker.totalCost stats)%Q
    /\ (APIUsageTracker.periodSavings stats
        == inject_Z (cachedCount rows) * 0.01)%Q.
Proof.
  intros Hup rows.
  unfold outcome, APIUsageTracker.getUsageStats, tryCatch, bind.
  rewrite (aPIUsage_rows_up _ _ Hup).
  rewrite (aPIUsage_rows_up _ (log _ w)) by exact Hup.
  rewrite (aPIUsage_rows_up _ (log _ (log _ w))) by exact Hup.
  rewrite (aPIUsage_rows_up _ (log _ (log _ (log _ w)))) by exact Hup.
  cbn [log aPIUsage ret fst].
  fold rows. rewrite (find_cached_group rows).
  eexists. split; [reflexivity|].
  cbn [APIUsageTracker.totalRequests APIUsageTracker.byType
       APIUsageTracker.byModel APIUsageTracker.totalCost
       APIUsageTracker.periodSavings].
  assert (Hrequests : forall (K : Type) (dec : forall a b : K, {a = b} + {a <> b})
                             (key : APIUsage.t -> K),
            Zsum (map (fun x : K * Z * Q => snd (fst x))
                    (map APIUsageTracker.group_row (prisma.groupBy dec key rows)))
            = prisma._count rows).
  { intros K dec key. rewrite map_map.
    unfold APIUsageTracker.group_row. cbn [fst snd].
    rewrite (count_as_Zsum rows).
    rewrite <- (groupBy_Zsum _ _ dec key (fun _ => 1) rows).
    f_equal. apply map_ext. intros g. apply count_as_Zsum. }
  assert (Hcosts : forall (K : Type) (dec : forall a b : K, {a = b} + {a <> b})
                          (key : APIUsage.t -> K),
            (Qsum (map snd
                     (map APIUsageTracker.group_row (prisma.groupBy dec key rows)))
             == or0Q (prisma._sum_Q APIUsage.estimatedCost rows))%Q).
  { intros K dec key. rewrite map_map.
    unfold APIUsageTracker.group_row. cbn [fst snd].
    rewrite or0Q_sum.
    rewrite <- (groupBy_Qsum _ _ dec key
                  (fun r => or0Q (APIUsage.estimatedCost r)) rows).
    apply Qsum_map_equiv. intros g. apply or0Q_sum. }
  split; [reflexivity|].
  split; [apply Hrequests|].
  split; [apply Hrequests|].
  split; [apply or0Q_sum|].
  split; [apply Hcosts|].
  split; [apply Hcosts|].
  reflexivity.
Qed.

Lemma getUsageStats_breakdowns_add_up_witness :
  exists stats,
    outcome (APIUsageTracker.getUsageStats None None (Some "u1"))
      world_four_records = Ok stats
    /\ APIUsageTracker.totalRequests stats = 3
    /\ Zsum (map (fun x => snd (fst x)) (APIUsageTracker.byType stats)) = 3.
Proof.
  destruct (getUsageStats_breakdowns_add_up world_four_records None None
              (Some "u1") eq_refl)
    as [stats [Hs [Htotal [HbyType _]]]].
  exists stats. split; [exact Hs|].
  split; [rewrite Htotal; reflexivity|].
  rewrite HbyType, Htotal. reflexivity.
Defined.

(** ** Budget alert *)

Lemma getUsageStats_resolves (startDate endDate : option Z)
    (userId : option string) (w : World) :
  exists stats w',
    APIUsageTracker.getUsageStats startDate endDate userId w = (Ok stats, w').
Proof.
  unfold APIUsageTracker.getUsageStats, tryCatch.
  match goal with
  | |- context [match ?c w with _ => _ end] => destruct (c w) as [[stats|e] w1]
  end; unfold ret; eauto.
Qed.

Lemma percent_threshold (spend budget c : Q) :
  (0 < budget)%Q ->
  (c <= spend / budget * 100 <-> c * budget <= 100 * spend)%Q.
Proof.
  intros Hpos.
  assert (Hne : ~ (budget == 0)%Q) by (intros H0; rewrite H0 in Hpos; lra).
  assert (Hp : (spend / budget * 100 == 100 * spend / budget)%Q)
    by (field; exact Hne).
  rewrite Hp. split; intros H.
  - assert (Hm : (c * budget <= 100 * spend / budget * budget)%Q)
      by (apply Qmult_le_compat_r; [exact H | lra]).
    assert (Hs : (100 * spend / budget * budget == 100 * spend)%Q)
      by (field; exact Hne).
    now rewrite Hs in Hm.
  - now apply Qle_shift_div_l.
Qed.

(** X11.  For a positive monthly budget [checkBudgetAlert] resolves
    without throwing; it reports, as [currentSpend], the total cost
    [getUsageStats] gives from the start of the month to now, and the
    level follows the share of the budget spent: [exceeded] from 100 %,
    [high] from 80 %, [medium] from 60 %, [low] below. *)
Theorem checkBudgetAlert_levels (startOfMonth : Z -> Z) (monthlyBudget : Q)
    (userId : option string) (w : World) :
  (0 < monthlyBudget)%Q ->
  exists stats alert,
    outcome (APIUsageTracker.getUsageStats (Some (startOfMonth (clock w)))
               (Some (clock w)) userId) w = Ok stats
    /\ outcome (BudgetAlert.checkBudgetAlert startOfMonth monthlyBudget userId) w
       = Ok alert
    /\ BudgetAlert.currentSpend alert = APIUsageTracker.totalCost stats
    /\ BudgetAlert.budget alert = monthlyBudget
    /\ (BudgetAlert.alertLevel alert = BudgetAlert.exceeded
        <-> monthlyBudget <= BudgetAlert.currentSpend alert)%Q
    /\ (BudgetAlert.alertLevel alert = BudgetAlert.high
        <-> 0.8 * monthlyBudget <= BudgetAlert.currentSpend alert
            /\ BudgetAlert.currentSpend alert < monthlyBudget)%Q
    /\ (BudgetAlert.alertLevel alert = BudgetAlert.medium
        <-> 0.6 * monthlyBudget <= BudgetAlert.currentSpend alert
            /\ BudgetAlert.currentSpend alert < 0.8 * monthlyBudget)%Q
    /\ (BudgetAlert.alertLevel alert = BudgetAlert.low
        <-> BudgetAlert.currentSpend alert < 0.6 * monthlyBudget)%Q.
Proof.
  intros Hpos.
  destruct (getUsageStats_resolves (Some (startOfMonth (clock w)))
              (Some (clock w)) userId w) as [stats [w1 Hstats]].
  exists stats.
  unfold outcome, BudgetAlert.checkBudgetAlert, bind, read.
  rewrite Hstats. cbn [fst ret].
  set (spend := APIUsageTracker.totalCost stats).
  pose proof (percent_threshold spend monthlyBudget 100 Hpos) as H100.
  pose proof (percent_threshold spend monthlyBudget 80 Hpos) as H80.
  pose proof (percent_threshold spend monthlyBudget 60 Hpos) as H60.
  eexists. split; [reflexivity|]. split; [reflexivity|].
  cbn [BudgetAlert.currentSpend BudgetAlert.budget BudgetAlert.alertLevel].
  split; [reflexivity|]. split; [reflexivity|].
  destruct (Qle_bool 100 (spend / monthlyBudget * 100)) eqn:E100.
  - apply Qle_bool_iff, H100 in E100.
    repeat split; intros; try discriminate; try reflexivity; lra.
  - assert (N100 : ~ (100 * monthlyBudget <= 100 * spend)%Q).
    { intros H. apply H100, Qle_bool_iff in H. congruence. }
    destruct (Qle_bool 80 (spend / monthlyBudget * 100)) eqn:E80.
    + apply Qle_bool_iff, H80 in E80.
      repeat split; intros; try discriminate; try reflexivity; lra.
    + assert (N80 : ~ (80 * monthlyBudget <= 100 * spend)%Q).
      { intros H. apply H80, Qle_bool_iff in H. congruence. }
      destruct (Qle_bool 60 (spend / monthlyBudget * 100)) eqn:E60.
      * apply Qle_bool_iff, H60 in E60.
        repeat split; intros; try discriminate; try reflexivity; lra.
      * assert (N60 : ~ (60 * monthlyBudget <= 100 * spend)%Q).
        { intros H. apply H60, Qle_bool_iff in H. congruence. }
        repeat split; intros; try discriminate; try reflexivity; lra.
Qed.

Lemma checkBudgetAlert_levels_witness :
  exists alert,
    outcome (BudgetAlert.checkBudgetAlert (fun _ => 0) 0.07 (Some "u1"))
      world_four_records = Ok alert
    /\ BudgetAlert.alertLevel alert = BudgetAlert.high.
Proof.
  destruct (checkBudgetAlert_levels (fun _ => 0) 0.07 (Some "u1")
              world_four_records)
    as [stats [alert [Hstats [Halert [Hspend [_ [_ [Hhigh _]]]]]]]].
  - reflexivity.
  - exists alert. split; [exact Halert|].
    apply Hhigh. rewrite Hspend.
    vm_compute in Hstats. injection Hstats as <-.
    vm_compute. split; [discriminate | reflexivity].
Defined.

(** ** Savings estimate *)

Lemma add_saving_total (savings : AICacheService.CostSavings)
    (stat : string * list AICache.t) :
  fst stat <> "total" ->
  AICacheService.savings_total (AICacheService.add_saving savings stat)
  = (AICacheService.savings_total savings
     + or0Q (AICacheService.costPerHit (fst stat))
       * inject_Z (or0Z (prisma._sum_Z AICache.hitCount (snd stat))))%Q.
Proof.
  intros Hne. unfold AICacheService.add_saving.
  apply String.eqb_neq in Hne. rewrite Hne.
  destruct (fst stat ==? "transcription"); [reflexivity|].
  destruct (fst stat ==? "highlights"); [reflexivity|].
  destruct (fst stat ==? "embeddings"); reflexivity.
Qed.

Lemma fold_add_saving_total (stats : list (string * list AICache.t)) :
  (forall stat, In stat stats -> fst stat <> "total") ->
  forall savings,
    (AICacheService.savings_total
       (fold_left AICacheService.add_saving stats savings)
     == AICacheService.savings_total savings
        + Qsum (map (fun stat =>
                       or0Q (AICacheService.costPerHit (fst stat))
                       * inject_Z (or0Z (prisma._sum_Z AICache.hitCount
                                           (snd stat))))
                  stats))%Q.
Proof.
  induction stats as [|stat stats IH]; intros Hne savings.
  - cbn [fold_left map Qsum fold_right]. ring.
  - cbn [fold_left map Qsum fold_right].
    rewrite IH by (intros x Hx; apply Hne; now right).
    rewrite add_saving_total by (apply Hne; now left).
    unfold Qsum. ring.
Qed.

Lemma group_cost_as_sum (k : string) (rows : list AICache.t) :
  (or0Q (AICacheService.costPerHit k)
   * inject_Z
       (or0Z (prisma._sum_Z AICache.hitCount
                (filter (fun r => if string_dec (AICache.type r) k
                                  then true else false) rows)))
   == Qsum (map (fun r => or0Q (AICacheService.costPerHit (AICache.type r))
                          * inject_Z (AICache.hitCount r))
              (filter (fun r => if string_dec (AICache.type r) k
                                then true else false) rows)))%Q.
Proof.
  rewrite sum_hitCount_total. unfold totalCacheHits, Qsum.
  induction rows as [|r rows IH]; [cbn; ring|].
  cbn [filter]. destruct (string_dec (AICache.type r) k) as [E|E];
    [|exact IH].
  cbn [map fold_right]. rewrite <- IH, E, inject_Z_plus. ring.
Qed.

(** X12.  With the database reachable, and no entry whose kind is
    ['total'] or the name of a member of [Object.prototype],
    [estimateCostSavings] totals the flat cost per hit of each entry times
    its hit count: 0.03 for a transcription, 0.002 for highlights, 0.001
    for embeddings and for a summary, and nothing for any other kind, so
    that hits on ['topics'] entries add no savings.  [getStats] reports
    this total as [estimatedSavings]. *)
Theorem estimateCostSavings_total (w : World) :
  dbUp w = true ->
  (forall r, In r (aICache w) ->
     AICache.type r <> "total"
     /\ Cost.mem_string (AICache.type r) Cost.inherited_names = false) ->
  exists savings stats,
    outcome AICacheService.estimateCostSavings w = Ok savings
    /\ outcome AICacheService.getStats w = Ok stats
    /\ (AICacheService.savings_total savings
        == Qsum (map (fun r =>
                        or0Q (AICacheService.costPerHit (AICache.type r))
                        * inject_Z (AICache.hitCount r))
                   (aICache w)))%Q
    /\ AICacheService.estimatedSavings stats
       = AICacheService.savings_total savings.
Proof.
  intros Hup Htypes.
  assert (Hrun : forall w0, dbUp w0 = true ->
            AICacheService.estimateCostSavings w0
            = (Ok (fold_left AICacheService.add_saving
                     (prisma.groupBy string_dec AICache.type (aICache w0))
                     (AICacheService.mkCostSavings 0 0 0 0)),
               log AICache_query w0)).
  { intros w0 Hup0.
    unfold AICacheService.estimateCostSavings, tryCatch, bind.
    now rewrite (aICache_rows_up _ Hup0). }
  do 2 eexists.
  split; [unfold outcome; rewrite (Hrun w Hup); reflexivity|].
  split.
  { unfold outcome, AICacheService.getStats, tryCatch.
    unfold bind at 1. rewrite (aICache_rows_up _ Hup).
    unfold bind at 1. rewrite (aICache_rows_up (log _ w)) by exact Hup.
    unfold bind at 1.
    rewrite (aPIUsage_rows_up _ (log _ (log _ w))) by exact Hup.
    unfold bind at 1.
    rewrite (aICache_rows_up (log _ (log _ (log _ w)))) by exact Hup.
    unfold bind at 1. rewrite Hrun by exact Hup.
    cbn [ret fst]. reflexivity. }
  split; [|reflexivity].
  cbn [log aICache].
  rewrite fold_add_saving_total.
  - cbn [AICacheService.savings_total]. rewrite Qplus_0_l.
    rewrite <- (groupBy_Qsum _ _ string_dec AICache.type
                  (fun r => (or0Q (AICacheService.costPerHit (AICache.type r))
                             * inject_Z (AICache.hitCount r))%Q) (aICache w)).
    unfold prisma.groupBy. rewrite !map_map. cbn [fst snd].
    apply Qsum_map_equiv. intros k. apply group_cost_as_sum.
  - intros stat Hstat. unfold prisma.groupBy in Hstat.
    apply in_map_iff in Hstat. destruct Hstat as [k [<- Hk]].
    cbn [fst]. apply nodup_In in Hk. apply in_map_iff in Hk.
    destruct Hk as [r [<- Hr]]. now apply Htypes.
Qed.

Lemma estimateCostSavings_total_witness :
  exists savings,
    outcome AICacheService.estimateCostSavings world_three_entries = Ok savings
    /\ (AICacheService.savings_total savings == 0.005)%Q.
Proof.
  destruct (estimateCostSavings_total world_three_entries)
    as [savings [stats [Hs [_ [Htotal _]]]]].
  - reflexivity.
  - intros r [<-|[<-|[<-|[]]]]; split; (discriminate || reflexivity).
  - exists savings. split; [exact Hs|].
    rewrite Htotal. vm_compute. reflexivity.
Defined.

(** ** Cost by video *)

Section StableSort.
Variable A : Type.
Variable before : A -> A -> bool.
Hypothesis before_total : forall a b, before a b = true \/ before b a = true.

Let ordered (a b : A) : Prop := before a b = true.

Lemma insert_sorted_perm (x : A) (l : list A) :
  Permutation (CostByVideo.insert_sorted before x l) (x :: l).
Proof.
  induction l as [|y l IH]; [reflexivity|].
  cbn [CostByVideo.insert_sorted]. destruct (before y x); [|reflexivity].
  rewrite IH. apply perm_swap.
Qed.

Lemma sort_perm (l : list A) : Permutation (CostByVideo.sort before l) l.
Proof.
  unfold CostByVideo.sort.
  assert (Hacc : forall acc,
            Permutation
              (fold_left (fun sorted x => CostByVideo.insert_sorted before x sorted)
                 l acc)
              (acc ++ l)).
  { induction l as [|x l IH]; intros acc; cbn [fold_left].
    - now rewrite app_nil_r.
    - rewrite IH, insert_sorted_perm. cbn [app].
      apply Permutation_middle. }
  apply (Hacc []).
Qed.

Lemma insert_sorted_Sorted (x : A) (l : list A) :
  Sorted ordered l -> Sorted ordered (CostByVideo.insert_sorted before x l).
Proof.
  induction l as [|y l IH]; intros Hs.
  - repeat constructor.
  - cbn [CostByVideo.insert_sorted]. inversion Hs as [|? ? Hl Hhd]; subst.
    destruct (before y x) eqn:E.
    + constructor; [now apply IH|].
      destruct l as [|z l]; cbn [CostByVideo.insert_sorted].
      * constructor. exact E.
      * destruct (before z x); constructor; [|exact E].
        now inversion Hhd.
    + constructor; [exact Hs|]. constructor.
      destruct (before_total x y) as [H|H]; [exact H | congruence].
Qed.

Lemma sort_Sorted (l : list A) : Sorted ordered (CostByVideo.sort before l).
Proof.
  unfold CostByVideo.sort.
  assert (Hacc : forall acc, Sorted ordered acc ->
            Sorted ordered
              (fold_left (fun sorted x => CostByVideo.insert_sorted before x sorted)
                 l acc)).
  { induction l as [|x l IH]; intros acc Hacc; cbn [fold_left]; [exact Hacc|].
    apply IH. now apply insert_sorted_Sorted. }
  apply Hacc. constructor.
Qed.

End StableSort.

Lemma Sorted_weaken (A : Type) (R R' : A -> A -> Prop) (l : list A) :
  Sorted R l -> (forall a b, R a b -> R' a b) -> Sorted R' l.
Proof.
  intros Hs Himp. induction Hs as [|a l Hl IHl Hhd]; constructor;
    [exact IHl|].
  destruct Hhd as [|b l Hab]; constructor. now apply Himp.
Qed.

Lemma flat_map_map {A B C : Type} (g : A -> B) (f : B -> list C) (l : list A) :
  flat_map f (map g l) = flat_map (fun a => f (g a)) l.
Proof.
  induction l as [|a l IH]; [reflexivity|].
  cbn [map flat_map]. now rewrite IH.
Qed.

Lemma video_rows_ids (f : string -> CostByVideo.t)
    (keys : list (option string)) :
  (forall id, CostByVideo.videoId (f id) = id) ->
  forall id,
    In id (map CostByVideo.videoId
             (flat_map (fun k => match k with
                                 | Some v => if v ==? "" then [] else [f v]
                                 | None => []
                                 end) keys))
    <-> id <> "" /\ In (Some id) keys.
Proof.
  intros Hf id. induction keys as [|k keys IH].
  - cbn. tauto.
  - cbn [flat_map]. rewrite map_app, in_app_iff, IH. cbn [In].
    destruct k as [v|].
    + destruct (v ==? "") eqn:E.
      * apply String.eqb_eq in E. subst v. cbn [map In].
        split; [tauto|]. intros [Hne [Heq|Hin]]; [congruence | tauto].
      * apply String.eqb_neq in E. cbn [map In]. rewrite Hf.
        split.
        -- intros [[<-|[]]|[Hne Hin]]; tauto.
        -- intros [Hne [Heq|Hin]]; [left; left; congruence | tauto].
    + cbn [map In]. split; [tauto|].
      intros [Hne [Heq|Hin]]; [discriminate | tauto].
Qed.

Lemma video_rows_NoDup (f : string -> CostByVideo.t)
    (keys : list (option string)) :
  (forall id, CostByVideo.videoId (f id) = id) ->
  NoDup keys ->
  NoDup (map CostByVideo.videoId
           (flat_map (fun k => match k with
                               | Some v => if v ==? "" then [] else [f v]
                               | None => []
                               end) keys)).
Proof.
  intros Hf Hnd. induction Hnd as [|k keys Hnotin Hnd IH]; [constructor|].
  cbn [flat_map]. rewrite map_app.
  destruct k as [v|]; [|exact IH].
  destruct (v ==? ""); [exact IH|].
  cbn [map app]. rewrite Hf. constructor; [|exact IH].
  intros Hin. apply (video_rows_ids f keys Hf) in Hin. tauto.
Qed.

(** X13.  With the database reachable, [getCostByVideo] lists the videos
    in descending order of cost, each video once: a video is listed
    exactly when its id is not empty and some ledger record that matches
    the filter carries it, and its [requests] is the number of these
    records. *)
Theorem getCostByVideo_sorted (w : World) (video : list (string * string))
    (userId : option string) :
  dbUp w = true ->
  let rows := filter (CostByVideo.whereClause userId) (aPIUsage w) in
  exists result,
    outcome (CostByVideo.getCostByVideo video userId) w = Ok result
    /\ Sorted (fun a b => (CostByVideo.totalCost b <= CostByVideo.totalCost a)%Q)
         result
    /\ NoDup (map CostByVideo.videoId result)
    /\ (forall id,
          In id (map CostByVideo.videoId result)
          <-> id <> ""
              /\ exists r, In r rows /\ APIUsage.videoId r = Some id)
    /\ (forall row, In row result ->
          CostByVideo.requests row
          = totalCount
              (filter (fun r => if CostByVideo.option_string_dec
                                     (APIUsage.videoId r)
                                     (Some (CostByVideo.videoId row))
                                then true else false) rows)).
Proof.
  intros Hup rows.
  unfold outcome, CostByVideo.getCostByVideo, tryCatch.
  unfold bind at 1. rewrite (aPIUsage_rows_up _ _ Hup). fold rows.
  unfold bind, CostByVideo.video_findMany.
  cbn [log dbUp]. rewrite Hup. cbn [ret fst].
  set (videos := filter _ video).
  unfold prisma.groupBy. rewrite flat_map_map. cbn [fst snd].
  set (keys := nodup CostByVideo.option_string_dec (map APIUsage.videoId rows)).
  set (f := fun id : string =>
              CostByVideo.mk id
                match CostByVideo.Map_get videos id with
                | Some title => if title ==? "" then "Unknown Video" else title
                | None => "Unknown Video"
                end
                (or0Q (prisma._sum_Q APIUsage.estimatedCost
                         (filter (fun r => if CostByVideo.option_string_dec
                                                (APIUsage.videoId r) (Some id)
                                           then true else false) rows)))
                (prisma._count
                   (filter (fun r => if CostByVideo.option_string_dec
                                          (APIUsage.videoId r) (Some id)
                                     then true else false) rows))).
  assert (Hf : forall id, CostByVideo.videoId (f id) = id) by reflexivity.
  assert (Hlist :
            flat_map
              (fun a : option string =>
                 match a with
                 | Some id =>
                     if id ==? "" then []
                     else
                       [CostByVideo.mk id
                          match CostByVideo.Map_get videos id with
                          | Some title =>
                              if title ==? "" then "Unknown Video" else title
                          | None => "Unknown Video"
                          end
                          (or0Q (prisma._sum_Q APIUsage.estimatedCost
                                   (filter (fun r =>
                                              if CostByVideo.option_string_dec
                                                   (APIUsage.videoId r) a
                                              then true else false) rows)))
                          (prisma._count
                             (filter (fun r =>
                                        if CostByVideo.option_string_dec
                                             (APIUsage.videoId r) a
                                        then true else false) rows))]
                 | None => []
                 end) keys
            = flat_map (fun k => match k with
                                 | Some v => if v ==? "" then [] else [f v]
                                 | None => []
                                 end) keys).
  { apply flat_map_ext. intros [id|]; reflexivity. }
  rewrite Hlist.
  set (unsorted := flat_map _ keys).
  pose proof (sort_perm _ CostByVideo.by_cost_descending unsorted) as Hperm.
  eexists. split; [reflexivity|].
  split.
  { assert (Htotal : forall a b,
              CostByVideo.by_cost_descending a b = true
              \/ CostByVideo.by_cost_descending b a = true).
    { intros a b. unfold CostByVideo.by_cost_descending.
      destruct (Qlt_le_dec (CostByVideo.totalCost a) (CostByVideo.totalCost b))
        as [Hlt|Hle].
      - right. apply Qle_bool_iff. lra.
      - left. apply Qle_bool_iff. lra. }
    apply (Sorted_weaken _ _ _ _
             (sort_Sorted _ CostByVideo.by_cost_descending Htotal unsorted)).
    intros a b Hab. unfold CostByVideo.by_cost_descending in Hab.
    apply Qle_bool_iff in Hab. lra. }
  split.
  { apply (Permutation_NoDup (Permutation_sym (Permutation_map _ Hperm))).
    apply video_rows_NoDup; [exact Hf | apply NoDup_nodup]. }
  split.
  { intros id.
    rewrite (Permutation_in' (eq_refl id) (Permutation_map _ Hperm)).
    subst unsorted. rewrite (video_rows_ids f keys Hf).
    subst keys. rewrite nodup_In, in_map_iff.
    split; intros [Hne [r Hr]]; (split; [exact Hne|]); exists r; tauto. }
  intros row Hrow.
  apply (Permutation_in _ Hperm) in Hrow.
  subst unsorted. apply in_flat_map in Hrow.
  destruct Hrow as [[v|] [_ Hin]]; [|destruct Hin].
  destruct (v ==? ""); [destruct Hin|].
  destruct Hin as [<-|[]]. reflexivity.
Qed.

Lemma getCostByVideo_sorted_witness :
  exists result,
    outcome (CostByVideo.getCostByVideo [("v1", "Kickoff"); ("v2", "")] None)
      world_four_records = Ok result
    /\ map CostByVideo.videoId result = ["v1"; "v2"]
    /\ map CostByVideo.videoTitle result = ["Kickoff"; "Unknown Video"]
    /\ map CostByVideo.requests result = [2; 1].
Proof.
  destruct (getCostByVideo_sorted world_four_records
              [("v1", "Kickoff"); ("v2", "")] None eq_refl)
    as [result [Hresult _]].
  exists result. split; [exact Hresult|].
  vm_compute in Hresult. injection Hresult as <-.
  repeat split.
Defined.

(** ** Orchestrators: edges *)

Lemma string_app_inv_head (p x y : string) : p ++ x = p ++ y -> x = y.
Proof.
  induction p as [|c p IH]; cbn [append]; intros H; [exact H|].
  injection H as H. now apply IH.
Qed.

Section OrchestratorEdges.
Context {env : Collaborators}.

(** X14.  When the audio file cannot be read, [transcribeAudioCached]
    throws ["Transcription failed: " ++ cause] before anything else
    happens: no lookup, no provider call, no write. *)
Theorem transcribeAudio_unreadable_file (audioPath : string)
    (language videoId userId : option string) (w : World) (cause : Thrown) :
  fs_readFile audioPath = Throw cause ->
  AIServices.transcribeAudioCached audioPath language videoId userId w
  = (Throw (ErrorObj ("Transcription failed: " ++ message_of cause)), w).
Proof.
  intros Hfile.
  unfold AIServices.transcribeAudioCached, tryCatch, bind, lift.
  now rewrite Hfile.
Qed.

(** X15.  An unreachable database does not fail a transcription: the
    lookup counts as a miss, the provider is called once, its result is
    returned, and both tables stay as they were, the record and the store
    being attempted and swallowed. *)
Theorem transcribeAudio_survives_outage (audioPath : string)
    (language videoId userId : option string) (w : World)
    (bytes : string) (fields : list (string * JSON)) :
  dbUp w = false ->
  fs_readFile audioPath = Ok bytes ->
  openai_audio_transcriptions_create audioPath bytes
    (or_default language "en") = Ok fields ->
  let run :=
    AIServices.transcribeAudioCached audioPath language videoId userId in
  let hash :=
    AICacheService.generateHash
      (AIServices.transcription_cacheKey bytes language)
      AI_CONFIG.transcription_model in
  outcome run w = Ok (JObj fields)
  /\ aICache (world_after run w) = aICache w
  /\ aPIUsage (world_after run w) = aPIUsage w
  /\ calls_since w (world_after run w)
     = [AICache_findUnique hash;
        OpenAI_transcription (or_default language "en");
        APIUsage_create false; AICache_upsert hash].
Proof.
  intros Hdown Hfile Hcall run hash. subst run.
  unfold outcome, world_after, AIServices.transcribeAudioCached, tryCatch,
    bind, lift, provider.
  change AI_CONFIG.transcription_language with "en".
  rewrite Hfile. cbv beta iota.
  rewrite (get_down _ _ _ _ Hdown). cbn [truthy].
  rewrite Hcall. cbn [js_get].
  rewrite trackUsage_down by exact Hdown.
  rewrite set_down by exact Hdown.
  cbn [ret fst snd log aICache aPIUsage].
  repeat split.
  apply calls_since_log. cbn [calls log]. fold hash.
  rewrite <- !app_assoc. reflexivity.
Qed.

(** X16.  Transcriptions asked for in different languages never share a
    cache key: the keys of one file differ as soon as the languages,
    after the default ['en'] is filled in, differ. *)
Theorem transcription_keys_differ_by_language (bytes : string)
    (language language' : option string) :
  or_default language "en" <> or_default language' "en" ->
  AIServices.transcription_cacheKey bytes language
  <> AIServices.transcription_cacheKey bytes language'.
Proof.
  intros Hne Heq. apply Hne.
  unfold AIServices.transcription_cacheKey in Heq.
  apply string_app_inv_head in Heq.
  now apply (string_app_inv_head ":") in Heq.
Qed.

End OrchestratorEdges.

Lemma transcribeAudio_unreadable_file_witness :
  AIServices.transcribeAudioCached (env:=no_file_env) "/tmp/missing.wav"
    None None None empty_world
  = (Throw (ErrorObj
              "Transcription failed: ENOENT: no such file or directory"),
     empty_world).
Proof.
  apply (transcribeAudio_unreadable_file (env:=no_file_env) "/tmp/missing.wav"
           None None None empty_world
           (ErrorObj "ENOENT: no such file or directory")).
  reflexivity.
Defined.

Lemma transcribeAudio_survives_outage_witness :
  outcome (AIServices.transcribeAudioCached (env:=answering_env)
             "/tmp/audio.wav" (Some "fr") None None) offline_world
  = Ok (JObj [("text", JStr "hello"); ("duration", JNum 90)])
  /\ aICache
       (world_after
          (AIServices.transcribeAudioCached (env:=answering_env)
             "/tmp/audio.wav" (Some "fr") None None) offline_world)
     = aICache offline_world.
Proof.
  destruct (transcribeAudio_survives_outage (env:=answering_env)
              "/tmp/audio.wav" (Some "fr") None None offline_world
              "RIFF-bytes" [("text", JStr "hello"); ("duration", JNum 90)])
    as [Hresult [Hcache _]]; try reflexivity.
  split; [exact Hresult | exact Hcache].
Defined.

Lemma transcription_keys_differ_by_language_witness :
  AIServices.transcription_cacheKey (env:=answering_env) "RIFF-bytes" None
  <> AIServices.transcription_cacheKey (env:=answering_env) "RIFF-bytes"
       (Some "fr").
Proof.
  apply (transcription_keys_differ_by_language (env:=answering_env)).
  discriminate.
Defined.

(** ** Orchestrators: hits and repeated requests *)

Lemma integral_inject_Z (z : Z) : integral (Some (inject_Z z)).
Proof. cbn [integral]. now rewrite Qfloor_Z. Qed.

Lemma usage_tokens_integral (r : ChatResponse) :
  integral (Some (usage_prompt_tokens r))
  /\ integral (Some (usage_completion_tokens r)).
Proof.
  unfold usage_prompt_tokens, usage_completion_tokens.
  destruct (usage r) as [[p c]|]; split;
    try apply integral_inject_Z; apply (integral_inject_Z 0).
Qed.

Lemma existsb_false_filter {A : Type} (f : A -> bool) (l : list A) :
  existsb f l = false -> filter f l = [].
Proof.
  intros H. apply filter_none. intros x Hx.
  destruct (f x) eqn:E; [|reflexivity].
  rewrite <- H. symmetry. apply existsb_exists. now exists x.
Qed.

(** [trackUsage] of a call counted in tokens, with the database reachable
    and whole token counts. *)
Lemma trackUsage_up (w : World) (type model : string)
    (inputTokens outputTokens : option Q) (cached : bool)
    (videoId userId : option string) :
  dbUp w = true ->
  integral inputTokens -> integral outputTokens ->
  exists w',
    APIUsageTracker.trackUsage type model inputTokens outputTokens
      None (Some cached) videoId userId w = (Ok tt, w')
    /\ aPIUsage w'
       = (aPIUsage w ++
          [APIUsage.mk type model (option_map Qfloor inputTokens)
             (option_map Qfloor outputTokens) None
             (Some (Cost.calculateCost type model inputTokens outputTokens
                      None))
             cached (clock w) videoId userId])%list
    /\ aICache w' = aICache w
    /\ dbUp w' = true
    /\ clock w' = clock w
    /\ calls w' = (calls w ++ [APIUsage_create cached])%list.
Proof.
  intros Hup Hin Hout.
  unfold APIUsageTracker.trackUsage, tryCatch, prisma.aPIUsage_create, bind,
    lift.
  rewrite (request_up _ _ Hup).
  rewrite (as_Int_integral _ Hin), (as_Int_integral _ Hout).
  eexists. split; [reflexivity|].
  cbn [with_aPIUsage log aPIUsage aICache clock dbUp calls]. tauto.
Qed.

Section RepeatedRequests.
Context {env : Collaborators}.

Lemma get_found_full (w : World) (type content model : string)
    (row : AICache.t) :
  dbUp w = true ->
  find (prisma.has_hash (AICacheService.generateHash content model))
    (aICache w) = Some row ->
  AICacheService.expired row (clock w) = false ->
  exists w',
    AICacheService.get type content model w = (Ok (AICache.response row), w')
    /\ aPIUsage w' = aPIUsage w
    /\ dbUp w' = true
    /\ clock w' = clock w
    /\ calls w'
       = (calls w
          ++ [AICache_findUnique (AICacheService.generateHash content model);
              AICache_update (AICacheService.generateHash content model)])%list.
Proof.
  intros Hup Hfind Hfresh.
  destruct (get_found w type content model row Hup Hfind Hfresh)
    as [w1 [Hget Hcalls]].
  destruct (get_effect type content model w)
    as [v [w1' [l [Hget' [Hled [Hup' [Hclk _]]]]]]].
  rewrite Hget in Hget'. injection Hget' as <- <-.
  exists w1. repeat split; try assumption. congruence.
Qed.

(** The last two steps of a miss, with the database reachable: the usage
    record is appended to the ledger, and a lookup by the fingerprint then
    finds the payload. *)
Lemma record_then_store (w : World) (type model : string)
    (inputTokens outputTokens : option Q)
    (videoId userId : option string) (kind content cmodel : string)
    (result : JSON) (days inputSize outputSize : option Z) :
  dbUp w = true ->
  integral inputTokens -> integral outputTokens ->
  exists w2 w3,
    APIUsageTracker.trackUsage type model inputTokens outputTokens
      None (Some false) videoId userId w = (Ok tt, w2)
    /\ AICacheService.set kind content cmodel result days inputSize
         outputSize w2 = (Ok tt, w3)
    /\ dbUp w3 = true
    /\ clock w3 = clock w
    /\ aPIUsage w3
       = (aPIUsage w ++
          [APIUsage.mk type model (option_map Qfloor inputTokens)
             (option_map Qfloor outputTokens) None
             (Some (Cost.calculateCost type model inputTokens outputTokens
                      None))
             false (clock w) videoId userId])%list
    /\ calls w3
       = (calls w
          ++ [APIUsage_create false;
              AICache_upsert (AICacheService.generateHash content cmodel)])%list
    /\ exists row,
         find (prisma.has_hash (AICacheService.generateHash content cmodel))
           (aICache w3) = Some row
         /\ AICache.response row = result
         /\ AICache.expiresAt row = AICacheService.expiresAt_of (clock w) days.
Proof.
  intros Hup Hin Hout.
  destruct (trackUsage_up w type model inputTokens outputTokens
              false videoId userId Hup Hin Hout)
    as [w2 [Htrack [Hled2 [_ [Hup2 [Hclk2 Hcalls2]]]]]].
  destruct (set_effect kind content cmodel result days inputSize outputSize w2)
    as [w3 [Hset [Hled3 [Hup3 [Hclk3 Hcalls3]]]]].
  destruct (set_row_found w2 kind content cmodel result days inputSize
              outputSize Hup2) as [_ [_ [row [Hfind [Hresp Hexp]]]]].
  unfold world_after in Hfind. rewrite Hset in Hfind. cbn [snd] in Hfind.
  exists w2, w3. split; [exact Htrack|]. split; [exact Hset|].
  split; [congruence|]. split; [congruence|].
  split; [congruence|].
  split; [rewrite Hcalls3, Hcalls2; now rewrite <- app_assoc|].
  exists row. split; [exact Hfind|]. split; [exact Hresp|]. congruence.
Qed.

Ltac serve_hit Hget Htruthy w :=
  match type of Hget with
  | outcome (AICacheService.get ?type ?key ?model) w = Ok _ =>
      let v := fresh "v" in
      let w1 := fresh "w1" in
      let l := fresh "l" in
      let Hget' := fresh "Hget'" in
      let Hcalls := fresh "Hcalls" in
      let Hs := fresh "Hs" in
      let Hr := fresh "Hr" in
      let Hp := fresh "Hp" in
      destruct (get_effect type key model w)
        as [v [w1 [l [Hget' [_ [_ [_ [Hcalls [_ [Hs [Hr [Hp _]]]]]]]]]]]];
      unfold outcome in Hget; rewrite Hget' in Hget; cbn [fst] in Hget;
      injection Hget as ->;
      unfold served_from_cache, outcome, world_after, tryCatch, bind, lift;
      rewrite ?Hget', ?Htruthy;
      match goal with
      | |- context [APIUsageTracker.trackUsage ?a ?b ?c ?d ?e (Some true)
                      ?f ?g w1] =>
          let w2 := fresh "w2" in
          let Htrack := fresh "Htrack" in
          let Hcalls2 := fresh "Hcalls2" in
          destruct (trackUsage_effect a b c d e true f g w1)
            as [w2 [Htrack [_ [_ [_ Hcalls2]]]]];
          rewrite Htrack; cbn [ret fst snd];
          rewrite (calls_since_log w (l ++ [APIUsage_create true]))
            by (rewrite Hcalls2, Hcalls; now rewrite <- app_assoc);
          rewrite !existsb_app, filter_app, Hp, Hs,
            (existsb_false_filter _ _ Hr);
          repeat split
      end
  end.

Ltac record_hit Hup Hget Htruthy w :=
  match type of Hget with
  | outcome (AICacheService.get ?type ?key ?model) w = Ok _ =>
      let v := fresh "v" in
      let w1 := fresh "w1" in
      let l := fresh "l" in
      let Hget' := fresh "Hget'" in
      let Hled := fresh "Hled" in
      let Hup1 := fresh "Hup1" in
      let Hclk1 := fresh "Hclk1" in
      destruct (get_effect type key model w)
        as [v [w1 [l [Hget' [Hled [Hup1 [Hclk1 _]]]]]]];
      unfold outcome in Hget; rewrite Hget' in Hget; cbn [fst] in Hget;
      injection Hget as ->;
      unfold world_after, tryCatch, bind, lift;
      rewrite ?Hget', ?Htruthy;
      match goal with
      | |- context [APIUsageTracker.trackUsage ?a ?b ?c ?d None (Some true)
                      ?f ?g w1] =>
          let w2 := fresh "w2" in
          let Htrack := fresh "Htrack" in
          let Hled2 := fresh "Hled2" in
          destruct (trackUsage_up w1 a b c d true f g)
            as [w2 [Htrack [Hled2 _]]];
          [ congruence
          | apply integral_inject_Z
          | apply (integral_inject_Z _)
          | rewrite Htrack; cbn [ret fst snd];
            rewrite Hled2, Hled, Hclk1; reflexivity ]
      end
  end.

(** [trackUsage] of a transcription, with the database reachable. *)
Lemma trackUsage_duration (w : World) (duration : option JSON)
    (videoId userId : option string) :
  dbUp w = true ->
  exists w',
    APIUsageTracker.trackUsage "transcription" AI_CONFIG.transcription_model
      None None duration (Some true) videoId userId w = (Ok tt, w')
    /\ aPIUsage w'
       = ledger_after_cached_transcription (aPIUsage w) duration (clock w)
           videoId userId.
Proof.
  intros Hup.
  unfold APIUsageTracker.trackUsage, tryCatch,
    prisma.aPIUsage_create, bind, lift, ledger_after_cached_transcription.
  rewrite (request_up _ _ Hup).
  destruct duration as [[]|]; cbn [prisma.as_Float];
    eexists; (split; [reflexivity|]); reflexivity.
Qed.

Lemma js_get_truthy (v : JSON) (name : string) :
  truthy v = true -> exists field, js_get v name = Ok field.
Proof. destruct v; try discriminate; intros _; eexists; reflexivity. Qed.

(** X17.  Every single-shot capability serves a hit the same way: when the
    lookup yields a truthy value, that value is returned as it is, without
    validation, no provider call is made, nothing is stored, and exactly
    one usage record, flagged [cached], is handed to the ledger.  With the
    database reachable the ledger gains exactly that record, stamped with
    the time of the hit and priced from the estimated token counts
    ([ceil(length / 3.5)] input tokens and 500, 100 or 50 output tokens
    for highlights, a summary or topics).  For a transcription the record
    carries the [duration] of the cached payload; as the payload is not
    validated, a [duration] that is neither a number nor [null] makes the
    ledger refuse the record, and the hit then leaves no trace in it. *)
Theorem cache_hit_is_served :
  (forall (audioPath : string) (language videoId userId : option string)
          (w : World) (bytes : string) (cached : JSON)
          (duration : option JSON),
      fs_readFile audioPath = Ok bytes ->
      outcome (AICacheService.get "transcription"
                 (AIServices.transcription_cacheKey bytes language)
                 AI_CONFIG.transcription_model) w = Ok cached ->
      truthy cached = true ->
      js_get cached "duration" = Ok duration ->
      let run :=
        AIServices.transcribeAudioCached audioPath language videoId userId in
      served_from_cache run w cached
      /\ (dbUp w = true ->
          aPIUsage (world_after run w)
          = ledger_after_cached_transcription (aPIUsage w) duration (clock w)
              videoId userId))
  /\ (forall (transcript : string) (segments : list Segment)
             (videoId userId : option string) (w : World) (cached : JSON),
        outcome (AICacheService.get "highlights"
                   (AIServices.highlights_cacheKey transcript segments)
                   AI_CONFIG.highlights_model) w = Ok cached ->
        truthy cached = true ->
        let run :=
          AIServices.generateHighlightsCached transcript segments videoId
            userId in
        served_from_cache run w cached
        /\ (dbUp w = true ->
            aPIUsage (world_after run w)
            = (aPIUsage w ++
               [completion_record AI_CONFIG.highlights_model
                  (estimatedInputTokens transcript) 500 true (clock w)
                  videoId userId])%list))
  /\ (forall (transcript : string) (videoId userId : option string)
             (w : World) (cached : JSON),
        outcome (AICacheService.get "summary"
                   (AIServices.summary_cacheKey transcript)
                   AI_CONFIG.completion_model) w = Ok cached ->
        truthy cached = true ->
        let run :=
          AIServices.generateSummaryCached transcript videoId userId in
        served_from_cache run w cached
        /\ (dbUp w = true ->
            aPIUsage (world_after run w)
            = (aPIUsage w ++
               [completion_record AI_CONFIG.completion_model
                  (estimatedInputTokens transcript) 100 true (clock w)
                  videoId userId])%list))
  /\ (forall (transcript : string) (videoId userId : option string)
             (w : World) (cached : JSON),
        outcome (AICacheService.get "topics"
                   (AIServices.topics_cacheKey transcript)
                   AI_CONFIG.completion_model) w = Ok cached ->
        truthy cached = true ->
        let run :=
          AIServices.extractKeyTopicsCached transcript videoId userId in
        served_from_cache run w cached
        /\ (dbUp w = true ->
            aPIUsage (world_after run w)
            = (aPIUsage w ++
               [completion_record AI_CONFIG.completion_model
                  (estimatedInputTokens transcript) 50 true (clock w)
                  videoId userId])%list)).
Proof.
  split; [|split; [|split]].
  - intros audioPath language videoId userId w bytes cached duration Hfile
      Hget Htruthy Hduration run. subst run.
    destruct (get_effect "transcription"
                (AIServices.transcription_cacheKey bytes language)
                AI_CONFIG.transcription_model w)
      as [v [w1 [l [Hget' [Hled [Hup1 [Hclk1 [Hcalls [_ [Hs [Hr [Hp _]]]]]]]]]]]].
    unfold outcome in Hget. rewrite Hget' in Hget. cbn [fst] in Hget.
    injection Hget as ->.
    unfold served_from_cache, outcome, world_after,
      AIServices.transcribeAudioCached, tryCatch, bind, lift.
    rewrite Hfile. cbv beta iota. rewrite Hget', Htruthy, Hduration.
    split.
    + destruct (trackUsage_effect "transcription"
                  AI_CONFIG.transcription_model None None duration true
                  videoId userId w1) as [w2 [Htrack [_ [_ [_ Hcalls2]]]]].
      rewrite Htrack. cbn [ret fst snd].
      rewrite (calls_since_log w (l ++ [APIUsage_create true]))
        by (rewrite Hcalls2, Hcalls; now rewrite <- app_assoc).
      rewrite !existsb_app, filter_app, Hp, Hs, (existsb_false_filter _ _ Hr).
      repeat split.
    + intros Hup.
      destruct (trackUsage_duration w1 duration videoId userId)
        as [w2 [Htrack Hled2]]; [congruence|].
      rewrite Htrack. cbn [ret fst snd].
      now rewrite Hled2, Hled, Hclk1.
  - intros transcript segments videoId userId w cached Hget Htruthy run.
    subst run. unfold AIServices.generateHighlightsCached. split.
    + serve_hit Hget Htruthy w.
    + intros Hup. record_hit Hup Hget Htruthy w.
  - intros transcript videoId userId w cached Hget Htruthy run.
    subst run. unfold AIServices.generateSummaryCached. split.
    + serve_hit Hget Htruthy w.
    + intros Hup. record_hit Hup Hget Htruthy w.
  - intros transcript videoId userId w cached Hget Htruthy run.
    subst run.
    unfold AIServices.extractKeyTopicsCached, AIServices.extractKeyTopics_try.
    split.
    + serve_hit Hget Htruthy w.
    + intros Hup. record_hit Hup Hget Htruthy w.
Qed.

(** The world a miss of [generateHighlightsCached] leaves when the provider
    answers with a valid response and the database is reachable. *)
Lemma generateHighlights_miss_state (transcript : string)
    (segments : list Segment) (videoId userId : option string) (w : World)
    (response : ChatResponse) (content : option string) (result : JSON)
    (items : list JSON) :
  dbUp w = true ->
  lookup_misses "highlights"
    (AIServices.highlights_cacheKey transcript segments)
    AI_CONFIG.highlights_model w ->
  openai_chat_completions_create (HighlightsTask segments) = Ok response ->
  first_content response = Ok content ->
  JSON_parse (or_default content "{}") = Ok result ->
  js_get result "highlights" = Ok (Some (JArr items)) ->
  exists w',
    AIServices.generateHighlightsCached transcript segments videoId userId w
    = (Ok result, w')
    /\ dbUp w' = true
    /\ clock w' = clock w
    /\ aPIUsage w'
       = (aPIUsage w ++
          [completion_record AI_CONFIG.highlights_model
             (usage_prompt_tokens response) (usage_completion_tokens response)
             false (clock w) videoId userId])%list
    /\ exists row,
         find (prisma.has_hash
                 (AICacheService.generateHash
                    (AIServices.highlights_cacheKey transcript segments)
                    AI_CONFIG.highlights_model))
           (aICache w') = Some row
         /\ AICache.response row = result
         /\ AICache.expiresAt row = Some (clock w + days_ms 90).
Proof.
  intros Hup Hmiss Hcall Hfirst Hparse Hread.
  destruct (lookup_misses_run _ _ _ _ Hmiss) as [v [Hget Hfalsy]].
  destruct (get_effect "highlights"
              (AIServices.highlights_cacheKey transcript segments)
              AI_CONFIG.highlights_model w)
    as [v0 [w1 [l [Hget' [Hled1 [Hup1 [Hclk1 _]]]]]]].
  unfold world_after in Hget. rewrite Hget' in Hget. cbn [snd] in Hget.
  injection Hget as ->.
  destruct (record_then_store
              (log (OpenAI_chat (HighlightsTask segments)) w1)
              "completion" AI_CONFIG.highlights_model
              (Some (usage_prompt_tokens response))
              (Some (usage_completion_tokens response)) videoId userId
              "highlights" (AIServices.highlights_cacheKey transcript segments)
              AI_CONFIG.highlights_model result (Some 90)
              (Some (strlen transcript))
              (Some (strlen (JSON_stringify result))))
    as [w2 [w3 [Htrack [Hset [Hup3 [Hclk3 [Hled3 [_ Hrow]]]]]]]].
  { cbn [log dbUp]. congruence. }
  { apply usage_tokens_integral. }
  { apply usage_tokens_integral. }
  cbn [log clock aPIUsage] in Hclk3, Hled3, Hrow.
  exists w3. split.
  { unfold AIServices.generateHighlightsCached, tryCatch, bind, lift, provider.
    rewrite Hget', Hfalsy. rewrite Hcall, Hfirst, Hparse, Hread.
    cbn [truthy_opt truthy Array_isArray negb orb].
    rewrite Htrack, Hset. reflexivity. }
  split; [exact Hup3|]. split; [congruence|].
  split; [rewrite Hled3, Hled1, Hclk1; reflexivity|].
  destruct Hrow as [row [Hfind [Hresp Hexp]]].
  exists row. split; [exact Hfind|]. split; [exact Hresp|].
  rewrite Hexp, Hclk1. reflexivity.
Qed.

(** The world a hit of [generateHighlightsCached] leaves with the database
    reachable. *)
Lemma generateHighlights_hit_state (transcript : string)
    (segments : list Segment) (videoId userId : option string) (w : World)
    (row : AICache.t) :
  dbUp w = true ->
  find (prisma.has_hash
          (AICacheService.generateHash
             (AIServices.highlights_cacheKey transcript segments)
             AI_CONFIG.highlights_model))
    (aICache w) = Some row ->
  AICacheService.expired row (clock w) = false ->
  truthy (AICache.response row) = true ->
  let run :=
    AIServices.generateHighlightsCached transcript segments videoId userId in
  outcome run w = Ok (AICache.response row)
  /\ existsb is_provider_call (calls_since w (world_after run w)) = false
  /\ aPIUsage (world_after run w)
     = (aPIUsage w ++
        [completion_record AI_CONFIG.highlights_model
           (estimatedInputTokens transcript) 500 true (clock w) videoId
           userId])%list.
Proof.
  intros Hup Hfind Hfresh Htruthy run. subst run.
  destruct (get_found_full w "highlights"
              (AIServices.highlights_cacheKey transcript segments)
              AI_CONFIG.highlights_model row Hup Hfind Hfresh)
    as [w1 [Hget [Hled1 [Hup1 [Hclk1 Hcalls1]]]]].
  destruct (trackUsage_up w1 "completion" AI_CONFIG.highlights_model
              (Some (estimatedInputTokens transcript)) (Some 500%Q) true
              videoId userId Hup1)
    as [w2 [Htrack [Hled2 [_ [_ [_ Hcalls2]]]]]].
  { apply integral_inject_Z. }
  { apply (integral_inject_Z 500). }
  unfold outcome, world_after, AIServices.generateHighlightsCached, tryCatch,
    bind, lift.
  rewrite Hget, Htruthy, Htrack. cbn [ret fst snd].
  split; [reflexivity|]. split.
  - rewrite (calls_since_log w _ w2
               ltac:(rewrite Hcalls2, Hcalls1, <- app_assoc; reflexivity)).
    reflexivity.
  - rewrite Hled2, Hled1, Hclk1. reflexivity.
Qed.

(** X18.  A repeated highlights request is served from the cache.  With
    the database reachable, after a miss that the provider answers with a
    valid response, the same request made within 90 days returns the same
    result without a provider call, whoever asks; and the ledger has
    gained exactly two records: the paid call, with the token counts the
    provider reported, and the hit, flagged [cached] and priced from the
    estimate of [ceil(length / 3.5)] input and 500 output tokens. *)
Theorem generateHighlights_repeat_is_served (transcript : string)
    (segments : list Segment) (videoId userId videoId' userId' : option string)
    (w : World) (response : ChatResponse) (content : option string)
    (result : JSON) (items : list JSON) (later : Z) :
  dbUp w = true ->
  lookup_misses "highlights"
    (AIServices.highlights_cacheKey transcript segments)
    AI_CONFIG.highlights_model w ->
  openai_chat_completions_create (HighlightsTask segments) = Ok response ->
  first_content response = Ok content ->
  JSON_parse (or_default content "{}") = Ok result ->
  js_get result "highlights" = Ok (Some (JArr items)) ->
  later <= clock w + days_ms 90 ->
  let first :=
    AIServices.generateHighlightsCached transcript segments videoId userId in
  let w1 := with_clock later (world_after first w) in
  let again :=
    AIServices.generateHighlightsCached transcript segments videoId' userId' in
  outcome first w = Ok result
  /\ outcome again w1 = Ok result
  /\ existsb is_provider_call (calls_since w1 (world_after again w1)) = false
  /\ aPIUsage (world_after again w1)
     = (aPIUsage w ++
        [completion_record AI_CONFIG.highlights_model
           (usage_prompt_tokens response) (usage_completion_tokens response)
           false (clock w) videoId userId;
         completion_record AI_CONFIG.highlights_model
           (estimatedInputTokens transcript) 500 true later videoId'
           userId'])%list.
Proof.
  intros Hup Hmiss Hcall Hfirst Hparse Hread Hlater first w1 again.
  subst first w1 again.
  destruct (generateHighlights_miss_state transcript segments videoId userId w
              response content result items Hup Hmiss Hcall Hfirst Hparse
              Hread)
    as [w' [Hrun [Hup' [Hclk' [Hled' [row [Hfind [Hresp Hexp]]]]]]]].
  assert (Hw : world_after
                 (AIServices.generateHighlightsCached transcript segments
                    videoId userId) w = w').
  { unfold world_after. now rewrite Hrun. }
  rewrite Hw.
  split; [unfold outcome; now rewrite Hrun|].
  assert (Htruthy : truthy (AICache.response row) = true).
  { rewrite Hresp. destruct result; try discriminate Hread; reflexivity. }
  destruct (generateHighlights_hit_state transcript segments videoId' userId'
              (with_clock later w') row)
    as [Hout [Hnone Hled]]; try assumption.
  { unfold AICacheService.expired. rewrite Hexp. cbn [with_clock clock].
    apply Z.ltb_ge. exact Hlater. }
  rewrite <- Hresp. split; [exact Hout|]. split; [exact Hnone|].
  rewrite Hled. cbn [with_clock aPIUsage clock]. rewrite Hled'.
  rewrite <- app_assoc. reflexivity.
Qed.

(** The world a miss of [generateSummaryCached] leaves when the provider
    answers and the database is reachable. *)
Lemma generateSummary_miss_state (transcript : string)
    (videoId userId : option string) (w : World)
    (response : ChatResponse) (content : option string) :
  dbUp w = true ->
  lookup_misses "summary" (AIServices.summary_cacheKey transcript)
    AI_CONFIG.completion_model w ->
  openai_chat_completions_create (SummaryTask transcript) = Ok response ->
  first_content response = Ok content ->
  let hash :=
    AICacheService.generateHash (AIServices.summary_cacheKey transcript)
      AI_CONFIG.completion_model in
  exists w',
    AIServices.generateSummaryCached transcript videoId userId w
    = (Ok (JStr (or_default content "")), w')
    /\ dbUp w' = true
    /\ clock w' = clock w
    /\ calls_since w w'
       = (calls_since w
            (world_after
               (AICacheService.get "summary"
                  (AIServices.summary_cacheKey transcript)
                  AI_CONFIG.completion_model) w)
          ++ [OpenAI_chat (SummaryTask transcript); APIUsage_create false;
              AICache_upsert hash])%list
    /\ exists row,
         find (prisma.has_hash hash) (aICache w') = Some row
         /\ AICache.response row = JStr (or_default content "")
         /\ AICache.expiresAt row = Some (clock w + days_ms 60).
Proof.
  intros Hup Hmiss Hcall Hfirst hash.
  destruct (lookup_misses_run _ _ _ _ Hmiss) as [v [Hget Hfalsy]].
  destruct (get_effect "summary" (AIServices.summary_cacheKey transcript)
              AI_CONFIG.completion_model w)
    as [v0 [w1 [l [Hget' [_ [Hup1 [Hclk1 [Hcalls1 _]]]]]]]].
  unfold world_after in Hget. rewrite Hget' in Hget. cbn [snd] in Hget.
  injection Hget as ->.
  destruct (record_then_store
              (log (OpenAI_chat (SummaryTask transcript)) w1)
              "completion" AI_CONFIG.completion_model
              (Some (usage_prompt_tokens response))
              (Some (usage_completion_tokens response)) videoId userId
              "summary" (AIServices.summary_cacheKey transcript)
              AI_CONFIG.completion_model (JStr (or_default content ""))
              (Some 60) (Some (strlen transcript))
              (Some (strlen (or_default content ""))))
    as [w2 [w3 [Htrack [Hset [Hup3 [Hclk3 [_ [Hcalls3 Hrow]]]]]]]].
  { cbn [log dbUp]. congruence. }
  { apply usage_tokens_integral. }
  { apply usage_tokens_integral. }
  cbn [log clock calls] in Hclk3, Hcalls3, Hrow.
  exists w3. split.
  { unfold AIServices.generateSummaryCached, tryCatch, bind, lift, provider.
    rewrite Hget', Hfalsy. rewrite Hcall, Hfirst.
    rewrite Htrack, Hset. reflexivity. }
  split; [exact Hup3|]. split; [congruence|].
  split.
  { unfold world_after. rewrite Hget'. cbn [snd].
    rewrite (calls_since_log w l w1 Hcalls1).
    apply calls_since_log. rewrite Hcalls3, Hcalls1.
    rewrite <- !app_assoc. reflexivity. }
  destruct Hrow as [row [Hfind [Hresp Hexp]]].
  exists row. split; [exact Hfind|]. split; [exact Hresp|].
  rewrite Hexp, Hclk1. reflexivity.
Qed.

(** X19.  An empty summary is stored but never served.  When the provider
    returns no content, [generateSummaryCached] yields and caches the empty
    string; the empty string being falsy, the next request finds the
    entry, counts a hit on it, and calls the provider all the same, then
    records the call and stores its result again. *)
Theorem empty_summary_is_never_served (transcript : string)
    (videoId userId videoId' userId' : option string) (w : World)
    (response : ChatResponse) (content : option string) (later : Z) :
  dbUp w = true ->
  lookup_misses "summary" (AIServices.summary_cacheKey transcript)
    AI_CONFIG.completion_model w ->
  openai_chat_completions_create (SummaryTask transcript) = Ok response ->
  first_content response = Ok content ->
  or_default content "" = "" ->
  later <= clock w + days_ms 60 ->
  let hash :=
    AICacheService.generateHash (AIServices.summary_cacheKey transcript)
      AI_CONFIG.completion_model in
  let first := AIServices.generateSummaryCached transcript videoId userId in
  let w1 := with_clock later (world_after first w) in
  let again := AIServices.generateSummaryCached transcript videoId' userId' in
  outcome first w = Ok (JStr "")
  /\ outcome again w1 = Ok (JStr "")
  /\ calls_since w1 (world_after again w1)
     = [AICache_findUnique hash; AICache_update hash;
        OpenAI_chat (SummaryTask transcript); APIUsage_create false;
        AICache_upsert hash].
Proof.
  intros Hup Hmiss Hcall Hfirst Hempty Hlater hash first w1 again.
  subst first w1 again.
  destruct (generateSummary_miss_state transcript videoId userId w response
              content Hup Hmiss Hcall Hfirst)
    as [w' [Hrun [Hup' [Hclk' [_ [row [Hfind [Hresp Hexp]]]]]]]].
  assert (Hw : world_after
                 (AIServices.generateSummaryCached transcript videoId userId)
                 w = w').
  { unfold world_after. now rewrite Hrun. }
  rewrite Hw. rewrite Hempty in Hrun, Hresp.
  split; [unfold outcome; now rewrite Hrun|].
  destruct (get_found_full (with_clock later w') "summary"
              (AIServices.summary_cacheKey transcript)
              AI_CONFIG.completion_model row)
    as [w2 [Hget [_ [_ [_ Hcalls2]]]]]; try assumption.
  { unfold AICacheService.expired. rewrite Hexp. cbn [with_clock clock].
    apply Z.ltb_ge. congruence. }
  rewrite Hresp in Hget.
  destruct (generateSummary_miss_state transcript videoId' userId'
              (with_clock later w') response content)
    as [w3 [Hrun3 [_ [_ [Hcalls3 _]]]]]; try assumption.
  { exists (JStr ""). unfold outcome. rewrite Hget. split; reflexivity. }
  rewrite Hempty in Hrun3.
  unfold outcome, world_after. rewrite Hrun3. cbn [fst snd].
  split; [reflexivity|].
  rewrite Hcalls3. unfold world_after. rewrite Hget. cbn [snd].
  rewrite (calls_since_log _ _ _ Hcalls2). reflexivity.
Qed.

(** The world a miss of [extractKeyTopicsCached] leaves when the provider
    answers and the database is reachable. *)
Lemma extractKeyTopics_miss_state (transcript : string)
    (videoId userId : option string) (w : World)
    (response : ChatResponse) (content : option string) (result : JSON)
    (field : option JSON) :
  dbUp w = true ->
  lookup_misses "topics" (AIServices.topics_cacheKey transcript)
    AI_CONFIG.completion_model w ->
  openai_chat_completions_create (TopicsTask transcript) = Ok response ->
  first_content response = Ok content ->
  JSON_parse (or_default content empty_topics_text) = Ok result ->
  js_get result "topics" = Ok field ->
  let topics :=
    match field with
    | Some t => if truthy t then t else JArr []
    | None => JArr []
    end in
  exists w',
    AIServices.extractKeyTopicsCached transcript videoId userId w
    = (Ok topics, w')
    /\ dbUp w' = true
    /\ clock w' = clock w
    /\ exists row,
         find (prisma.has_hash
                 (AICacheService.generateHash
                    (AIServices.topics_cacheKey transcript)
                    AI_CONFIG.completion_model))
           (aICache w') = Some row
         /\ AICache.response row = topics
         /\ AICache.expiresAt row = Some (clock w + days_ms 60).
Proof.
  intros Hup Hmiss Hcall Hfirst Hparse Hread topics.
  destruct (lookup_misses_run _ _ _ _ Hmiss) as [v [Hget Hfalsy]].
  destruct (get_effect "topics" (AIServices.topics_cacheKey transcript)
              AI_CONFIG.completion_model w)
    as [v0 [w1 [l [Hget' [_ [Hup1 [Hclk1 _]]]]]]].
  unfold world_after in Hget. rewrite Hget' in Hget. cbn [snd] in Hget.
  injection Hget as ->.
  destruct (record_then_store
              (log (OpenAI_chat (TopicsTask transcript)) w1)
              "completion" AI_CONFIG.completion_model
              (Some (usage_prompt_tokens response))
              (Some (usage_completion_tokens response)) videoId userId
              "topics" (AIServices.topics_cacheKey transcript)
              AI_CONFIG.completion_model topics
              (Some 60) (Some (strlen transcript))
              (Some (strlen (JSON_stringify topics))))
    as [w2 [w3 [Htrack [Hset [Hup3 [Hclk3 [_ [_ Hrow]]]]]]]].
  { cbn [log dbUp]. congruence. }
  { apply usage_tokens_integral. }
  { apply usage_tokens_integral. }
  cbn [log clock] in Hclk3, Hrow.
  exists w3. split.
  { unfold AIServices.extractKeyTopicsCached, AIServices.extractKeyTopics_try,
      tryCatch, bind, lift, provider.
    rewrite Hget', Hfalsy. rewrite Hcall, Hfirst, Hparse, Hread.
    fold topics. rewrite Htrack, Hset. reflexivity. }
  split; [exact Hup3|]. split; [congruence|].
  destruct Hrow as [row [Hfind [Hresp Hexp]]].
  exists row. split; [exact Hfind|]. split; [exact Hresp|].
  rewrite Hexp, Hclk1. reflexivity.
Qed.

(** X20.  A response without topics is cached as the empty list.  When the
    parsed response has no [topics], or a falsy one, [extractKeyTopicsCached]
    yields [[]] and stores it; an array being truthy, every request for the
    same transcript within 60 days is then served [[]] from the cache, and
    the provider is not asked again. *)
Theorem missing_topics_are_cached_as_empty (transcript : string)
    (videoId userId videoId' userId' : option string) (w : World)
    (response : ChatResponse) (content : option string) (result : JSON)
    (field : option JSON) (later : Z) :
  dbUp w = true ->
  lookup_misses "topics" (AIServices.topics_cacheKey transcript)
    AI_CONFIG.completion_model w ->
  openai_chat_completions_create (TopicsTask transcript) = Ok response ->
  first_content response = Ok content ->
  JSON_parse (or_default content empty_topics_text) = Ok result ->
  js_get result "topics" = Ok field ->
  truthy_opt field = false ->
  later <= clock w + days_ms 60 ->
  let first := AIServices.extractKeyTopicsCached transcript videoId userId in
  let w1 := with_clock later (world_after first w) in
  let again := AIServices.extractKeyTopicsCached transcript videoId' userId' in
  outcome first w = Ok (JArr [])
  /\ served_from_cache again w1 (JArr []).
Proof.
  intros Hup Hmiss Hcall Hfirst Hparse Hread Hfalsy Hlater first w1 again.
  subst first w1 again.
  destruct (extractKeyTopics_miss_state transcript videoId userId w response
              content result field Hup Hmiss Hcall Hfirst Hparse Hread)
    as [w' [Hrun [Hup' [Hclk' [row [Hfind [Hresp Hexp]]]]]]].
  assert (Htopics : match field with
                    | Some t => if truthy t then t else JArr []
                    | None => JArr []
                    end = JArr []).
  { destruct field as [t|]; [|reflexivity].
    cbn [truthy_opt] in Hfalsy. now rewrite Hfalsy. }
  rewrite Htopics in Hrun, Hresp.
  assert (Hw : world_after
                 (AIServices.extractKeyTopicsCached transcript videoId userId)
                 w = w').
  { unfold world_after. now rewrite Hrun. }
  rewrite Hw.
  split; [unfold outcome; now rewrite Hrun|].
  destruct (get_found_full (with_clock later w') "topics"
              (AIServices.topics_cacheKey transcript)
              AI_CONFIG.completion_model row)
    as [w2 [Hget0 _]]; try assumption.
  { unfold AICacheService.expired. rewrite Hexp. cbn [with_clock clock].
    apply Z.ltb_ge. congruence. }
  rewrite Hresp in Hget0.
  assert (Hget : outcome
                   (AICacheService.get "topics"
                      (AIServices.topics_cacheKey transcript)
                      AI_CONFIG.completion_model) (with_clock later w')
                 = Ok (JArr [])).
  { unfold outcome. now rewrite Hget0. }
  assert (Htruthy : truthy (JArr []) = true) by reflexivity.
  clear Hget0.
  unfold AIServices.extractKeyTopicsCached, AIServices.extractKeyTopics_try.
  serve_hit Hget Htruthy (with_clock later w').
Qed.

End RepeatedRequests.

Lemma cache_hit_is_served_witness :
  (served_from_cache
     (AIServices.generateSummaryCached (env:=failing_env) "t" None None)
     world_cached_summary (JStr "a summary")
   /\ List.length
        (aPIUsage
           (world_after
              (AIServices.generateSummaryCached (env:=failing_env) "t" None
                 None) world_cached_summary)) = 1%nat)
  /\ (served_from_cache
        (AIServices.transcribeAudioCached (env:=failing_env) "/tmp/audio.wav"
           None None None)
        world_cached_transcription
        (JObj [("text", JStr "hello"); ("duration", JStr "90")])
      /\ aPIUsage
           (world_after
              (AIServices.transcribeAudioCached (env:=failing_env)
                 "/tmp/audio.wav" None None None) world_cached_transcription)
         = []).
Proof.
  destruct (cache_hit_is_served (env:=failing_env))
    as [Htranscription [_ [Hsummary _]]].
  split.
  - destruct (Hsummary "t" None None world_cached_summary (JStr "a summary"))
      as [Hserved Hledger]; try reflexivity.
    split; [exact Hserved|]. now rewrite Hledger.
  - destruct (Htranscription "/tmp/audio.wav" None None None
                world_cached_transcription "RIFF-bytes"
                (JObj [("text", JStr "hello"); ("duration", JStr "90")])
                (Some (JStr "90")))
      as [Hserved Hledger]; try reflexivity.
    split; [exact Hserved|]. now rewrite Hledger.
Defined.

Lemma generateHighlights_repeat_is_served_witness :
  outcome
    (AIServices.generateHighlightsCached (env:=answering_env) "transcript" []
       None (Some "u2"))
    (with_clock 86400000
       (world_after
          (AIServices.generateHighlightsCached (env:=answering_env)
             "transcript" [] (Some "v1") (Some "u1")) empty_world))
  = Ok (JObj [("highlights", JArr []); ("summary", JStr "s")]).
Proof.
  destruct (generateHighlights_repeat_is_served (env:=answering_env)
              "transcript" [] (Some "v1") (Some "u1") None (Some "u2")
              empty_world (mkChatResponse [Some "{...}"] (Some (120, 30)))
              (Some "{...}")
              (JObj [("highlights", JArr []); ("summary", JStr "s")]) []
              86400000)
    as [_ [Hagain _]].
  - reflexivity.
  - exists JNull. split; reflexivity.
  - reflexivity.
  - reflexivity.
  - reflexivity.
  - reflexivity.
  - vm_compute. discriminate.
  - exact Hagain.
Defined.

Lemma empty_summary_is_never_served_witness :
  existsb is_provider_call
    (calls_since
       (with_clock 86400000
          (world_after
             (AIServices.generateSummaryCached (env:=silent_env) "t" None None)
             empty_world))
       (world_after
          (AIServices.generateSummaryCached (env:=silent_env) "t" None None)
          (with_clock 86400000
             (world_after
                (AIServices.generateSummaryCached (env:=silent_env) "t" None
                   None) empty_world))))
  = true.
Proof.
  destruct (empty_summary_is_never_served (env:=silent_env) "t" None None None
              None empty_world (mkChatResponse [None] (Some (120, 0))) None
              86400000)
    as [_ [_ Hcalls]].
  - reflexivity.
  - exists JNull. split; reflexivity.
  - reflexivity.
  - reflexivity.
  - reflexivity.
  - vm_compute. discriminate.
  - rewrite Hcalls. reflexivity.
Defined.

Lemma missing_topics_are_cached_as_empty_witness :
  served_from_cache
    (AIServices.extractKeyTopicsCached (env:=silent_env) "t" None None)
    (with_clock 86400000
       (world_after
          (AIServices.extractKeyTopicsCached (env:=silent_env) "t" None None)
          empty_world))
    (JArr []).
Proof.
  destruct (missing_topics_are_cached_as_empty (env:=silent_env) "t" None None
              None None empty_world (mkChatResponse [None] (Some (120, 0)))
              None (JObj []) None 86400000)
    as [_ Hserved].
  - reflexivity.
  - exists JNull. split; reflexivity.
  - reflexivity.
  - reflexivity.
  - reflexivity.
  - reflexivity.
  - reflexivity.
  - vm_compute. discriminate.
  - exact Hserved.
Defined.

(** ** Speaker detection *)

Lemma nth_error_mapi_from {A B : Type} (f : A -> nat -> B) (l : list A) :
  forall index i,
    nth_error (Speakers.mapi_from f index l) i
    = option_map (fun a => f a (index + i)%nat) (nth_error l i).
Proof.
  induction l as [|a l IH]; intros index i.
  - destruct i; reflexivity.
  - destruct i as [|i]; cbn [Speakers.mapi_from nth_error option_map].
    + now rewrite Nat.add_0_r.
    + rewrite IH. now rewrite Nat.add_succ_r.
Qed.

Lemma map_mapi_from {A B : Type} (f : A -> nat -> B) (g : B -> A)
    (l : list A) :
  (forall a i, g (f a i) = a) ->
  forall index, map g (Speakers.mapi_from f index l) = l.
Proof.
  intros Hg. induction l as [|a l IH]; intros index; [reflexivity|].
  cbn [Speakers.mapi_from map]. now rewrite Hg, IH.
Qed.

(** X21.  [detectSpeakers] keeps every segment, in order, and only adds a
    label.  The first segment is always labelled ["speaker_1"]; a segment
    that starts more than two seconds after the previous one ended is
    always labelled; and a label is a function of the position alone: the
    segment at index [i] is either unlabelled or labelled
    ["speaker_" ++ (floor(i / 10) + 1)], so that labelled segments among
    the same ten positions always carry the same label. *)
Theorem detectSpeakers_labels (segments : list Segment) :
  map Speakers.segment (Speakers.detectSpeakers segments) = segments
  /\ (forall s,
        hd_error (Speakers.detectSpeakers segments) = Some s ->
        Speakers.speakerId s = Some "speaker_1")
  /\ (forall i s,
        nth_error (Speakers.detectSpeakers segments) i = Some s ->
        Speakers.speakerId s = None
        \/ Speakers.speakerId s
           = Some ("speaker_" ++ Speakers.decimal (i / 10 + 1)))
  /\ (forall i prev seg,
        nth_error segments i = Some prev ->
        nth_error segments (S i) = Some seg ->
        (2 < startTime seg - endTime prev)%Q ->
        exists s,
          nth_error (Speakers.detectSpeakers segments) (S i) = Some s
          /\ Speakers.segment s = seg
          /\ Speakers.speakerId s
             = Some ("speaker_" ++ Speakers.decimal (S i / 10 + 1))).
Proof.
  unfold Speakers.detectSpeakers.
  split; [|split; [|split]].
  - now apply map_mapi_from.
  - intros s Hs. destruct segments as [|seg rest]; [discriminate Hs|].
    cbn [Speakers.mapi_from hd_error] in Hs. injection Hs as <-.
    reflexivity.
  - intros i s Hs. rewrite nth_error_mapi_from in Hs.
    destruct (nth_error segments i) as [seg|]; [|discriminate Hs].
    cbn [option_map] in Hs. injection Hs as <-.
    cbn [Speakers.speakerId Nat.add].
    destruct (Speakers.isNewSpeaker _ seg); [right|left]; reflexivity.
  - intros i prev seg Hprev Hseg Hpause.
    rewrite nth_error_mapi_from, Hseg. cbn [option_map Nat.add].
    eexists. split; [reflexivity|]. split; [reflexivity|].
    cbn [Speakers.speakerId]. rewrite Hprev.
    unfold Speakers.isNewSpeaker.
    destruct (Qle_bool (startTime seg - endTime prev) 2) eqn:E.
    + apply Qle_bool_iff in E. exfalso. exact (Qlt_not_le _ _ Hpause E).
    + reflexivity.
Qed.

Lemma detectSpeakers_labels_witness :
  exists s,
    nth_error
      (Speakers.detectSpeakers
         [mkSegment "Welcome back." 0 4; mkSegment "Thanks." 7 9]) 1
    = Some s
    /\ Speakers.speakerId s = Some "speaker_1".
Proof.
  destruct (detectSpeakers_labels
              [mkSegment "Welcome back." 0 4; mkSegment "Thanks." 7 9])
    as [_ [_ [_ Hpause]]].
  destruct (Hpause 0%nat (mkSegment "Welcome back." 0 4)
              (mkSegment "Thanks." 7 9) eq_refl eq_refl)
    as [s [Hs [_ Hid]]].
  - reflexivity.
  - exists s. split; [exact Hs | exact Hid].
Defined.
